(** * mcp-qemu-vm: the session and action orchestration layer of [server.py]

    A shallow embedding of [server.py] (the FastMCP server that drives a QEMU
    guest over one SSH session and keeps per-project records on the host),
    followed by the properties of its tools.

    Conventions of the embedding.
    - Text.  A Python [str] is a Rocq [string]; one Rocq character is one
      Python character.  The character classes and case tables are the ASCII
      ones: text outside ASCII (where Unicode tables decide [isalnum],
      [isspace], [upper] and [lower]) is outside the model, and the functions
      below leave such characters alone.
    - Values.  The loosely typed values of a JSON document or of an action
      descriptor are [pyval]s.  A float is identified by the text [str()]
      prints for it.
    - Effects.  Tools run in a state-and-exception monad over a [World]: the
      remote end of the SSH session, the commands handed to it so far, the
      active project, the contents of [data/projects] and the clock.
    - Files.  The host's file system is the tree under [data/projects]:
      project directories with their [metadata.json], [logs/project.log] and
      [advice/].  Opening a file for writing raises when its directory is
      missing; reading is Python's text mode.
    - The tools are called the way FastMCP calls them, with the request
      context filled in and the arguments of the declared types.
    - The remote machine, asyncssh and the clock are parameters ([Env]). *)

From stdpp Require Import gmap strings list fin_maps pretty sorting.
From Stdlib Require Import ZArith Ascii.

Local Open Scope Z_scope.

(** ** Python built-ins on text *)

Module Py.

Definition nl : ascii := "010"%char.
Definition cr : ascii := "013"%char.
Definition dquote : ascii := "034"%char.
Definition squote : ascii := "039"%char.
Definition backslash : ascii := "092"%char.

Definition str1 (c : ascii) : string := String c EmptyString.

Definition code (c : ascii) : N := N_of_ascii c.

(** [c.isspace()] *)
Definition isspace (c : ascii) : bool :=
  let n := code c in
  ((9 <=? n) && (n <=? 13) || (28 <=? n) && (n <=? 32))%N.

Definition isdigit (c : ascii) : bool :=
  let n := code c in ((48 <=? n) && (n <=? 57))%N.
Definition isupper (c : ascii) : bool :=
  let n := code c in ((65 <=? n) && (n <=? 90))%N.
Definition islower (c : ascii) : bool :=
  let n := code c in ((97 <=? n) && (n <=? 122))%N.

(** [c.isalnum()] *)
Definition isalnum (c : ascii) : bool := isdigit c || isupper c || islower c.

Definition lower_char (c : ascii) : ascii :=
  if isupper c then ascii_of_N (code c + 32) else c.
Definition upper_char (c : ascii) : ascii :=
  if islower c then ascii_of_N (code c - 32) else c.

Fixpoint map_chars (f : ascii → ascii) (s : string) : string :=
  match s with
  | EmptyString => EmptyString
  | String c s' => String (f c) (map_chars f s')
  end.

(** [s.lower()], [s.upper()] *)
Definition lower : string → string := map_chars lower_char.
Definition upper : string → string := map_chars upper_char.

(** [len(s)] *)
Definition len (s : string) : Z := Z.of_nat (String.length s).

(** [c in chars], for a character [c] *)
Fixpoint char_in (c : ascii) (chars : string) : bool :=
  match chars with
  | EmptyString => false
  | String d chars' => if decide (c = d) then true else char_in c chars'
  end.

(** [s.lstrip(...)]: drop the longest prefix of characters satisfying [f] *)
Fixpoint lstrip_by (f : ascii → bool) (s : string) : string :=
  match s with
  | EmptyString => EmptyString
  | String c s' => if f c then lstrip_by f s' else s
  end.

(** [s.rstrip(...)]: drop the longest suffix of characters satisfying [f] *)
Fixpoint rstrip_by (f : ascii → bool) (s : string) : string :=
  match s with
  | EmptyString => EmptyString
  | String c s' =>
      match rstrip_by f s' with
      | EmptyString => if f c then EmptyString else str1 c
      | r => String c r
      end
  end.

(** [s.strip()] *)
Definition strip (s : string) : string := rstrip_by isspace (lstrip_by isspace s).

(** [s.lstrip(chars)] *)
Definition lstrip (chars : string) (s : string) : string :=
  lstrip_by (λ c, char_in c chars) s.

(** [s.split(sep)] for a one-character separator: never the empty list *)
Fixpoint split (sep : ascii) (s : string) : list string :=
  match s with
  | EmptyString => [EmptyString]
  | String c s' =>
      if decide (c = sep) then EmptyString :: split sep s'
      else match split sep s' with
           | [] => [str1 c]
           | h :: t => String c h :: t
           end
  end.

(** [sep.join(parts)] *)
Fixpoint join (sep : string) (parts : list string) : string :=
  match parts with
  | [] => EmptyString
  | [p] => p
  | p :: rest => p +:+ sep +:+ join sep rest
  end.

(** [s.replace(old, new)] for a one-character [old] *)
Fixpoint replace (old : ascii) (new : string) (s : string) : string :=
  match s with
  | EmptyString => EmptyString
  | String c s' =>
      if decide (c = old) then new +:+ replace old new s'
      else String c (replace old new s')
  end.

(** [s.startswith(p)] *)
Fixpoint startswith (p s : string) : bool :=
  match p, s with
  | EmptyString, _ => true
  | String a p', String b s' => if decide (a = b) then startswith p' s' else false
  | String _ _, EmptyString => false
  end.

(** [needle in hay], for strings *)
Fixpoint contains (needle hay : string) : bool :=
  startswith needle hay ||
  match hay with
  | EmptyString => false
  | String _ hay' => contains needle hay'
  end.

(** [s.endswith(p)]: some suffix of [s] is [p] *)
Fixpoint endswith (p s : string) : bool :=
  if decide (s = p) then true
  else match s with
       | EmptyString => false
       | String _ s' => endswith p s'
       end.

(** [s[:n]] for a constant [n >= 0] *)
Fixpoint take (n : nat) (s : string) : string :=
  match n, s with
  | S n', String c s' => String c (take n' s')
  | _, _ => EmptyString
  end.

(** [l[start:]] on a list, for any integer [start] *)
Definition slice_from {A} (start : Z) (l : list A) : list A :=
  let n := Z.of_nat (length l) in
  if start <? 0 then drop (Z.to_nat (Z.max 0 (n + start))) l
  else drop (Z.to_nat (Z.min start n)) l.

(** Lookup in a dict with string keys held as the list of its items *)
Fixpoint assoc {A} (k : string) (d : list (string * A)) : option A :=
  match d with
  | [] => None
  | (k', v) :: d' => if decide (k = k') then Some v else assoc k d'
  end.

(** What reading a file in text mode ([read_text]) makes of the stored
    text: each "\r\n" and each lone "\r" is read as "\n" *)
Fixpoint read_text (stored : string) : string :=
  match stored with
  | EmptyString => EmptyString
  | String c s' =>
      if decide (c = cr) then
        String nl (match s' with
                   | String d s'' => if decide (d = nl) then read_text s'' else read_text s'
                   | EmptyString => EmptyString
                   end)
      else String c (read_text s')
  end.

(** [str(n)] for an integer *)
Definition str_int (n : Z) : string := pretty n.

End Py.

(** ** Loosely typed values *)

#[warnings="-register-all"]
Inductive pyval : Type :=
  | VNone
  | VBool (b : bool)
  | VInt (n : Z)
  | VFloat (r : string)
  | VStr (s : string)
  | VList (l : list pyval)
  | VDict (d : list (string * pyval)).

Module Val.

(** [type(v).__name__] *)
Definition type_name (v : pyval) : string :=
  match v with
  | VNone => "NoneType"
  | VBool _ => "bool"
  | VInt _ => "int"
  | VFloat _ => "float"
  | VStr _ => "str"
  | VList _ => "list"
  | VDict _ => "dict"
  end.

Definition hex_digit (n : N) : ascii :=
  if (n <? 10)%N then ascii_of_N (48 + n) else ascii_of_N (87 + n).

Definition repr_char (quote c : ascii) : string :=
  let n := Py.code c in
  if decide (c = quote) then String Py.backslash (Py.str1 c)
  else if decide (c = Py.backslash) then String Py.backslash (Py.str1 c)
  else if decide (n = 9%N) then "\t"
  else if decide (n = 10%N) then "\n"
  else if decide (n = 13%N) then "\r"
  else if ((n <? 32) || (127 <=? n))%N
       then "\x" +:+ String (hex_digit (n / 16)) (Py.str1 (hex_digit (n mod 16)))
  else Py.str1 c.

Fixpoint repr_chars (quote : ascii) (s : string) : string :=
  match s with
  | EmptyString => EmptyString
  | String c s' => repr_char quote c +:+ repr_chars quote s'
  end.

(** [repr(s)] for a string: single quotes, unless the text has a single
    quote and no double quote *)
Definition repr_str (s : string) : string :=
  let quote :=
    if Py.char_in Py.squote s && negb (Py.char_in Py.dquote s)
    then Py.dquote else Py.squote in
  String quote (repr_chars quote s +:+ Py.str1 quote).

(** [repr(v)] *)
Fixpoint repr (v : pyval) : string :=
  match v with
  | VNone => "None"
  | VBool true => "True"
  | VBool false => "False"
  | VInt n => Py.str_int n
  | VFloat r => r
  | VStr s => repr_str s
  | VList l => "[" +:+ Py.join ", " (map repr l) +:+ "]"
  | VDict d =>
      "{" +:+ Py.join ", " (map (λ kv, repr_str kv.1 +:+ ": " +:+ repr kv.2) d) +:+ "}"
  end.

(** [str(v)], which is what an f-string field prints *)
Definition str (v : pyval) : string :=
  match v with
  | VStr s => s
  | _ => repr v
  end.

(** [v == s] for a string literal [s] *)
Definition eq_str (v : pyval) (s : string) : bool :=
  match v with
  | VStr t => bool_decide (t = s)
  | _ => false
  end.

End Val.

(** An f-string is the concatenation of its pieces. *)
Definition fstr (pieces : list string) : string :=
  foldr String.append EmptyString pieces.

(** ** Exceptions and outcomes *)

Record exn : Type := Exn { exn_class : string; exn_str : string }.

Inductive outcome (A : Type) : Type :=
  | Returned (a : A)
  | Raised (e : exn).
Arguments Returned {A} a.
Arguments Raised {A} e.

Definition AttributeError (v : pyval) (attr : string) : exn :=
  Exn "AttributeError"
    (fstr ["'"; Val.type_name v; "' object has no attribute '"; attr; "'"]).
Definition NotIterable (v : pyval) : exn :=
  Exn "TypeError" (fstr ["'"; Val.type_name v; "' object is not iterable"]).
Definition Unhashable (v : pyval) : exn :=
  Exn "TypeError" (fstr ["unhashable type: '"; Val.type_name v; "'"]).
Definition NotOrderable (v : pyval) : exn :=
  Exn "TypeError"
    (fstr ["'<=' not supported between instances of '"; Val.type_name v; "' and 'int'"]).
Definition ValueError (msg : string) : exn := Exn "ValueError" msg.
Definition FileNotFoundError (path : string) : exn :=
  Exn "FileNotFoundError" (fstr ["[Errno 2] No such file or directory: '"; path; "'"]).
Definition JSONDecodeError : exn :=
  Exn "JSONDecodeError" "Expecting value: line 1 column 1 (char 0)".

(** ** Values seen through Python's protocols *)

Module Proto.

Fixpoint chars (s : string) : list pyval :=
  match s with
  | EmptyString => []
  | String c s' => VStr (Py.str1 c) :: chars s'
  end.

(** [iter(v)]: strings yield their characters, dicts their keys *)
Definition iterate (v : pyval) : outcome (list pyval) :=
  match v with
  | VStr s => Returned (chars s)
  | VList l => Returned l
  | VDict d => Returned (map (λ kv, VStr kv.1) d)
  | _ => Raised (NotIterable v)
  end.

(** [k.lower()] *)
Definition lower (k : pyval) : outcome string :=
  match k with
  | VStr s => Returned (Py.lower s)
  | _ => Raised (AttributeError k "lower")
  end.

(** [[k.lower() for k in ks]], stopping at the first element that raises *)
Fixpoint lower_all (ks : list pyval) : outcome (list string) :=
  match ks with
  | [] => Returned []
  | k :: ks' =>
      match lower k with
      | Raised e => Raised e
      | Returned s =>
          match lower_all ks' with
          | Raised e => Raised e
          | Returned ss => Returned (s :: ss)
          end
      end
  end.

(** ["+".join(k.lower() for k in keys)] *)
Definition combo (keys : pyval) : outcome string :=
  match iterate keys with
  | Raised e => Raised e
  | Returned ks =>
      match lower_all ks with
      | Raised e => Raised e
      | Returned ss => Returned (Py.join "+" ss)
      end
  end.

(** [text.replace(...)] of [type_text]: a backslash goes before every
    double quote *)
Definition escape_quotes (text : pyval) : outcome string :=
  match text with
  | VStr s => Returned (Py.replace Py.dquote (String Py.backslash (Py.str1 Py.dquote)) s)
  | _ => Raised (AttributeError text "replace")
  end.

(** [len(text)], reached only after [text.replace] went through *)
Definition len (text : pyval) : Z :=
  match text with
  | VStr s => Py.len s
  | _ => 0
  end.

(** [button_map.get(button, 1)]: a key that is no string is in no
    [button_map]; a list or a dict cannot be hashed *)
Definition button_number (button_map : list (string * Z)) (button : pyval) : outcome Z :=
  match button with
  | VStr s => Returned (from_option id 1 (Py.assoc s button_map))
  | VList _ | VDict _ => Raised (Unhashable button)
  | _ => Returned 1
  end.

(** Whether [asyncio.sleep(seconds)] accepts its argument *)
Definition sleepable (seconds : pyval) : outcome unit :=
  match seconds with
  | VBool _ | VInt _ | VFloat _ => Returned tt
  | _ => Raised (NotOrderable seconds)
  end.

(** [data[key]] for a string key *)
Definition getitem (data : pyval) (key : string) : outcome pyval :=
  match data with
  | VDict d =>
      match Py.assoc key d with
      | Some v => Returned v
      | None => Raised (Exn "KeyError" (Val.repr_str key))
      end
  | VList _ => Raised (Exn "TypeError" "list indices must be integers or slices, not str")
  | VStr _ => Raised (Exn "TypeError" "string indices must be integers, not 'str'")
  | _ => Raised (Exn "TypeError" (fstr ["'"; Val.type_name data; "' object is not subscriptable"]))
  end.

(** [data.get(key, default)] *)
Definition get (data : pyval) (key : string) (default : pyval) : outcome pyval :=
  match data with
  | VDict d => Returned (from_option id default (Py.assoc key d))
  | _ => Raised (AttributeError data "get")
  end.

End Proto.

(** ** The host: projects on disk, the clock *)

Record datetime : Type :=
  { year : nat; month : nat; day : nat; hour : nat; minute : nat; second : nat }.

(** A decimal field of [strftime], padded with zeros to [width] *)
Definition zero_padded (width : nat) (n : nat) : string :=
  let digits := pretty n in
  fstr (replicate (width - String.length digits) "0") +:+ digits.

(** [strftime("%Y%m%d-%H%M%S")] *)
Definition strftime_compact (t : datetime) : string :=
  fstr [zero_padded 4 (year t); zero_padded 2 (month t); zero_padded 2 (day t); "-";
        zero_padded 2 (hour t); zero_padded 2 (minute t); zero_padded 2 (second t)].

(** [strftime("%Y-%m-%d %H:%M:%S")] *)
Definition strftime_log (t : datetime) : string :=
  fstr [zero_padded 4 (year t); "-"; zero_padded 2 (month t); "-"; zero_padded 2 (day t); " ";
        zero_padded 2 (hour t); ":"; zero_padded 2 (minute t); ":"; zero_padded 2 (second t)].

(** What [json.load] makes of a file *)
Inductive json_doc : Type :=
  | Malformed
  | Json (v : pyval).

(** A directory under [data/projects].  [logs = None]: no [logs/] directory;
    [logs = Some None]: the directory is there, [project.log] is not.
    [advice] maps the names of the files of [advice/] to their text. *)
Record ProjectDir : Type :=
  { metadata_json : option json_doc;
    logs : option (option string);
    advice : option (gmap string string) }.

Inductive node : Type :=
  | File
  | Dir (d : ProjectDir).

Definition set_logs (l : option (option string)) (d : ProjectDir) : ProjectDir :=
  {| metadata_json := metadata_json d; logs := l; advice := advice d |}.
Definition set_advice (a : option (gmap string string)) (d : ProjectDir) : ProjectDir :=
  {| metadata_json := metadata_json d; logs := logs d; advice := a |}.

(** [PROJECTS_DIR] *)
Definition PROJECTS_DIR : string := "data/projects".

(** The dataclass [Project].  [path] is kept as the name of the project's
    directory under [PROJECTS_DIR]; the fields read from [metadata.json] are
    whatever JSON values the file holds. *)
Record Project : Type :=
  { name : pyval; path : string; created_at : pyval; description : pyval }.

(** [str(project.path)] *)
Definition path_str (dir : string) : string := fstr [PROJECTS_DIR; "/"; dir].

(** ** The remote session *)

(** The result object of [ssh.run] *)
Record SSHCompletedProcess : Type :=
  { stdout : string; stderr : string; returncode : Z }.

(** ** The world and the monad of tools *)

Record World : Type :=
  { sent : list string;            (* commands handed to [ssh.run], oldest first *)
    project : option Project;      (* [AppContext.project] *)
    disk : gmap string node;       (* the entries of [PROJECTS_DIR] *)
    clock_reads : nat }.           (* calls of [utcnow] so far *)

Definition set_sent (s : list string) (w : World) : World :=
  {| sent := s; project := project w; disk := disk w; clock_reads := clock_reads w |}.
Definition set_disk (d : gmap string node) (w : World) : World :=
  {| sent := sent w; project := project w; disk := d; clock_reads := clock_reads w |}.
Definition set_clock_reads (n : nat) (w : World) : World :=
  {| sent := sent w; project := project w; disk := disk w; clock_reads := n |}.

Definition M (A : Type) : Type := World → outcome A * World.

Definition ret {A} (a : A) : M A := λ w, (Returned a, w).
Definition raise {A} (e : exn) : M A := λ w, (Raised e, w).
Definition bind {A B} (m : M A) (k : A → M B) : M B :=
  λ w, match m w with
       | (Returned a, w') => k a w'
       | (Raised e, w') => (Raised e, w')
       end.
(** [try: body / except Exception as e: handler e] *)
Definition try_except {A} (body : M A) (handler : exn → M A) : M A :=
  λ w, match body w with
       | (Returned a, w') => (Returned a, w')
       | (Raised e, w') => handler e w'
       end.
Definition lift {A} (o : outcome A) : M A := λ w, (o, w).
Definition gets {A} (f : World → A) : M A := λ w, (Returned (f w), w).

Declare Scope tool_scope.
Delimit Scope tool_scope with tool.
Notation "x <- m ;; k" := (bind m (λ x, k))
  (at level 100, m at next level, right associativity) : tool_scope.
Notation "m ;; k" := (bind m (λ _, k))
  (at level 100, right associativity) : tool_scope.
Local Open Scope tool_scope.

(** ** What the server is run against *)

(** The remote machine answers a command given the commands it has received
    so far; [Raised] is a failure of the transport.  [ProcessError_str] is the
    text of asyncssh's [ProcessError] for a process that exited with a
    non-zero status, [utcnow_at n] the reading of the clock at its [n]-th
    call, [VM_DISPLAY] the configured X display. *)
Class Env : Type :=
  { remote : list string → string → outcome SSHCompletedProcess;
    ProcessError_str : SSHCompletedProcess → string;
    utcnow_at : nat → datetime;
    VM_DISPLAY : string }.

(** One entry of [Project.get_all_advice] *)
Record advice_note : Type :=
  { title : string; content : string; file : string }.

Definition nl : string := Py.str1 Py.nl.

(** ** server.py *)

Section Server.
Context {env : Env}.

(** [dt.datetime.utcnow()] *)
Definition utcnow : M datetime :=
  λ w, (Returned (utcnow_at (clock_reads w)), set_clock_reads (S (clock_reads w)) w).

(** [await ssh.run(cmd, check=check)]: the command goes out, then the
    reply decides; with [check] a non-zero exit status raises *)
Definition ssh_run (cmd : string) (check : bool) : M SSHCompletedProcess :=
  λ w, let w' := set_sent (sent w ++ [cmd]) w in
       match remote (sent w) cmd with
       | Raised e => (Raised e, w')
       | Returned result =>
           if check && negb (returncode result =? 0)
           then (Raised (Exn "ProcessError" (ProcessError_str result)), w')
           else (Returned result, w')
       end.

Definition run_vm_cmd (cmd : string) : M string :=
  result <- ssh_run cmd true ;;
  ret (Py.strip (stdout result)).

(** *** class Project *)

Definition log_file (self : Project) : string :=
  fstr [path_str (path self); "/logs/project.log"].

(** [with open(log_file, "a") as f: f.write(log_line)] *)
Definition append_log (self : Project) (log_line : string) : M unit :=
  λ w, match disk w !! path self with
       | Some (Dir d) =>
           match logs d with
           | Some f =>
               let text := from_option id EmptyString f +:+ log_line in
               (Returned tt,
                set_disk (<[path self := Dir (set_logs (Some (Some text)) d)]> (disk w)) w)
           | None => (Raised (FileNotFoundError (log_file self)), w)
           end
       | _ => (Raised (FileNotFoundError (log_file self)), w)
       end.

Definition Project__log (self : Project) (message level : string) : M unit :=
  timestamp <- utcnow ;;
  let log_line := fstr ["["; strftime_log timestamp; "] ["; level; "] "; message; nl] in
  append_log self log_line.

Definition Project_log (self : Project) (message level : string) : M string :=
  Project__log self message level ;;
  ret (fstr ["Logged: ["; level; "] "; message]).

Definition Project_load (project_path : string) : M Project :=
  entry <- gets (λ w, disk w !! project_path) ;;
  match entry with
  | Some (Dir d) =>
      match metadata_json d with
      | None =>
          raise (Exn "FileNotFoundError" (fstr ["No metadata.json in "; path_str project_path]))
      | Some Malformed => raise JSONDecodeError
      | Some (Json data) =>
          name <- lift (Proto.getitem data "name") ;;
          created_at <- lift (Proto.getitem data "created_at") ;;
          description <- lift (Proto.get data "description" (VStr EmptyString)) ;;
          ret {| name := name; path := project_path;
                 created_at := created_at; description := description |}
      end
  | _ => raise (Exn "FileNotFoundError" (fstr ["No metadata.json in "; path_str project_path]))
  end.

(** [with open(advice_path, "w") as f: f.write(text)] *)
Definition write_advice (self : Project) (filename text : string) : M unit :=
  let advice_path := fstr [path_str (path self); "/advice/"; filename] in
  λ w, match disk w !! path self with
       | Some (Dir d) =>
           match advice d with
           | Some files =>
               (Returned tt,
                set_disk (<[path self := Dir (set_advice (Some (<[filename := text]> files)) d)]>
                            (disk w)) w)
           | None => (Raised (FileNotFoundError advice_path), w)
           end
       | _ => (Raised (FileNotFoundError advice_path), w)
       end.

Definition safe_char (c : ascii) : ascii :=
  if Py.isalnum c || Py.char_in c "- _" then c else "_"%char.

Definition Project_save_advice (self : Project) (title content : string) : M string :=
  let safe_title := Py.map_chars safe_char title in
  let safe_title := Py.take 50 safe_title in
  timestamp <- utcnow ;;
  let filename := fstr [strftime_compact timestamp; "_"; safe_title; ".md"] in
  write_advice self filename (fstr ["# "; title; nl; nl; content; nl]) ;;
  Project__log self (fstr ["Advice saved: "; title]) "INFO" ;;
  ret (fstr [path_str (path self); "/advice/"; filename]).

(** [advice_file.stem] of a name that matched [*.md] *)
Definition stem (filename : string) : string :=
  Py.take (String.length filename - 3) filename.

(** The body of the loop of [get_all_advice], for the file [filename] with
    the stored text [stored] *)
Definition read_advice_file (filename stored : string) : advice_note :=
  let content := Py.read_text stored in
  let lines := Py.split Py.nl (Py.strip content) in
  let title :=
    match lines with
    | first :: _ => Py.strip (Py.lstrip "# " first)
    | [] => stem filename
    end in
  let body :=
    if bool_decide (2 < length lines)%nat then Py.strip (Py.join nl (drop 2 lines))
    else EmptyString in
  {| title := title; content := body; file := filename |}.

(** [sorted(advice_dir.glob("*.md"))], as names with their text *)
Definition sorted_md (files : gmap string string) : list (string * string) :=
  merge_sort (λ a b, String.le a.1 b.1)
    (List.filter (λ kv, Py.endswith ".md" kv.1) (map_to_list files)).

Definition Project_get_all_advice (self : Project) : M (list advice_note) :=
  entry <- gets (λ w, disk w !! path self) ;;
  match entry with
  | Some (Dir d) =>
      match advice d with
      | Some files => ret (map (λ kv, read_advice_file kv.1 kv.2) (sorted_md files))
      | None => ret []
      end
  | _ => ret []
  end.

(** *** Project helpers of the tools *)

Definition _get_project : M Project :=
  project <- gets project ;;
  match project with
  | None => raise (ValueError "No project initialized. Call project_init first.")
  | Some project => ret project
  end.

Definition _get_project_optional : M (option Project) := gets project.

Definition param_str (kv : string * pyval) : string :=
  let v_str := Val.str kv.2 in
  let v_str := if 100 <? Py.len v_str then Py.take 100 v_str +:+ "..." else v_str in
  fstr [kv.1; "="; v_str].

Definition _log_tool_call (tool_name : string) (params : list (string * pyval))
    (result : option string) : M unit :=
  project <- _get_project_optional ;;
  match project with
  | None => ret tt
  | Some project =>
      let params_str := Py.join ", " (map param_str params) in
      let log_msg := fstr ["TOOL: "; tool_name; "("; params_str; ")"] in
      let log_msg :=
        match result with
        | Some (String c r) =>
            let result := String c r in
            let result_str :=
              if Py.len result <=? 200 then result else Py.take 200 result +:+ "..." in
            log_msg +:+ fstr [" -> "; result_str]
        | _ => log_msg
        end in
      Project__log project log_msg "INFO"
  end.

Definition _log_error (tool_name error : string) : M unit :=
  project <- _get_project_optional ;;
  match project with
  | None => ret tt
  | Some project =>
      Project__log project (fstr ["ERROR in "; tool_name; ": "; error]) "ERROR"
  end.
End Server.

Section Tools.
Context {env : Env}.

(** *** Tools: mouse / keyboard / wait *)

Definition button_map : list (string * Z) :=
  [("left", 1); ("middle", 2); ("right", 3)].

Definition move_mouse (x y : Z) (mode : string) : M string :=
  cmd <- (if decide (mode = "absolute")
          then ret (fstr ["DISPLAY="; VM_DISPLAY; " xdotool mousemove --sync ";
                          Py.str_int x; " "; Py.str_int y])
          else if decide (mode = "relative")
          then ret (fstr ["DISPLAY="; VM_DISPLAY; " xdotool mousemove_relative --sync ";
                          Py.str_int x; " "; Py.str_int y])
          else raise (ValueError "mode must be 'absolute' or 'relative'")) ;;
  run_vm_cmd cmd ;;
  let result := fstr ["Mouse moved to ("; Py.str_int x; ", "; Py.str_int y; ") ["; mode; "]"] in
  _log_tool_call "move_mouse" [("x", VInt x); ("y", VInt y); ("mode", VStr mode)] None ;;
  ret result.

Definition click (button : string) (count : Z) : M string :=
  number <- match Py.assoc button button_map with
            | None => raise (ValueError "button must be left/middle/right")
            | Some number => ret number
            end ;;
  let cmd := fstr ["DISPLAY="; VM_DISPLAY; " xdotool click --repeat ";
                   Py.str_int count; " "; Py.str_int number] in
  run_vm_cmd cmd ;;
  let result := fstr ["Clicked "; button; " x"; Py.str_int count] in
  _log_tool_call "click" [("button", VStr button); ("count", VInt count)] None ;;
  ret result.

Definition escaped_quote : string := String Py.backslash (Py.str1 Py.dquote).

Definition type_text (text : string) : M string :=
  let escaped := Py.replace Py.dquote escaped_quote text in
  let cmd := fstr ["DISPLAY="; VM_DISPLAY; " xdotool type --delay 10 ";
                   Py.str1 Py.dquote; escaped; Py.str1 Py.dquote] in
  run_vm_cmd cmd ;;
  let log_text :=
    if Py.len text <=? 20 then text
    else fstr [Py.take 10 text; "...("; Py.str_int (Py.len text); " chars)"] in
  _log_tool_call "type_text" [("text", VStr log_text)] None ;;
  ret (fstr ["Typed "; Py.str_int (Py.len text); " characters"]).

Definition press_keys (keys : list string) : M string :=
  let combo := Py.join "+" (map Py.lower keys) in
  let cmd := fstr ["DISPLAY="; VM_DISPLAY; " xdotool key "; combo] in
  run_vm_cmd cmd ;;
  let result := fstr ["Pressed keys: "; Val.repr (VList (map VStr keys))] in
  _log_tool_call "press_keys" [("keys", VList (map VStr keys))] None ;;
  ret result.

(** [seconds] is the float as [str()] prints it; the sleep itself changes
    nothing the model records *)
Definition wait (seconds : string) : M string :=
  _log_tool_call "wait" [("seconds", VFloat seconds)] None ;;
  ret (fstr ["Waited "; seconds; " seconds"]).

(** [action_def.get(key, default)] *)
Definition dict_get (action_def : gmap string pyval) (key : string) (default : pyval) : pyval :=
  from_option id default (action_def !! key).

(** The body of the [try] of [run_actions] for element [i] (from 0); the
    value is the entry that [results.append] adds, which is the last thing
    each branch does *)
Definition run_action (i : nat) (action_def : gmap string pyval) (action_type : pyval)
    : M string :=
  let number := pretty (i + 1)%nat in
  if Val.eq_str action_type "press_keys" then
    let keys := dict_get action_def "keys" (VList []) in
    combo <- lift (Proto.combo keys) ;;
    let cmd := fstr ["DISPLAY="; VM_DISPLAY; " xdotool key "; combo] in
    run_vm_cmd cmd ;;
    ret (fstr [number; ". press_keys "; Val.str keys])
  else if Val.eq_str action_type "type_text" then
    let text := dict_get action_def "text" (VStr EmptyString) in
    escaped <- lift (Proto.escape_quotes text) ;;
    let cmd := fstr ["DISPLAY="; VM_DISPLAY; " xdotool type --delay 10 ";
                     Py.str1 Py.dquote; escaped; Py.str1 Py.dquote] in
    run_vm_cmd cmd ;;
    ret (fstr [number; ". type_text ("; Py.str_int (Proto.len text); " chars)"])
  else if Val.eq_str action_type "click" then
    let button := dict_get action_def "button" (VStr "left") in
    let count := dict_get action_def "count" (VInt 1) in
    btn_num <- lift (Proto.button_number button_map button) ;;
    let cmd := fstr ["DISPLAY="; VM_DISPLAY; " xdotool click --repeat ";
                     Val.str count; " "; Py.str_int btn_num] in
    run_vm_cmd cmd ;;
    ret (fstr [number; ". click "; Val.str button; " x"; Val.str count])
  else if Val.eq_str action_type "move_mouse" then
    let x := dict_get action_def "x" (VInt 0) in
    let y := dict_get action_def "y" (VInt 0) in
    let mode := dict_get action_def "mode" (VStr "absolute") in
    let cmd :=
      if Val.eq_str mode "absolute"
      then fstr ["DISPLAY="; VM_DISPLAY; " xdotool mousemove --sync "; Val.str x; " "; Val.str y]
      else fstr ["DISPLAY="; VM_DISPLAY; " xdotool mousemove_relative --sync ";
                 Val.str x; " "; Val.str y] in
    run_vm_cmd cmd ;;
    ret (fstr [number; ". move_mouse ("; Val.str x; ", "; Val.str y; ") ["; Val.str mode; "]"])
  else if Val.eq_str action_type "wait" then
    let seconds := dict_get action_def "seconds" (VFloat "0.5") in
    lift (Proto.sleepable seconds) ;;
    ret (fstr [number; ". wait "; Val.str seconds; "s"])
  else
    ret (fstr [number; ". UNKNOWN ACTION: "; Val.str action_type]).

(** The text of the entry the [except] branch appends *)
Definition error_entry (i : nat) (action_type : pyval) (e : exn) : string :=
  fstr [pretty (i + 1)%nat; ". ERROR in "; Val.str action_type; ": "; exn_str e].

(** [for i, action_def in enumerate(actions)], from index [i] on; the
    value is [results] when the loop is left *)
Fixpoint run_actions_loop (i : nat) (actions : list (gmap string pyval))
    (results : list string) : M (list string) :=
  match actions with
  | [] => ret results
  | action_def :: rest =>
      let action_type := dict_get action_def "action" VNone in
      step <- try_except
                (entry <- run_action i action_def action_type ;;
                 ret (results ++ [entry], true))
                (λ e,
                   let results := results ++ [error_entry i action_type e] in
                   _log_error "run_actions"
                     (fstr ["Action "; pretty (i + 1)%nat; " ("; Val.str action_type; "): ";
                            exn_str e]) ;;
                   ret (results, false)) ;;
      if step.2 then run_actions_loop (S i) rest step.1 else ret step.1
  end.

Definition summary (results : list string) : string :=
  fstr ["Executed "; pretty (length results); " actions:"; nl] +:+ Py.join nl results.

Definition run_actions (actions : list (gmap string pyval)) : M string :=
  results <- run_actions_loop 0 actions [] ;;
  _log_tool_call "run_actions" [("count", VInt (Z.of_nat (length actions)))]
    (Some (fstr ["executed "; pretty (length results); " actions"])) ;;
  ret (summary results).

(** *** SSH tools *)

Definition ssh_execute (command : string) : M string :=
  try_except
    (result <- ssh_run command false ;;
     let output_parts :=
       (if decide (stdout result = EmptyString) then []
        else [fstr ["STDOUT:"; nl; stdout result]]) ++
       (if decide (stderr result = EmptyString) then []
        else [fstr ["STDERR:"; nl; stderr result]]) in
     output_parts <-
       (if decide (returncode result = 0) then
          _log_tool_call "ssh_execute" [("command", VStr command)] (Some "success") ;;
          ret output_parts
        else
          let output_parts :=
            output_parts ++ [fstr ["EXIT CODE: "; Py.str_int (returncode result)]] in
          _log_tool_call "ssh_execute" [("command", VStr command)]
            (Some (fstr ["exit_code="; Py.str_int (returncode result)])) ;;
          _log_error "ssh_execute"
            (fstr ["Command failed with exit code "; Py.str_int (returncode result)]) ;;
          ret output_parts) ;;
     ret (match output_parts with
          | [] => "Command completed (no output)"
          | _ => Py.join (nl +:+ nl) output_parts
          end))
    (λ e,
       _log_error "ssh_execute" (exn_str e) ;;
       ret (fstr ["Error executing command: "; exn_str e])).

(** *** Project tools *)

(** [log_file.read_text().strip().split("\n")] *)
Definition log_lines (text : string) : list string := Py.split Py.nl (Py.strip text).

(** [[line for line in all_lines if f"[{level_filter.upper()}]" in line]],
    when [level_filter] is not empty *)
Definition filter_level (level_filter : string) (all_lines : list string) : list string :=
  match level_filter with
  | EmptyString => all_lines
  | _ => List.filter (Py.contains (fstr ["["; Py.upper level_filter; "]"])) all_lines
  end.

(** [all_lines[-lines:] if len(all_lines) > lines else all_lines] *)
Definition recent (lines : Z) (all_lines : list string) : list string :=
  if lines <? Z.of_nat (length all_lines) then Py.slice_from (- lines) all_lines
  else all_lines.

(** [log_file.read_text()], when [log_file.exists()] *)
Definition read_log (self : Project) (w : World) : option string :=
  match disk w !! path self with
  | Some (Dir d) => Py.read_text <$> mjoin (logs d)
  | _ => None
  end.

Definition project_read_logs (lines : Z) (level_filter : string) : M string :=
  project <- _get_project ;;
  log <- gets (read_log project) ;;
  match log with
  | None => ret "No log entries yet."
  | Some text =>
      let all_lines := filter_level level_filter (log_lines text) in
      let recent_lines := recent lines all_lines in
      match recent_lines with
      | [] =>
          ret (fstr ["No log entries found";
                     match level_filter with
                     | EmptyString => EmptyString
                     | _ => " with level " +:+ level_filter
                     end; "."])
      | _ =>
          ret (fstr ["Log entries ("; pretty (length recent_lines); " of ";
                     pretty (length all_lines); " total):"; nl; nl]
               +:+ Py.join nl recent_lines)
      end
  end.

(** [sorted(PROJECTS_DIR.iterdir(), reverse=True)], as names *)
Definition sorted_reverse (names : list string) : list string :=
  merge_sort (flip String.le) names.

(** [project_dir.is_dir() and (project_dir / "metadata.json").exists()] *)
Definition has_metadata (entry : option node) : bool :=
  match entry with
  | Some (Dir d) => bool_decide (is_Some (metadata_json d))
  | _ => false
  end.

Definition project_line (proj : Project) : string :=
  fstr ["- "; Val.str (name proj); " ("; Val.str (created_at proj); "): "; path_str (path proj)].

Definition invalid_line (project_dir : string) : string :=
  fstr ["- (invalid): "; path_str project_dir].

(** The loop of [project_list] over the sorted directory entries *)
Fixpoint project_list_loop (entries : list string) (projects : list string)
    : M (list string) :=
  match entries with
  | [] => ret projects
  | project_dir :: rest =>
      entry <- gets (λ w, disk w !! project_dir) ;;
      if has_metadata entry then
        line <- try_except
                  (proj <- Project_load project_dir ;; ret (project_line proj))
                  (λ _, ret (invalid_line project_dir)) ;;
        project_list_loop rest (projects ++ [line])
      else project_list_loop rest projects
  end.

Definition project_list : M string :=
  names <- gets (λ w, (map_to_list (disk w)).*1) ;;
  projects <- project_list_loop (sorted_reverse names) [] ;;
  match projects with
  | [] => ret "No projects found."
  | _ => ret (fstr ["Projects:"; nl] +:+ Py.join nl projects)
  end.

End Tools.

(** ** Vocabulary of the properties *)

(** The text of [s] before its first [sep] (all of [s] when it has none) *)
Fixpoint before (sep : ascii) (s : string) : string :=
  match s with
  | EmptyString => EmptyString
  | String c s' => if decide (c = sep) then EmptyString else String c (before sep s')
  end.

(** The first line of a text: what stands before its first "\r" or "\n" *)
Fixpoint first_line (s : string) : string :=
  match s with
  | EmptyString => EmptyString
  | String c s' =>
      if decide (c = Py.nl) then EmptyString
      else if decide (c = Py.cr) then EmptyString
      else String c (first_line s')
  end.

Fixpoint all_chars (f : ascii → bool) (s : string) : bool :=
  match s with
  | EmptyString => true
  | String c s' => f c && all_chars f s'
  end.

(** Whether a line can be appended to the activity log: no project is
    active (then nothing is written), or the active project's [logs/]
    directory is there *)
Definition log_writable (w : World) : bool :=
  match project w with
  | None => true
  | Some p =>
      match disk w !! path p with
      | Some (Dir d) => bool_decide (is_Some (logs d))
      | _ => false
      end
  end.

(** [w] and [w'] differ at most in the commands sent *)
Definition same_host (w w' : World) : Prop :=
  project w' = project w ∧ disk w' = disk w ∧ clock_reads w' = clock_reads w.

(** The kinds [run_actions] recognizes *)
Definition known_kinds : list string :=
  ["press_keys"; "type_text"; "click"; "move_mouse"; "wait"].

Definition unknown_kind (action_type : pyval) : bool :=
  negb (existsb (Val.eq_str action_type) known_kinds).

(** The text [project_read_logs] returns for the lines it shows, out of the
    lines [all_lines] it selected *)
Definition log_report (level_filter : string) (recent_lines all_lines : list string) : string :=
  match recent_lines with
  | [] =>
      fstr ["No log entries found";
            match level_filter with
            | EmptyString => EmptyString
            | _ => " with level " +:+ level_filter
            end; "."]
  | _ =>
      fstr ["Log entries ("; pretty (length recent_lines); " of ";
            pretty (length all_lines); " total):"; nl; nl]
      +:+ Py.join nl recent_lines
  end.

(** The last [n] elements of a list, in their order *)
Definition last_n {A} (n : nat) (l : list A) : list A := drop (length l - n) l.

(** The line [project_list] shows for a directory that has a
    [metadata.json]: the project's line when [Project.load] returns, the
    "(invalid)" line when it raises *)
Definition listing_line (w : World) (project_dir : string) : string :=
  match (Project_load project_dir w).1 with
  | Returned proj => project_line proj
  | Raised _ => invalid_line project_dir
  end.

(** The text [project_list] returns for the lines it collected *)
Definition listing (projects : list string) : string :=
  match projects with
  | [] => "No projects found."
  | _ => fstr ["Projects:"; nl] +:+ Py.join nl projects
  end.

(** Strictly descending order of names *)
Definition name_above (a b : string) : Prop := b ≠ a ∧ String.le b a.

Section Batches.
Context {env : Env}.

(** The parts of the report of [ssh_execute] for a completed process: the
    output streams that are not empty, then the exit status when it is not 0 *)
Definition report_parts (p : SSHCompletedProcess) : list string :=
  (if decide (stdout p = EmptyString) then [] else [fstr ["STDOUT:"; nl; stdout p]]) ++
  (if decide (stderr p = EmptyString) then [] else [fstr ["STDERR:"; nl; stderr p]]) ++
  (if decide (returncode p = 0) then []
   else [fstr ["EXIT CODE: "; Py.str_int (returncode p)]]).

(** The commands of the tools, as their f-strings build them *)
Definition xdotool_type (text : string) : string :=
  fstr ["DISPLAY="; VM_DISPLAY; " xdotool type --delay 10 "; Py.str1 Py.dquote;
        Py.replace Py.dquote escaped_quote text; Py.str1 Py.dquote].
Definition xdotool_click (count number : string) : string :=
  fstr ["DISPLAY="; VM_DISPLAY; " xdotool click --repeat "; count; " "; number].
Definition xdotool_key (combo : string) : string :=
  fstr ["DISPLAY="; VM_DISPLAY; " xdotool key "; combo].
Definition xdotool_mousemove (x y : string) : string :=
  fstr ["DISPLAY="; VM_DISPLAY; " xdotool mousemove --sync "; x; " "; y].
Definition xdotool_mousemove_relative (x y : string) : string :=
  fstr ["DISPLAY="; VM_DISPLAY; " xdotool mousemove_relative --sync "; x; " "; y].

(** The exception [run_vm_cmd] raises for a reply, if any: the transport
    failed, or the process exited with a status other than 0 *)
Definition refusal (reply : outcome SSHCompletedProcess) : option exn :=
  match reply with
  | Raised e => Some e
  | Returned p =>
      if decide (returncode p = 0) then None
      else Some (Exn "ProcessError" (ProcessError_str p))
  end.

(** [unlogged w p cmd r]: what a tool that sends [cmd] and then logs comes
    to, as [r], from a world [w] in which the log of the active project [p]
    cannot be appended to: the command is sent, the disk is as it was, and
    the caller receives the error of the command if it failed, the error of
    the log write if it succeeded *)
Definition unlogged (w : World) (p : Project) (cmd : string) (r : outcome string * World)
    : Prop :=
  sent r.2 = sent w ++ [cmd] ∧
  disk r.2 = disk w ∧
  match refusal (remote (sent w) cmd) with
  | Some e => r.1 = Raised e
  | None => r.1 = Raised (FileNotFoundError (log_file p))
  end.

(** [all_succeed i actions w w' entries]: run in order from the world [w],
    as elements [i], [i + 1], ... of a batch, the [actions] all go through
    their [try] without raising; they leave the world [w'] and append
    [entries] *)
Inductive all_succeed : nat → list (gmap string pyval) → World → World → list string → Prop :=
  | all_succeed_nil i w : all_succeed i [] w w []
  | all_succeed_cons i a rest w w1 w' entry entries :
      run_action i a (dict_get a "action" VNone) w = (Returned entry, w1) →
      all_succeed (S i) rest w1 w' entries →
      all_succeed i (a :: rest) w w' (entry :: entries).

End Batches.

(** ** Sample environments and worlds *)

Module Sample.

Definition completed : SSHCompletedProcess :=
  {| stdout := EmptyString; stderr := EmptyString; returncode := 0 |}.

Definition noon : datetime :=
  {| year := 2024; month := 5; day := 17; hour := 12; minute := 0; second := 0 |}.

Definition exit_status_text (p : SSHCompletedProcess) : string :=
  fstr ["Process exited with non-zero exit status "; Py.str_int (returncode p)].

(** A guest that carries out every command *)
Definition obliging : Env :=
  {| remote := λ _ _, Returned completed;
     ProcessError_str := exit_status_text;
     utcnow_at := λ _, noon;
     VM_DISPLAY := ":0" |}.

(** A guest on which [xdotool key] exits with status 1 *)
Definition keyless : Env :=
  {| remote := λ _ cmd,
       if Py.contains "xdotool key" cmd
       then Returned {| stdout := EmptyString; stderr := "no keyboard"; returncode := 1 |}
       else Returned completed;
     ProcessError_str := exit_status_text;
     utcnow_at := λ _, noon;
     VM_DISPLAY := ":0" |}.

(** A session that has dropped *)
Definition dropped : Env :=
  {| remote := λ _ _, Raised (Exn "ConnectionLost" "Connection lost");
     ProcessError_str := exit_status_text;
     utcnow_at := λ _, noon;
     VM_DISPLAY := ":0" |}.

Definition demo : Project :=
  {| name := VStr "demo"; path := "20240517-120000_demo";
     created_at := VStr "20240517-120000"; description := VStr EmptyString |}.

Definition demo_metadata : json_doc :=
  Json (VDict [("name", VStr "demo"); ("created_at", VStr "20240517-120000");
               ("description", VStr EmptyString)]).

Definition demo_dir (log : option (option string)) : ProjectDir :=
  {| metadata_json := Some demo_metadata; logs := log; advice := Some ∅ |}.

(** No project is active and [data/projects] is empty *)
Definition blank : World :=
  {| sent := []; project := None; disk := ∅; clock_reads := 0 |}.

(** The project [demo] is active, with the log text [log] *)
Definition working (log : option string) : World :=
  {| sent := []; project := Some demo;
     disk := {[ path demo := Dir (demo_dir (Some log)) ]}; clock_reads := 0 |}.

(** The project [demo] is active and its [logs/] directory is gone *)
Definition logless : World :=
  {| sent := []; project := Some demo;
     disk := {[ path demo := Dir (demo_dir None) ]}; clock_reads := 0 |}.

(** The text [He said "hi"], and what the guest is asked to type for it *)
Definition said_hi : string :=
  fstr ["He said "; Py.str1 Py.dquote; "hi"; Py.str1 Py.dquote].
Definition said_hi_escaped : string :=
  fstr ["He said "; Py.str1 Py.backslash; Py.str1 Py.dquote; "hi";
        Py.str1 Py.backslash; Py.str1 Py.dquote].

(** A log of five entries, the second logged with level "error", the
    fourth with level "ERROR", the fifth an INFO entry that quotes "[ERROR]" *)
Definition five_entries : string :=
  fstr ["[2024-05-17 12:00:00] [INFO] Project initialized"; nl;
        "[2024-05-17 12:00:01] [error] boom"; nl;
        "[2024-05-17 12:00:02] [INFO] TOOL: wait(seconds=0.5)"; nl;
        "[2024-05-17 12:00:03] [ERROR] ERROR in click: Connection lost"; nl;
        "[2024-05-17 12:00:04] [INFO] saw [ERROR] in the output"; nl].


(** [data/projects] with the project [demo] and a directory that has no
    [metadata.json] *)
Definition two_dirs : World :=
  {| sent := []; project := None;
     disk := {[ path demo := Dir (demo_dir (Some None));
                "20240518-090000_scratch" :=
                  Dir {| metadata_json := None; logs := None; advice := None |} ]};
     clock_reads := 0 |}.

(** Elements of batches *)
Definition scroll : gmap string pyval := {[ "action" := VStr "scroll" ]}.
Definition type_hi : gmap string pyval :=
  {[ "action" := VStr "type_text"; "text" := VStr "hi" ]}.
Definition press_ctrl_l : gmap string pyval :=
  {[ "action" := VStr "press_keys"; "keys" := VList [VStr "Ctrl"; VStr "L"] ]}.
Definition click_thumb : gmap string pyval :=
  {[ "action" := VStr "click"; "button" := VStr "thumb" ]}.
Definition move_diagonal : gmap string pyval :=
  {[ "action" := VStr "move_mouse"; "x" := VInt 10; "y" := VInt 20;
     "mode" := VStr "diagonal" ]}.

End Sample.

(** ** More of server.py *)

(** The rest of the configuration read at start-up *)
Class Config : Type :=
  { VM_HOST : string;
    VM_USER : string;
    VM_PORT : Z;
    VM_IDENTITY : string }.

Definition set_project (p : option Project) (w : World) : World :=
  {| sent := sent w; project := p; disk := disk w; clock_reads := clock_reads w |}.
Definition set_metadata (m : option json_doc) (d : ProjectDir) : ProjectDir :=
  {| metadata_json := m; logs := logs d; advice := advice d |}.

Section MoreTools.
Context {env : Env} {config : Config}.

(** *** class Project, continued *)

(** A name that [Project.create] can use as the end of one directory name:
    no "/" (which would make nested directories), no NUL, and short enough
    for a file name after the 16 characters put before it.  On other names
    the model says nothing. *)
Definition plain_name (name : string) : bool :=
  negb (Py.char_in "/"%char name) && negb (Py.char_in "000"%char name) &&
  bool_decide (String.length name ≤ 200)%nat.

(** [project_path.mkdir(parents=True, exist_ok=True)] followed by the
    [mkdir(exist_ok=True)] of the subdirectories.  [ProjectDir] keeps track
    of [logs/] and [advice/]; [screenshots/] and [results/], which are made
    the same way, are not part of it. *)
Definition make_project_dirs (project_path : string) : M unit :=
  λ w, match disk w !! project_path with
       | Some File =>
           (Raised (Exn "FileExistsError"
                      (fstr ["[Errno 17] File exists: '"; path_str project_path; "'"])), w)
       | Some (Dir d) =>
           (Returned tt,
            set_disk (<[project_path :=
                          Dir {| metadata_json := metadata_json d;
                                 logs := Some (from_option id None (logs d));
                                 advice := Some (from_option id ∅ (advice d)) |}]> (disk w)) w)
       | None =>
           (Returned tt,
            set_disk (<[project_path :=
                          Dir {| metadata_json := None; logs := Some None;
                                 advice := Some ∅ |}]> (disk w)) w)
       end.

(** The dict that [_save_metadata] dumps *)
Definition metadata_of (self : Project) : pyval :=
  VDict [("name", name self); ("created_at", created_at self);
         ("description", description self)].

(** [with open(self.path / "metadata.json", "w") as f: json.dump(metadata, f)];
    what [json.load] later makes of the file is the dict that was dumped *)
Definition Project__save_metadata (self : Project) : M unit :=
  λ w, match disk w !! path self with
       | Some (Dir d) =>
           (Returned tt,
            set_disk (<[path self := Dir (set_metadata (Some (Json (metadata_of self))) d)]>
                        (disk w)) w)
       | _ =>
           (Raised (FileNotFoundError (fstr [path_str (path self); "/metadata.json"])), w)
       end.

Definition Project_create (name description : string) : M Project :=
  timestamp <- utcnow ;;
  let timestamp := strftime_compact timestamp in
  let project_path := fstr [timestamp; "_"; name] in
  make_project_dirs project_path ;;
  let project := {| name := VStr name; path := project_path;
                    created_at := VStr timestamp; description := VStr description |} in
  Project__save_metadata project ;;
  Project__log project "Project initialized" "INFO" ;;
  ret project.

(** *** Project tools, continued *)

(** [project.get_info()] is evaluated there too; of its fields the tool
    shows the name, the path and the description *)
Definition project_init (name description : string) : M string :=
  project <- Project_create name description ;;
  (λ w, (Returned tt, set_project (Some project) w)) ;;
  ret (fstr ["Project initialized:"; nl;
             "Name: "; name; nl;
             "Path: "; path_str (path project); nl;
             "Description: ";
             match description with
             | EmptyString => "(none)"
             | _ => description
             end; nl; nl;
             "Folders created:"; nl; "- screenshots/"; nl; "- logs/"; nl; "- results/"]).

Definition project_log (message level : string) : M string :=
  project <- _get_project ;;
  Project_log project message level.

Definition project_save_advice (title content : string) : M string :=
  project <- _get_project ;;
  advice_path <- Project_save_advice project title content ;;
  ret (fstr ["Advice saved: "; title; nl; "Path: "; advice_path]).

(** [for i, advice in enumerate(advice_list, i): output += ...] *)
Fixpoint advice_sections (i : nat) (advice_list : list advice_note) : string :=
  match advice_list with
  | [] => EmptyString
  | advice :: rest =>
      fstr ["### "; pretty i; ". "; title advice; nl;
            content advice; nl; nl;
            "_Source: "; file advice; "_"; nl; nl; "---"; nl; nl]
      +:+ advice_sections (S i) rest
  end.

Definition project_read_advice : M string :=
  project <- _get_project ;;
  advice_list <- Project_get_all_advice project ;;
  match advice_list with
  | [] => ret "No advice saved for this project yet."
  | _ =>
      ret (fstr ["## Advice for project '"; Val.str (name project); "' (";
                 pretty (length advice_list); " entries)"; nl; nl]
           +:+ advice_sections 1 advice_list)
  end.

(** *** SSH tools, continued *)

Definition connection_test : string := "echo 'connection_test'".

(** The text [ssh_connection_info] returns for a status *)
Definition connection_info (status : string) : string :=
  fstr ["SSH Connection Information:"; nl;
        "Host: "; VM_HOST; nl;
        "Port: "; Py.str_int VM_PORT; nl;
        "User: "; VM_USER; nl;
        "Display: "; VM_DISPLAY; nl;
        "Status: "; status; nl;
        "Identity File: ";
        match VM_IDENTITY with
        | EmptyString => "Not specified (using password/agent)"
        | _ => VM_IDENTITY
        end].

(** The probe is [ssh.run(..., check=True, timeout=5)]; a timeout is one of
    the exceptions the session can raise *)
Definition ssh_connection_info : M string :=
  status <- try_except
              (ssh_run connection_test true ;; ret "Connected")
              (λ e,
                 let status := fstr ["Connection issue: "; exn_str e] in
                 _log_error "ssh_connection_info" (exn_str e) ;;
                 ret status) ;;
  _log_tool_call "ssh_connection_info" [] (Some status) ;;
  ret (connection_info status).

End MoreTools.

(** ** Vocabulary of further properties *)

(** [m] sends at most [n] commands to the guest, after those sent before *)
Definition sends_at_most {A} (n : nat) (m : M A) : Prop :=
  ∀ w, ∃ more, sent (m w).2 = sent w ++ more ∧ (length more ≤ n)%nat.

(** The text of the log of a project directory (empty without a log file) *)
Definition log_text (d : ProjectDir) : string :=
  from_option id EmptyString (mjoin (logs d)).

(** [d'] is [d] with, at most, text appended to its log *)
Definition log_grown (d d' : ProjectDir) : Prop :=
  metadata_json d' = metadata_json d ∧
  advice d' = advice d ∧
  (logs d' = logs d ∨
   (is_Some (logs d) ∧ ∃ more, logs d' = Some (Some (log_text d +:+ more)))).

(** From [w] to [w'] the active project is the same and nothing on disk has
    changed, except that the log of the active project may have grown *)
Definition only_logged (w w' : World) : Prop :=
  project w' = project w ∧
  ∀ p, disk w' !! p = disk w !! p ∨
       ∃ proj d d', project w = Some proj ∧ path proj = p ∧
                    disk w !! p = Some (Dir d) ∧ disk w' !! p = Some (Dir d') ∧
                    log_grown d d'.

(** [m] leaves every world [only_logged] *)
Definition only_logs {A} (m : M A) : Prop := ∀ w, only_logged w (m w).2.

(** No double quote of [s] stands without a backslash right before it;
    [escaped] tells whether the character before [s] is a backslash *)
Fixpoint quotes_escaped_from (escaped : bool) (s : string) : bool :=
  match s with
  | EmptyString => true
  | String c s' =>
      if decide (c = Py.dquote) then escaped && quotes_escaped_from false s'
      else quotes_escaped_from (bool_decide (c = Py.backslash)) s'
  end.
Definition quotes_escaped (s : string) : bool := quotes_escaped_from false s.

(** The characters [save_advice] lets into a file name *)
Definition safe (c : ascii) : bool := Py.isalnum c || Py.char_in c "- _".

(** [r] is what a branch of [run_actions] comes to from [w] when it sends
    [cmd] and then appends [entry]: the command is sent and nothing else
    changes; the branch raises what the command raises, and returns [entry]
    otherwise *)
Definition sends_then_reports {env : Env} (w : World) (cmd entry : string)
    (r : outcome string * World) : Prop :=
  r = (match refusal (remote (sent w) cmd) with
       | Some e => Raised e
       | None => Returned entry
       end, set_sent (sent w ++ [cmd]) w).

(** The strings of one character each that iterating over [s] yields *)
Fixpoint letters (s : string) : list string :=
  match s with
  | EmptyString => []
  | String c s' => Py.str1 c :: letters s'
  end.

(** The line [_log] writes for [message] when the clock is read in [w] *)
Definition log_line {env : Env} (w : World) (level message : string) : string :=
  fstr ["["; strftime_log (utcnow_at (clock_reads w)); "] ["; level; "] "; message; nl].

(** [w] after [_log] has read the clock and appended [line] to the log of
    the project [p], whose directory was [d] with the log file [f] *)
Definition with_line (p : Project) (d : ProjectDir) (f : option string) (line : string)
    (w : World) : World :=
  set_disk (<[path p := Dir (set_logs (Some (Some (from_option id EmptyString f +:+ line))) d)]>
              (disk w))
    (set_clock_reads (S (clock_reads w)) w).

(** The message [_log_tool_call] builds for a call without result *)
Definition tool_message (tool_name : string) (params : list (string * pyval)) : string :=
  fstr ["TOOL: "; tool_name; "("; Py.join ", " (map param_str params); ")"].

(** [r] is what a tool comes to from [w] when it sends [cmd], logs the call
    to the project [p] and returns [text]: a command the guest refuses
    raises, and nothing is logged; otherwise one line goes to the log *)
Definition calls_and_logs {env : Env} (w : World) (p : Project) (d : ProjectDir)
    (f : option string) (cmd text tool_name : string) (params : list (string * pyval))
    (r : outcome string * World) : Prop :=
  r = match refusal (remote (sent w) cmd) with
      | Some e => (Raised e, set_sent (sent w ++ [cmd]) w)
      | None =>
          (Returned text,
           with_line p d f (log_line w "INFO" (tool_message tool_name params))
             (set_sent (sent w ++ [cmd]) w))
      end.

(** What [type_text] shows of the text in the log *)
Definition masked (text : string) : string :=
  if Py.len text <=? 20 then text
  else fstr [Py.take 10 text; "...("; Py.str_int (Py.len text); " chars)"].

Fixpoint count_char (c : ascii) (s : string) : nat :=
  match s with
  | EmptyString => 0
  | String d s' => (if decide (d = c) then 1 else 0) + count_char c s'
  end.

(** What the project tools raise when no project is active *)
Definition no_project : exn := ValueError "No project initialized. Call project_init first.".

(** The status [ssh_connection_info] reports for the reply to its probe *)
Definition connection_status {env : Env} (reply : outcome SSHCompletedProcess) : string :=
  match refusal reply with
  | None => "Connected"
  | Some e => fstr ["Connection issue: "; exn_str e]
  end.

(** Strictly ascending order of names *)
Definition name_below (a b : string) : Prop := name_above b a.

(** The files of the [advice/] directory of a project, none when the
    directory is not there *)
Definition advice_files (self : Project) (w : World) : gmap string string :=
  match disk w !! path self with
  | Some (Dir d) => from_option id ∅ (advice d)
  | _ => ∅
  end.

(** The text of the log of a project, empty when there is none *)
Definition project_log_text (self : Project) (w : World) : string :=
  match disk w !! path self with
  | Some (Dir d) => log_text d
  | _ => EmptyString
  end.

(** [s] when it has at most [n] characters, else its first [n] and "..." *)
Definition shortened (n : nat) (s : string) : string :=
  if Py.len s <=? Z.of_nat n then s else Py.take n s +:+ "...".

(** The messages [_log_tool_call] builds for a call with a result, and
    [_log_error] for an error *)
Definition call_message (tool_name : string) (params : list (string * pyval))
    (result : string) : string :=
  tool_message tool_name params +:+ " -> " +:+ shortened 200 result.
Definition error_message (tool_name error : string) : string :=
  fstr ["ERROR in "; tool_name; ": "; error].

(** The entry [_log] writes for [message] when the clock is read in [w],
    without the newline that ends it *)
Definition log_entry {env : Env} (w : World) (level message : string) : string :=
  fstr ["["; strftime_log (utcnow_at (clock_reads w)); "] ["; level; "] "; message].

(** [s] is one line: it has no "\r" and no "\n" *)
Definition one_line (s : string) : Prop := first_line s = s.

(** [w] one reading of the clock later *)
Definition later (w : World) : World := set_clock_reads (S (clock_reads w)) w.

(** The name [save_advice] gives the file of a note saved when the clock is
    read in [w] *)
Definition advice_filename {env : Env} (w : World) (title : string) : string :=
  fstr [strftime_compact (utcnow_at (clock_reads w)); "_";
        Py.take 50 (Py.map_chars safe_char title); ".md"].

Module Sample2.

Definition lab : Config :=
  {| VM_HOST := "192.168.122.79"; VM_USER := "vmrobot"; VM_PORT := 22;
     VM_IDENTITY := EmptyString |}.

(** [demo] with a note in its [advice/] directory and a file that is no note *)
Definition with_advice : World :=
  {| sent := []; project := Some Sample.demo;
     disk := {[ path Sample.demo :=
                  Dir {| metadata_json := Some Sample.demo_metadata;
                         logs := Some None;
                         advice := Some {[ "20240101-000000_Old.md" :=
                                             fstr ["# Old"; nl; nl; "Keep calm"; nl];
                                           "README.txt" := "not a note" ]} |} ]};
     clock_reads := 0 |}.

Definition press_string : gmap string pyval :=
  {[ "action" := VStr "press_keys"; "keys" := VStr "Ab" ]}.
Definition press_number : gmap string pyval :=
  {[ "action" := VStr "press_keys"; "keys" := VInt 7 ]}.
Definition click_only : gmap string pyval := {[ "action" := VStr "click" ]}.

End Sample2.

(** ** Proof automation *)

(** Decide the comparisons of a known action kind with string literals. *)
Ltac decide_kinds :=
  repeat match goal with
         | |- context [Val.eq_str (VStr ?a) ?b] =>
             let v := eval vm_compute in (Val.eq_str (VStr a) b) in
             match v with
             | true => change (Val.eq_str (VStr a) b) with true
             | false => change (Val.eq_str (VStr a) b) with false
             end
         end;
  cbv iota.

(** * Properties *)

(** ** Text *)

Section TextFacts.

Lemma append_nil_l (s : string) : EmptyString +:+ s = s.
Proof. reflexivity. Qed.

Lemma append_cons (c : ascii) (a b : string) : String c a +:+ b = String c (a +:+ b).
Proof. reflexivity. Qed.

Lemma append_nil_r (s : string) : s +:+ EmptyString = s.
Proof. induction s as [|c s IH]; [reflexivity | by rewrite append_cons, IH]. Qed.

Lemma append_assoc (a b c : string) : (a +:+ b) +:+ c = a +:+ b +:+ c.
Proof. induction a as [|x a IH]; [reflexivity | by rewrite !append_cons, IH]. Qed.

Lemma endswith_append (p a : string) : Py.endswith p (a +:+ p) = true.
Proof.
  induction a as [|c a IH].
  - rewrite append_nil_l. destruct p; simpl; repeat case_decide; congruence.
  - rewrite append_cons. simpl. destruct (decide _); [reflexivity | exact IH].
Qed.

Variable f : ascii → bool.

Lemma rstrip_by_cons (c : ascii) (s : string) :
  Py.rstrip_by f (String c s) =
    if all_chars f (String c s) then EmptyString else String c (Py.rstrip_by f s).
Proof.
  revert c. induction s as [|d s IH]; intros c.
  - simpl. destruct (f c); reflexivity.
  - change (Py.rstrip_by f (String c (String d s)))
      with (match Py.rstrip_by f (String d s) with
            | EmptyString => if f c then EmptyString else Py.str1 c
            | r => String c r
            end).
    rewrite IH. change (all_chars f (String c (String d s)))
      with (f c && all_chars f (String d s)).
    destruct (all_chars f (String d s)); destruct (f c); reflexivity.
Qed.

Lemma rstrip_by_all (s : string) : all_chars f s = true → Py.rstrip_by f s = EmptyString.
Proof. destruct s as [|c s]; [reflexivity|]. intros H. by rewrite rstrip_by_cons, H. Qed.

Lemma rstrip_by_not_all (c : ascii) (s : string) :
  all_chars f (String c s) = false →
  Py.rstrip_by f (String c s) = String c (Py.rstrip_by f s).
Proof. intros H. by rewrite rstrip_by_cons, H. Qed.

Lemma all_chars_append (a b : string) :
  all_chars f (a +:+ b) = all_chars f a && all_chars f b.
Proof.
  induction a as [|c a IH]; [reflexivity|].
  rewrite append_cons. simpl. rewrite IH. by rewrite andb_assoc.
Qed.

Lemma rstrip_by_append (a b : string) :
  Py.rstrip_by f (a +:+ b) =
    if all_chars f b then Py.rstrip_by f a else a +:+ Py.rstrip_by f b.
Proof.
  induction a as [|c a IH].
  - rewrite append_nil_l. destruct (all_chars f b) eqn:E; [by apply rstrip_by_all | reflexivity].
  - rewrite append_cons, !rstrip_by_cons, IH.
    change (all_chars f (String c (a +:+ b))) with (f c && all_chars f (a +:+ b)).
    rewrite all_chars_append. simpl.
    destruct (all_chars f b); [by rewrite andb_true_r|].
    by rewrite andb_false_r, andb_false_r.
Qed.

Lemma rstrip_by_idem (s : string) : Py.rstrip_by f (Py.rstrip_by f s) = Py.rstrip_by f s.
Proof.
  induction s as [|c s IH]; [reflexivity|].
  rewrite rstrip_by_cons. destruct (all_chars f (String c s)) eqn:E; [reflexivity|].
  rewrite rstrip_by_cons, IH.
  destruct (all_chars f (String c (Py.rstrip_by f s))) eqn:E'; [|reflexivity].
  exfalso. simpl in E, E'. apply andb_true_iff in E' as [Hc Hs].
  rewrite Hc in E. simpl in E.
  destruct s as [|d s]; [discriminate|].
  rewrite rstrip_by_cons, E in Hs. simpl in E. simpl in Hs.
  apply andb_true_iff in Hs as [Hd Hs]. rewrite Hd in E. simpl in E.
  clear IH Hd. revert Hs E. generalize s. clear.
  induction s as [|e s IH]; [discriminate|].
  intros Hs E. rewrite rstrip_by_cons in Hs.
  destruct (all_chars f (String e s)) eqn:Ee; [congruence|].
  simpl in Hs. apply andb_true_iff in Hs as [He Hs].
  simpl in Ee. rewrite He in Ee. simpl in Ee. by apply IH.
Qed.

Lemma lstrip_by_all (s : string) : all_chars f s = true → Py.lstrip_by f s = EmptyString.
Proof.
  induction s as [|c s IH]; [reflexivity|]. simpl.
  intros [Hc Hs]%andb_true_iff. rewrite Hc. by apply IH.
Qed.

Lemma lstrip_rstrip_comm (s : string) :
  Py.lstrip_by f (Py.rstrip_by f s) = Py.rstrip_by f (Py.lstrip_by f s).
Proof.
  induction s as [|c s IH]; [reflexivity|].
  rewrite rstrip_by_cons.
  change (Py.lstrip_by f (String c s)) with (if f c then Py.lstrip_by f s else String c s).
  change (all_chars f (String c s)) with (f c && all_chars f s).
  destruct (f c) eqn:Hc.
  - rewrite andb_true_l. destruct (all_chars f s) eqn:Hs.
    + by rewrite (lstrip_by_all s Hs).
    + change (Py.lstrip_by f (String c (Py.rstrip_by f s)))
        with (if f c then Py.lstrip_by f (Py.rstrip_by f s) else String c (Py.rstrip_by f s)).
      rewrite Hc. exact IH.
  - rewrite andb_false_l, rstrip_by_cons.
    change (all_chars f (String c s)) with (f c && all_chars f s).
    rewrite Hc, andb_false_l.
    change (Py.lstrip_by f (String c (Py.rstrip_by f s)))
      with (if f c then Py.lstrip_by f (Py.rstrip_by f s) else String c (Py.rstrip_by f s)).
    by rewrite Hc.
Qed.

Lemma all_chars_lstrip_by (g : ascii → bool) (s : string) :
  all_chars f s = true → all_chars f (Py.lstrip_by g s) = true.
Proof.
  induction s as [|c s IH]; [done|]. intros H. simpl.
  destruct (g c); [|exact H]. simpl in H. apply andb_true_iff in H as [_ H]. by apply IH.
Qed.

Lemma rstrip_by_length (s : string) :
  (String.length (Py.rstrip_by f s) ≤ String.length s)%nat.
Proof.
  induction s as [|c s IH]; [done|]. rewrite rstrip_by_cons.
  destruct (all_chars f (String c s)); simpl; lia.
Qed.

Lemma lstrip_by_length (s : string) :
  (String.length (Py.lstrip_by f s) ≤ String.length s)%nat.
Proof. induction s as [|c s IH]; [done|]. simpl. destruct (f c); simpl; lia. Qed.

Lemma before_append_sep (c : ascii) (a b : string) :
  before c (a +:+ String c b) = before c a.
Proof.
  induction a as [|d a IH].
  - rewrite append_nil_l. simpl. by rewrite decide_True.
  - rewrite append_cons. simpl. destruct (decide (d = c)); [done | by rewrite IH].
Qed.

Lemma split_hd (c : ascii) (s : string) : hd EmptyString (Py.split c s) = before c s.
Proof.
  induction s as [|d s IH]; [done|]. simpl.
  destruct (decide (d = c)); [done|].
  destruct (Py.split c s) as [|h t]; simpl in *; by rewrite <- IH.
Qed.

Lemma split_not_nil (c : ascii) (s : string) : Py.split c s ≠ [].
Proof.
  destruct s as [|d s]; [done|]. simpl.
  destruct (decide (d = c)); [done|]. by destruct (Py.split c s).
Qed.

Lemma before_rstrip_by (c : ascii) (s : string) :
  before c s = s → before c (Py.rstrip_by f s) = Py.rstrip_by f s.
Proof.
  induction s as [|d s IH]; [done|]. simpl (before c (String d s)).
  destruct (decide (d = c)) as [->|Hd]; [done|]. intros [= Hs].
  rewrite rstrip_by_cons. destruct (all_chars f (String d s)); [done|].
  simpl. by rewrite decide_False, IH.
Qed.

Lemma first_line_split (t rest : string) :
  ∃ rest', Py.read_text (t +:+ String Py.nl rest) = first_line t +:+ String Py.nl rest'.
Proof.
  induction t as [|d t [r IH]].
  - rewrite append_nil_l. by eexists.
  - rewrite append_cons. simpl. destruct (decide (d = Py.nl)) as [->|Hnl].
    + eexists. reflexivity.
    + destruct (decide (d = Py.cr)) as [->|Hcr].
      * eexists. reflexivity.
      * exists r. by rewrite append_cons, IH.
Qed.

Lemma before_first_line (t : string) : before Py.nl (first_line t) = first_line t.
Proof.
  induction t as [|d t IH]; [done|]. simpl.
  destruct (decide (d = Py.nl)); [done|]. destruct (decide (d = Py.cr)); [done|].
  simpl. by rewrite decide_False, IH.
Qed.

End TextFacts.

Lemma strip_all_space (s : string) : all_chars Py.isspace s = true → Py.strip s = EmptyString.
Proof. intros H. unfold Py.strip. by rewrite lstrip_by_all. Qed.

Lemma strip_rstrip (s : string) : Py.strip (Py.rstrip_by Py.isspace s) = Py.strip s.
Proof. unfold Py.strip. by rewrite lstrip_rstrip_comm, rstrip_by_idem. Qed.

Lemma strip_length (s : string) : (String.length (Py.strip s) ≤ String.length s)%nat.
Proof.
  unfold Py.strip. etrans; [apply rstrip_by_length | apply lstrip_by_length].
Qed.

(** Stripping trailing white space first does not change what
    [lstrip(chars).strip()] leaves. *)
Lemma strip_lstrip_rstrip (g : ascii → bool) (s : string) :
  Py.strip (Py.lstrip_by g (Py.rstrip_by Py.isspace s)) = Py.strip (Py.lstrip_by g s).
Proof.
  induction s as [|c s IH]; [done|]. rewrite rstrip_by_cons.
  destruct (all_chars Py.isspace (String c s)) eqn:Hall.
  - symmetry. apply strip_all_space. by apply all_chars_lstrip_by.
  - simpl. destruct (g c); [exact IH|].
    rewrite <- (strip_rstrip (String c s)). by rewrite rstrip_by_cons, Hall.
Qed.

(** The title [get_all_advice] reads back from the text [save_advice] wrote. *)
Lemma split_first (c : ascii) (s : string) :
  ∃ rest, Py.split c s = before c s :: rest.
Proof.
  destruct (Py.split c s) as [|first rest] eqn:Hsplit; [by apply split_not_nil in Hsplit|].
  exists rest. f_equal. by rewrite <- split_hd, Hsplit.
Qed.

Lemma read_advice_file_title (filename t body : string) :
  title (read_advice_file filename (fstr ["# "; t; nl; nl; body; nl])) =
    Py.strip (Py.lstrip "# " (first_line t)).
Proof.
  assert (Hcontent : Py.read_text (fstr ["# "; t; nl; nl; body; nl]) =
                     "# " +:+ Py.read_text (t +:+ String Py.nl (nl +:+ body +:+ nl))).
  { cbn [fstr foldr]. rewrite append_nil_r. reflexivity. }
  unfold read_advice_file. cbv zeta. cbn [title]. rewrite Hcontent.
  destruct (first_line_split t (nl +:+ body +:+ nl)) as [rest' ->].
  set (A := "# " +:+ first_line t).
  assert (HA : before Py.nl A = A).
  { unfold A. rewrite !append_cons, append_nil_l. simpl. by rewrite before_first_line. }
  assert (Hlead : Py.strip ("# " +:+ first_line t +:+ String Py.nl rest') =
                  Py.rstrip_by Py.isspace (A +:+ String Py.nl rest')).
  { unfold Py.strip, A. by rewrite append_assoc. }
  rewrite Hlead, rstrip_by_append.
  match goal with
  | |- context [Py.split Py.nl ?x] => destruct (split_first Py.nl x) as [rest ->]
  end.
  destruct (all_chars Py.isspace (String Py.nl rest')) eqn:Hall.
  - rewrite before_rstrip_by by done. unfold Py.lstrip. by rewrite strip_lstrip_rstrip.
  - rewrite rstrip_by_not_all by done. by rewrite before_append_sep, HA.
Qed.

(** ** The monad of tools *)

Section MonadFacts.
Context {A B : Type}.

Lemma bind_returned (m : M A) (k : A → M B) w a w' :
  m w = (Returned a, w') → bind m k w = k a w'.
Proof. unfold bind. by intros ->. Qed.

Lemma bind_raised (m : M A) (k : A → M B) w e w' :
  m w = (Raised e, w') → bind m k w = (Raised e, w').
Proof. unfold bind. by intros ->. Qed.

Lemma try_except_returned (body : M A) (handler : exn → M A) w a w' :
  body w = (Returned a, w') → try_except body handler w = (Returned a, w').
Proof. unfold try_except. by intros ->. Qed.

Lemma try_except_raised (body : M A) (handler : exn → M A) w e w' :
  body w = (Raised e, w') → try_except body handler w = handler e w'.
Proof. unfold try_except. by intros ->. Qed.

End MonadFacts.

(** ** The session and the activity log *)

Section EffectFacts.
Context {env : Env}.

Lemma same_host_refl w : same_host w w.
Proof. by repeat split. Qed.

Lemma same_host_trans w1 w2 w3 : same_host w1 w2 → same_host w2 w3 → same_host w1 w3.
Proof. unfold same_host. intros (?&?&?) (?&?&?). repeat split; congruence. Qed.

Lemma same_host_log_writable w w' : same_host w w' → log_writable w' = log_writable w.
Proof. intros (Hp & Hd & _). unfold log_writable. by rewrite Hp, Hd. Qed.

Lemma ssh_run_frame cmd check w :
  sent (ssh_run cmd check w).2 = sent w ++ [cmd] ∧ same_host w (ssh_run cmd check w).2.
Proof.
  unfold ssh_run. destruct (remote (sent w) cmd) as [p|e]; [|by repeat split].
  destruct (check && negb (returncode p =? 0)); by repeat split.
Qed.

Lemma run_vm_cmd_frame cmd w :
  sent (run_vm_cmd cmd w).2 = sent w ++ [cmd] ∧ same_host w (run_vm_cmd cmd w).2.
Proof.
  unfold run_vm_cmd, bind. pose proof (ssh_run_frame cmd true w) as H.
  by destruct (ssh_run cmd true w) as [[p|e] w'].
Qed.

Lemma run_vm_cmd_ok cmd w p :
  remote (sent w) cmd = Returned p → returncode p = 0 →
  run_vm_cmd cmd w = (Returned (Py.strip (stdout p)), set_sent (sent w ++ [cmd]) w).
Proof. intros Hr Hz. unfold run_vm_cmd, bind, ssh_run. by rewrite Hr, Hz. Qed.

Lemma run_vm_cmd_refused cmd w e :
  refusal (remote (sent w) cmd) = Some e →
  run_vm_cmd cmd w = (Raised e, set_sent (sent w ++ [cmd]) w).
Proof.
  unfold refusal, run_vm_cmd, bind, ssh_run.
  destruct (remote (sent w) cmd) as [p|e']; [|by intros [= ->]].
  destruct (decide (returncode p = 0)) as [|Hne]; [done|]. intros [= <-].
  apply Z.eqb_neq in Hne. by rewrite Hne.
Qed.

Lemma Project__log_writable p message level w :
  project w = Some p → log_writable w = true →
  ∃ w', Project__log p message level w = (Returned tt, w') ∧
        sent w' = sent w ∧ project w' = project w ∧ log_writable w' = true.
Proof.
  intros Hp Hw. unfold log_writable in Hw. rewrite Hp in Hw.
  destruct (disk w !! path p) as [[|d]|] eqn:Hd; try done.
  apply bool_decide_eq_true in Hw as [f Hf].
  unfold Project__log, bind, utcnow, append_log. simpl. rewrite Hd, Hf.
  eexists. split; [reflexivity|]. repeat split; try done.
  unfold log_writable. simpl. rewrite Hp. by rewrite lookup_insert_eq.
Qed.

Lemma Project__log_unwritable p message level w :
  project w = Some p → log_writable w = false →
  Project__log p message level w =
    (Raised (FileNotFoundError (log_file p)), set_clock_reads (S (clock_reads w)) w).
Proof.
  intros Hp Hw. unfold log_writable in Hw. rewrite Hp in Hw.
  unfold Project__log, bind, utcnow, append_log. simpl.
  destruct (disk w !! path p) as [[|d]|] eqn:Hd; try done.
  destruct (logs d) eqn:Hf; [|done].
  by rewrite bool_decide_eq_false in Hw; destruct Hw.
Qed.

Lemma _log_tool_call_writable tool_name params result w :
  log_writable w = true →
  ∃ w', _log_tool_call tool_name params result w = (Returned tt, w') ∧
        sent w' = sent w ∧ project w' = project w ∧ log_writable w' = true.
Proof.
  intros Hw. unfold _log_tool_call, _get_project_optional, bind, gets.
  destruct (project w) as [p|] eqn:Hp; [|by exists w].
  rewrite <- Hp. by apply Project__log_writable.
Qed.

Lemma _log_error_writable tool_name error w :
  log_writable w = true →
  ∃ w', _log_error tool_name error w = (Returned tt, w') ∧
        sent w' = sent w ∧ project w' = project w ∧ log_writable w' = true.
Proof.
  intros Hw. unfold _log_error, _get_project_optional, bind, gets.
  destruct (project w) as [p|] eqn:Hp; [|by exists w].
  rewrite <- Hp. by apply Project__log_writable.
Qed.

Lemma _log_tool_call_unwritable tool_name params result w p :
  project w = Some p → log_writable w = false →
  _log_tool_call tool_name params result w =
    (Raised (FileNotFoundError (log_file p)), set_clock_reads (S (clock_reads w)) w).
Proof.
  intros Hp Hw. unfold _log_tool_call, _get_project_optional, bind, gets. rewrite Hp.
  by apply Project__log_unwritable.
Qed.

Lemma _log_error_unwritable tool_name error w p :
  project w = Some p → log_writable w = false →
  _log_error tool_name error w =
    (Raised (FileNotFoundError (log_file p)), set_clock_reads (S (clock_reads w)) w).
Proof.
  intros Hp Hw. unfold _log_error, _get_project_optional, bind, gets. rewrite Hp.
  by apply Project__log_unwritable.
Qed.

(** Logging sends nothing to the guest, whether the line can be written or not. *)
Lemma _log_error_sent tool_name error w :
  sent (_log_error tool_name error w).2 = sent w.
Proof.
  destruct (log_writable w) eqn:Hw.
  - by destruct (_log_error_writable tool_name error w Hw) as (w' & -> & ? & _).
  - unfold log_writable in Hw. destruct (project w) as [p|] eqn:Hp; [|done].
    rewrite (_log_error_unwritable _ _ _ p); [done..|].
    unfold log_writable. by rewrite Hp.
Qed.

Lemma _log_tool_call_sent tool_name params result w :
  sent (_log_tool_call tool_name params result w).2 = sent w.
Proof.
  destruct (log_writable w) eqn:Hw.
  - by destruct (_log_tool_call_writable tool_name params result w Hw) as (w' & -> & ? & _).
  - unfold log_writable in Hw. destruct (project w) as [p|] eqn:Hp; [|done].
    rewrite (_log_tool_call_unwritable _ _ _ _ p); [done..|].
    unfold log_writable. by rewrite Hp.
Qed.

End EffectFacts.

(** ** run_actions *)

Section BatchFacts.
Context {env : Env}.

Lemma run_action_same_host i a t w : same_host w (run_action i a t w).2.
Proof.
  unfold run_action.
  repeat match goal with
         | |- context [if Val.eq_str t ?s then _ else _] => destruct (Val.eq_str t s)
         end;
    unfold bind, lift, ret;
    repeat match goal with
           | |- context [match ?o with Returned _ => _ | Raised _ => _ end] =>
               destruct o; simpl
           end;
    try apply same_host_refl;
    match goal with
    | |- context [run_vm_cmd ?cmd w] =>
        pose proof (run_vm_cmd_frame cmd w) as [_ H];
        destruct (run_vm_cmd cmd w) as [[?|?] ?]; exact H
    end.
Qed.

Lemma all_succeed_same_host i actions w w' entries :
  all_succeed i actions w w' entries → same_host w w'.
Proof.
  induction 1 as [|i a rest w w1 w' entry entries Hrun _ IH]; [apply same_host_refl|].
  pose proof (run_action_same_host i a (dict_get a "action" VNone) w) as H.
  rewrite Hrun in H. by eapply same_host_trans.
Qed.

Lemma all_succeed_length i actions w w' entries :
  all_succeed i actions w w' entries → length entries = length actions.
Proof. induction 1; simpl; congruence. Qed.

(** Every entry of a successful element starts with its number. *)
Lemma run_action_numbered i a t w entry w' :
  run_action i a t w = (Returned entry, w') →
  ∃ text, entry = pretty (i + 1)%nat +:+ ". " +:+ text.
Proof.
  unfold run_action.
  repeat match goal with
         | |- context [if Val.eq_str t ?s then _ else _] => destruct (Val.eq_str t s)
         end;
    unfold bind, lift, ret;
    repeat match goal with
           | |- context [match ?o with Returned _ => _ | Raised _ => _ end] =>
               destruct o; simpl
           end;
    try done;
    try match goal with
        | |- context [run_vm_cmd ?cmd w] => destruct (run_vm_cmd cmd w) as [[?|?] ?]
        end;
    intros [= <- _]; eexists; unfold fstr; simpl; reflexivity.
Qed.

Lemma all_succeed_numbered i actions w w' entries j entry :
  all_succeed i actions w w' entries → entries !! j = Some entry →
  ∃ text, entry = pretty (i + j + 1)%nat +:+ ". " +:+ text.
Proof.
  intros H. revert j. induction H as [|i a rest w w1 w' e0 entries Hrun _ IH]; intros j; [done|].
  destruct j as [|j]; simpl.
  - intros [= <-]. rewrite Nat.add_0_r. by eapply run_action_numbered.
  - intros Hj. destruct (IH j Hj) as [text ->]. exists text.
    by replace (S i + j + 1)%nat with (i + S j + 1)%nat by lia.
Qed.

(** The loop goes through the elements that do not raise one by one. *)
Lemma run_actions_loop_all_succeed i pre rest results w w' entries :
  all_succeed i pre w w' entries →
  run_actions_loop i (pre ++ rest) results w =
    run_actions_loop (i + length pre) rest (results ++ entries) w'.
Proof.
  intros H. revert results.
  induction H as [|i a pre w w1 w' entry entries Hrun _ IH]; intros results.
  - by rewrite Nat.add_0_r, app_nil_r.
  - simpl. erewrite bind_returned; last first.
    { erewrite try_except_returned; [reflexivity|]. by erewrite bind_returned. }
    cbn [fst snd]. rewrite IH, <- app_assoc. simpl.
    by replace (i + S (length pre))%nat with (S (i + length pre)) by lia.
Qed.

(** At the element that raises the loop appends the error entry, logs the
    error and is left: the elements after it are not looked at. *)
Lemma run_actions_loop_raised i a post results w e w' :
  run_action i a (dict_get a "action" VNone) w = (Raised e, w') →
  run_actions_loop i (a :: post) results w =
    bind (_log_error "run_actions"
            (fstr ["Action "; pretty (i + 1)%nat; " ("; Val.str (dict_get a "action" VNone);
                   "): "; exn_str e]))
         (λ _, ret (results ++ [error_entry i (dict_get a "action" VNone) e])) w'.
Proof.
  intros Hrun. simpl. unfold bind at 1.
  erewrite try_except_raised; [|by erewrite bind_raised].
  unfold bind. by destruct (_log_error _ _ w') as [[[]|e'] w''].
Qed.

End BatchFacts.

(** C1.  In a batch whose element [k] (counted from 1) is the first to raise
    inside its [try] — the elements [pre] before it all went through, as
    successes or as unknown kinds — the list [results] that the loop of
    [run_actions] builds is the [k - 1] entries of those elements followed
    by the entry "k. ERROR in <kind>: <message>" of that element: exactly
    [k] entries, each starting with its number in submission order.  The
    commands sent to the guest are those sent up to the failure, so no
    later element is executed.  The text [run_actions] returns, when it
    returns, is the line "Executed k actions:" followed by these [k]
    entries, one on each line, and it does return it when the activity log
    can be written (or no project is active). *)
Theorem run_actions_fail_stop {env : Env} (pre post : list (gmap string pyval))
    (a : gmap string pyval) (w w1 w2 : World) (entries : list string) (e : exn) :
  all_succeed 0 pre w w1 entries →
  run_action (length pre) a (dict_get a "action" VNone) w1 = (Raised e, w2) →
  let k := S (length pre) in
  let error_line :=
    fstr [pretty k; ". ERROR in "; Val.str (dict_get a "action" VNone); ": "; exn_str e] in
  let results := entries ++ [error_line] in
  let text := fstr ["Executed "; pretty k; " actions:"; nl] +:+ Py.join nl results in
  let r := run_actions (pre ++ a :: post) w in
  length results = k ∧
  (∀ j entry, results !! j = Some entry →
     ∃ text, entry = pretty (j + 1)%nat +:+ ". " +:+ text) ∧
  results !! (k - 1)%nat = Some error_line ∧
  (∀ out w3,
     run_actions_loop 0 (pre ++ a :: post) [] w = (Returned out, w3) → out = results) ∧
  sent r.2 = sent w2 ∧
  (∀ s, r.1 = Returned s → s = text) ∧
  (log_writable w = true →
   (run_actions_loop 0 (pre ++ a :: post) [] w).1 = Returned results ∧
   r.1 = Returned text).
Proof.
  intros Hpre Hrun k error_line results text r.
  pose proof (all_succeed_length _ _ _ _ _ Hpre) as Hlen.
  assert (Herr : error_entry (length pre) (dict_get a "action" VNone) e = error_line).
  { unfold error_entry, error_line, k. by rewrite Nat.add_1_r. }
  assert (Hk : length results = k).
  { unfold results, k. rewrite length_app. simpl. lia. }
  assert (Htext : summary results = text).
  { unfold summary, text. by rewrite Hk. }
  split; [exact Hk|]. split.
  { intros j entry Hj. unfold results in Hj.
    destruct (decide (j < length entries)%nat) as [Hlt|Hge].
    - rewrite lookup_app_l in Hj by done.
      by apply (all_succeed_numbered _ _ _ _ _ _ _ Hpre Hj).
    - rewrite lookup_app_r in Hj by lia.
      destruct (j - length entries)%nat as [|n] eqn:Hn; [|by destruct n].
      simpl in Hj. injection Hj as <-. unfold error_line, k.
      replace (j + 1)%nat with (S (length pre)) by lia. eexists. unfold fstr. simpl.
      reflexivity. }
  split.
  { unfold results, k. rewrite lookup_app_r by (simpl; lia).
    by replace (S (length pre) - 1 - length entries)%nat with 0%nat by lia. }
  assert (Hloop : run_actions_loop 0 (pre ++ a :: post) [] w =
                  bind (_log_error "run_actions"
                          (fstr ["Action "; pretty (length pre + 1)%nat; " (";
                                 Val.str (dict_get a "action" VNone); "): "; exn_str e]))
                       (λ _, ret results) w2).
  { rewrite (run_actions_loop_all_succeed _ _ _ _ _ _ _ Hpre).
    change (0 + length pre)%nat with (length pre). change ([] ++ entries) with entries.
    rewrite (run_actions_loop_raised _ _ _ _ _ _ _ Hrun). by rewrite Herr. }
  split.
  { intros out w3. rewrite Hloop. unfold bind, ret.
    destruct (_log_error _ _ w2) as [[[]|e'] w'']; [by intros [= <- _] | done]. }
  assert (Hhost : log_writable w2 = log_writable w).
  { apply same_host_log_writable. eapply same_host_trans.
    - by eapply all_succeed_same_host.
    - pose proof (run_action_same_host (length pre) a (dict_get a "action" VNone) w1) as H.
      by rewrite Hrun in H. }
  destruct (log_writable w) eqn:Hw.
  - assert (∃ w3 w4, run_actions_loop 0 (pre ++ a :: post) [] w = (Returned results, w3) ∧
                     r = (Returned text, w4) ∧ sent w4 = sent w2)
      as (w3 & w4 & Hresults & Hr & Hsent).
    { destruct (_log_error_writable "run_actions"
                  (fstr ["Action "; pretty (length pre + 1)%nat; " (";
                         Val.str (dict_get a "action" VNone); "): "; exn_str e]) w2)
        as (w3 & Herror & Hsent3 & _ & Hw3); [congruence|].
      assert (Hresults : run_actions_loop 0 (pre ++ a :: post) [] w = (Returned results, w3)).
      { rewrite Hloop. by rewrite (bind_returned _ _ _ _ _ Herror). }
      destruct (_log_tool_call_writable "run_actions"
                  [("count", VInt (Z.of_nat (length (pre ++ a :: post))))]
                  (Some (fstr ["executed "; pretty (length results); " actions"])) w3 Hw3)
        as (w4 & Hcall & Hsent4 & _).
      exists w3, w4. split; [exact Hresults|]. split; [|congruence].
      unfold r, run_actions. rewrite (bind_returned _ _ _ _ _ Hresults).
      rewrite (bind_returned _ _ _ _ _ Hcall). unfold ret. by rewrite Htext. }
    rewrite Hr, Hresults. simpl. split; [done|]. split; [by intros s [= <-] | done].
  - assert (∃ e' w4, r = (Raised e', w4) ∧ sent w4 = sent w2)
      as (e' & w4 & Hr & Hsent).
    { assert (∃ p, project w2 = Some p) as [p Hp].
      { pose proof Hhost as Hw2. unfold log_writable in Hw2.
        destruct (project w2) as [p|]; [by exists p | done]. }
      unfold r, run_actions. unfold bind at 1. rewrite Hloop.
      rewrite (bind_raised _ _ _ _ _
                 (_log_error_unwritable _ _ _ p Hp Hhost)).
      by eexists _, _. }
    rewrite Hr. simpl. split; [done|]. split; [by intros s [=] | done].
Qed.

Lemma run_actions_fail_stop_witness :
  let r := @run_actions Sample.keyless
             [Sample.scroll; Sample.type_hi; Sample.press_ctrl_l; Sample.type_hi]
             Sample.blank in
  r.1 = Returned (fstr ["Executed 3 actions:"; nl;
                        "1. UNKNOWN ACTION: scroll"; nl;
                        "2. type_text (2 chars)"; nl;
                        "3. ERROR in press_keys: Process exited with non-zero exit status 1"])
  ∧ sent r.2 = ["DISPLAY=:0 xdotool type --delay 10 " +:+ Py.str1 Py.dquote +:+ "hi"
                +:+ Py.str1 Py.dquote;
                "DISPLAY=:0 xdotool key ctrl+l"].
Proof.
  edestruct (@run_actions_fail_stop Sample.keyless [Sample.scroll; Sample.type_hi]
               [Sample.type_hi] Sample.press_ctrl_l Sample.blank)
    as (_ & _ & _ & _ & Hsent & _ & Hreturned).
  - eapply all_succeed_cons; [vm_compute; reflexivity|].
    eapply all_succeed_cons; [vm_compute; reflexivity|]. apply all_succeed_nil.
  - vm_compute. reflexivity.
  - destruct Hreturned as [_ Hreturned]; [reflexivity|].
    split; (etrans; [eassumption | vm_compute; reflexivity]).
Defined.

Section UnknownKinds.
Context {env : Env}.

Lemma unknown_kind_eq_str t s :
  unknown_kind t = true → s ∈ known_kinds → Val.eq_str t s = false.
Proof.
  unfold unknown_kind, known_kinds. simpl. intros H Hs.
  apply negb_true_iff in H. repeat (apply orb_false_iff in H as [? H]).
  repeat (apply elem_of_cons in Hs as [->|Hs]; [done|]). by apply elem_of_nil in Hs.
Qed.

Lemma run_action_unknown i a t w :
  unknown_kind t = true →
  run_action i a t w =
    (Returned (fstr [pretty (i + 1)%nat; ". UNKNOWN ACTION: "; Val.str t]), w).
Proof.
  intros H. unfold run_action.
  rewrite !(unknown_kind_eq_str t _ H) by (unfold known_kinds; set_solver).
  reflexivity.
Qed.

(** The [type_text] branch of a batch element, when the guest carries the
    command out *)
Lemma run_action_type_text i a w text p :
  dict_get a "text" (VStr EmptyString) = VStr text →
  remote (sent w) (xdotool_type text) = Returned p → returncode p = 0 →
  run_action i a (VStr "type_text") w =
    (Returned (fstr [pretty (i + 1)%nat; ". type_text ("; Py.str_int (Py.len text); " chars)"]),
     set_sent (sent w ++ [xdotool_type text]) w).
Proof.
  intros Htext Hr Hz. unfold run_action. decide_kinds.
  rewrite Htext. unfold bind at 1, lift, Proto.escape_quotes.
  fold escaped_quote. fold (xdotool_type text).
  erewrite bind_returned; [|by apply run_vm_cmd_ok]. reflexivity.
Qed.

End UnknownKinds.

(** C4.  An element whose kind is none of the five recognized ones adds the
    entry [UNKNOWN ACTION] and the loop goes on with the next element, with
    nothing sent to the guest; for the batch [[unknown, type_text("hi")]],
    on a guest that carries out the typing command, [results] has exactly
    two entries, the unknown one and the [type_text] one, and neither is an
    error entry (none has the form "n. ERROR in ..."); the text
    [run_actions] returns is the line "Executed 2 actions:" followed by
    these two entries, one on each line: it returns it when the activity
    log can be written (or no project is active) and returns nothing else. *)
Theorem run_actions_unknown_not_fatal {env : Env} (u : gmap string pyval) (w : World)
    (p : SSHCompletedProcess) :
  unknown_kind (dict_get u "action" VNone) = true →
  remote (sent w) (xdotool_type "hi") = Returned p →
  returncode p = 0 →
  let kind := Val.str (dict_get u "action" VNone) in
  let results := [fstr ["1. UNKNOWN ACTION: "; kind]; "2. type_text (2 chars)"] in
  let text := fstr ["Executed 2 actions:"; nl;
                    "1. UNKNOWN ACTION: "; kind; nl; "2. type_text (2 chars)"] in
  let r := run_actions [u; Sample.type_hi] w in
  (∀ i rest acc w',
     run_actions_loop i (u :: rest) acc w' =
       run_actions_loop (S i) rest
         (acc ++ [fstr [pretty (i + 1)%nat; ". UNKNOWN ACTION: "; kind]]) w') ∧
  run_actions_loop 0 [u; Sample.type_hi] [] w =
    (Returned results, set_sent (sent w ++ [xdotool_type "hi"]) w) ∧
  length results = 2%nat ∧
  (∀ j entry t e, results !! j = Some entry →
     entry ≠ fstr [pretty (j + 1)%nat; ". ERROR in "; Val.str t; ": "; exn_str e]) ∧
  sent r.2 = sent w ++ [xdotool_type "hi"] ∧
  (∀ s, r.1 = Returned s → s = text) ∧
  (log_writable w = true → r.1 = Returned text).
Proof.
  intros Hu Hr Hz kind results text r.
  assert (Htext : summary results = text).
  { unfold summary, results, text. cbn [length Py.join fstr foldr].
    change (pretty 2%nat) with "2". by rewrite !append_nil_r, !append_assoc. }
  assert (Hstep : ∀ i rest acc w',
            run_actions_loop i (u :: rest) acc w' =
              run_actions_loop (S i) rest
                (acc ++ [fstr [pretty (i + 1)%nat; ". UNKNOWN ACTION: "; kind]]) w').
  { intros i rest acc w'. simpl.
    erewrite bind_returned; last first.
    { erewrite try_except_returned; [reflexivity|].
      erewrite bind_returned; [reflexivity|]. by apply run_action_unknown. }
    reflexivity. }
  assert (Hloop : run_actions_loop 0 [u; Sample.type_hi] [] w =
                  (Returned results, set_sent (sent w ++ [xdotool_type "hi"]) w)).
  { rewrite Hstep. simpl.
    erewrite bind_returned; last first.
    { erewrite try_except_returned; [reflexivity|].
      erewrite bind_returned; [reflexivity|].
      change (dict_get Sample.type_hi "action" VNone) with (VStr "type_text").
      by eapply run_action_type_text. }
    reflexivity. }
  split; [exact Hstep|]. split; [exact Hloop|]. split; [reflexivity|]. split.
  { intros j entry t e Hj He. subst entry.
    destruct j as [|[|j]]; [| |done]; injection Hj as Hj;
      vm_compute in Hj; discriminate. }
  unfold r, run_actions. rewrite (bind_returned _ _ _ _ _ Hloop).
  destruct (log_writable w) eqn:Hw.
  - destruct (_log_tool_call_writable "run_actions"
                [("count", VInt (Z.of_nat (length [u; Sample.type_hi])))]
                (Some (fstr ["executed "; pretty (length results); " actions"]))
                (set_sent (sent w ++ [xdotool_type "hi"]) w))
      as (w3 & Hcall & Hsent & _); [by rewrite <- Hw|].
    rewrite (bind_returned _ _ _ _ _ Hcall). unfold ret. rewrite Htext. simpl.
    split; [by rewrite Hsent|]. split; [by intros s [= <-] | done].
  - pose proof Hw as Hw'. unfold log_writable in Hw'.
    destruct (project w) as [p'|] eqn:Hp; [|done].
    erewrite bind_raised; last first.
    { apply (_log_tool_call_unwritable _ _ _ _ p'); [done|].
      unfold log_writable. simpl. by rewrite Hp. }
    simpl. split; [done|]. split; [by intros s [=] | done].
Qed.

Lemma run_actions_unknown_not_fatal_witness :
  (@run_actions Sample.obliging [Sample.scroll; Sample.type_hi] Sample.blank).1 =
    Returned (fstr ["Executed 2 actions:"; nl;
                    "1. UNKNOWN ACTION: scroll"; nl; "2. type_text (2 chars)"]).
Proof.
  edestruct (@run_actions_unknown_not_fatal Sample.obliging Sample.scroll Sample.blank)
    as (_ & _ & _ & _ & _ & _ & Hreturned); [reflexivity..|].
  etrans; [apply Hreturned; reflexivity | vm_compute; reflexivity].
Defined.

(** ** Unknown buttons and modes *)

Section Validation.
Context {env : Env}.

Lemma click_unknown_button button count w :
  Py.assoc button button_map = None →
  click button count w = (Raised (ValueError "button must be left/middle/right"), w).
Proof. intros H. unfold click. by rewrite H. Qed.

Lemma move_mouse_unknown_mode x y mode w :
  mode ≠ "absolute" → mode ≠ "relative" →
  move_mouse x y mode w = (Raised (ValueError "mode must be 'absolute' or 'relative'"), w).
Proof. intros H1 H2. unfold move_mouse. by rewrite !decide_False. Qed.

Lemma run_action_click_sent i a w :
  ∃ number,
    Proto.button_number button_map (dict_get a "button" (VStr "left")) = number ∧
    match number with
    | Returned n =>
        sent (run_action i a (VStr "click") w).2 =
          sent w ++ [xdotool_click (Val.str (dict_get a "count" (VInt 1))) (Py.str_int n)]
    | Raised _ => sent (run_action i a (VStr "click") w).2 = sent w
    end.
Proof.
  eexists. split; [reflexivity|]. unfold run_action. decide_kinds.
  unfold bind at 1, lift.
  destruct (Proto.button_number _ _) as [n|e]; [|done].
  fold (xdotool_click (Val.str (dict_get a "count" (VInt 1))) (Py.str_int n)).
  pose proof (run_vm_cmd_frame
                (xdotool_click (Val.str (dict_get a "count" (VInt 1))) (Py.str_int n)) w)
    as [Hsent _].
  unfold bind. by destruct (run_vm_cmd _ w) as [[?|?] ?].
Qed.

Lemma run_action_move_mouse_sent i a w :
  sent (run_action i a (VStr "move_mouse") w).2 =
    sent w ++
      [if Val.eq_str (dict_get a "mode" (VStr "absolute")) "absolute"
       then xdotool_mousemove (Val.str (dict_get a "x" (VInt 0)))
              (Val.str (dict_get a "y" (VInt 0)))
       else xdotool_mousemove_relative (Val.str (dict_get a "x" (VInt 0)))
              (Val.str (dict_get a "y" (VInt 0)))].
Proof.
  unfold run_action. decide_kinds.
  match goal with
  | |- context [run_vm_cmd ?cmd] => pose proof (run_vm_cmd_frame cmd w) as [Hsent _]
  end.
  unfold bind. by destruct (run_vm_cmd _ w) as [[?|?] ?].
Qed.

End Validation.

(** C2.  A button that is none of left/middle/right and a mode that is
    neither absolute nor relative are refused by the single-action tools
    [click] and [move_mouse] with a [ValueError] before anything is sent to
    the guest; as elements of a batch they are not refused: [run_actions]
    sends the click with button number 1 and the move as a relative move. *)
Theorem unknown_button_and_mode_in_batch {env : Env} (button mode : string) :
  Py.assoc button button_map = None →
  mode ≠ "absolute" → mode ≠ "relative" →
  (∀ count w,
     click button count w = (Raised (ValueError "button must be left/middle/right"), w)) ∧
  (∀ x y w,
     move_mouse x y mode w =
       (Raised (ValueError "mode must be 'absolute' or 'relative'"), w)) ∧
  (∀ i a w,
     dict_get a "button" (VStr "left") = VStr button →
     sent (run_action i a (VStr "click") w).2 =
       sent w ++ [xdotool_click (Val.str (dict_get a "count" (VInt 1))) "1"]) ∧
  (∀ i a w,
     dict_get a "mode" (VStr "absolute") = VStr mode →
     sent (run_action i a (VStr "move_mouse") w).2 =
       sent w ++ [xdotool_mousemove_relative (Val.str (dict_get a "x" (VInt 0)))
                    (Val.str (dict_get a "y" (VInt 0)))]).
Proof.
  intros Hb Hm1 Hm2. split; [|split; [|split]].
  - intros count w. by apply click_unknown_button.
  - intros x y w. by apply move_mouse_unknown_mode.
  - intros i a w Ha. destruct (run_action_click_sent i a w) as (number & Hn & Hsent).
    rewrite Ha in Hn. unfold Proto.button_number in Hn. rewrite Hb in Hn.
    subst number. exact Hsent.
  - intros i a w Ha. rewrite run_action_move_mouse_sent, Ha. simpl.
    by rewrite bool_decide_eq_false_2.
Qed.

Lemma unknown_button_and_mode_in_batch_witness :
  (@click Sample.obliging "thumb" 1 Sample.blank).1 =
    Raised (ValueError "button must be left/middle/right") ∧
  sent (@run_actions Sample.obliging [Sample.click_thumb; Sample.move_diagonal] Sample.blank).2 =
    ["DISPLAY=:0 xdotool click --repeat 1 1";
     "DISPLAY=:0 xdotool mousemove_relative --sync 10 20"].
Proof.
  destruct (@unknown_button_and_mode_in_batch Sample.obliging "thumb" "diagonal")
    as (Hclick & _ & _ & _); [reflexivity | done | done |].
  split; [by rewrite Hclick | vm_compute; reflexivity].
Defined.

(** ** type_text *)

(** C5 fails as stated: the text [He said "hi"] has 12 characters, and
    [type_text] reports "Typed 12 characters", not "Typed 13 characters". *)
Lemma type_text_said_hi_reports_12 :
  (@type_text Sample.obliging Sample.said_hi Sample.blank).1 = Returned "Typed 12 characters" ∧
  (@type_text Sample.obliging Sample.said_hi Sample.blank).1 ≠ Returned "Typed 13 characters".
Proof. split; [vm_compute; reflexivity | vm_compute; discriminate]. Qed.

(** C5, amended.  [type_text] applied to [He said "hi"] sends one command,
    in which each of the two quote characters of the text is preceded by a
    backslash inside the quoted literal; on a guest that carries the command
    out it returns "Typed 12 characters" when the activity log can be
    written (or no project is active), and returns nothing else. *)
Theorem type_text_said_hi {env : Env} (w : World) (p : SSHCompletedProcess) :
  remote (sent w) (xdotool_type Sample.said_hi) = Returned p →
  returncode p = 0 →
  let r := type_text Sample.said_hi w in
  xdotool_type Sample.said_hi =
    fstr ["DISPLAY="; VM_DISPLAY; " xdotool type --delay 10 ";
          Py.str1 Py.dquote; Sample.said_hi_escaped; Py.str1 Py.dquote] ∧
  sent r.2 = sent w ++ [xdotool_type Sample.said_hi] ∧
  (∀ s, r.1 = Returned s → s = "Typed 12 characters") ∧
  (log_writable w = true → r.1 = Returned "Typed 12 characters").
Proof.
  intros Hr Hz r. split; [reflexivity|].
  unfold r, type_text. fold escaped_quote. fold (xdotool_type Sample.said_hi).
  rewrite (bind_returned _ _ _ _ _ (run_vm_cmd_ok _ _ _ Hr Hz)).
  match goal with
  | |- context [_log_tool_call ?n ?ps ?res] =>
      pose proof (_log_tool_call_sent n ps res
                    (set_sent (sent w ++ [xdotool_type Sample.said_hi]) w)) as Hsent;
      destruct (log_writable w) eqn:Hw;
      [ destruct (_log_tool_call_writable n ps res
                    (set_sent (sent w ++ [xdotool_type Sample.said_hi]) w))
          as (w3 & Hcall & _); [by rewrite <- Hw|]
      | ]
  end.
  - rewrite Hcall in Hsent. rewrite (bind_returned _ _ _ _ _ Hcall). unfold ret. simpl.
    split; [exact Hsent|]. split; [by intros s [= <-] | done].
  - unfold bind. destruct (_log_tool_call _ _ _ _) as [[[]|e] w3] eqn:Hcall.
    + exfalso. pose proof Hw as Hw'. unfold log_writable in Hw'.
      destruct (project w) as [p'|] eqn:Hp; [|done].
      rewrite (_log_tool_call_unwritable _ _ _ _ p') in Hcall; [done..|].
      unfold log_writable. simpl. by rewrite Hp.
    + simpl. split; [exact Hsent|]. split; [by intros s [=] | done].
Qed.

Lemma type_text_said_hi_witness :
  (@type_text Sample.obliging Sample.said_hi Sample.blank).1 = Returned "Typed 12 characters".
Proof.
  destruct (@type_text_said_hi Sample.obliging Sample.blank Sample.completed)
    as (_ & _ & _ & Hreturned); [reflexivity..|].
  apply Hreturned. reflexivity.
Defined.

(** ** Failures of the activity log *)

(** C9 fails as stated: with the project's [logs/] directory gone, the
    guest moves the pointer, and [move_mouse] then raises the error of the
    log write instead of returning "Mouse moved to (10, 20) [absolute]". *)
Lemma move_mouse_log_failure_replaces_result :
  (@move_mouse Sample.obliging 10 20 "absolute" Sample.logless).1 =
    Raised (FileNotFoundError "data/projects/20240517-120000_demo/logs/project.log") ∧
  sent (@move_mouse Sample.obliging 10 20 "absolute" Sample.logless).2 =
    ["DISPLAY=:0 xdotool mousemove --sync 10 20"].
Proof. split; vm_compute; reflexivity. Qed.

Lemma command_then_log_unwritable {env : Env} (cmd tool_name : string)
    (params : list (string * pyval)) (result : option string) (text : string)
    (w : World) (p : Project) :
  project w = Some p →
  log_writable w = false →
  unlogged w p cmd
    (bind (run_vm_cmd cmd)
       (λ _, bind (_log_tool_call tool_name params result) (λ _, ret text)) w).
Proof.
  intros Hp Hw. unfold unlogged.
  destruct (refusal (remote (sent w) cmd)) as [e|] eqn:Href.
  - by rewrite (bind_raised _ _ _ _ _ (run_vm_cmd_refused _ _ _ Href)).
  - assert (∃ reply, remote (sent w) cmd = Returned reply ∧ returncode reply = 0)
      as (reply & Hreply & Hz).
    { unfold refusal in Href. destruct (remote (sent w) cmd) as [reply|]; [|done].
      exists reply. split; [done|]. by destruct (decide (returncode reply = 0)). }
    rewrite (bind_returned _ _ _ _ _ (run_vm_cmd_ok _ _ _ Hreply Hz)).
    erewrite bind_raised; last first.
    { apply (_log_tool_call_unwritable _ _ _ _ p); [done|].
      unfold log_writable in *. simpl. by rewrite Hp in *. }
    done.
Qed.

(** C9, amended.  When a project is active and its activity log cannot be
    appended to, each single-action tool ([move_mouse], [click],
    [type_text], [press_keys] with valid arguments) sends its command; if
    the command itself fails, that error is what the caller receives, and
    the log is not touched; if the command succeeds, the caller receives the
    error of the log write in place of the result.  [wait] likewise raises
    the error of the log write instead of returning. *)
Theorem tools_log_failure {env : Env} (w : World) (p : Project) :
  project w = Some p →
  log_writable w = false →
  (∀ x y, unlogged w p (xdotool_mousemove (Py.str_int x) (Py.str_int y))
            (move_mouse x y "absolute" w)) ∧
  (∀ x y, unlogged w p (xdotool_mousemove_relative (Py.str_int x) (Py.str_int y))
            (move_mouse x y "relative" w)) ∧
  (∀ button count number,
     Py.assoc button button_map = Some number →
     unlogged w p (xdotool_click (Py.str_int count) (Py.str_int number))
       (click button count w)) ∧
  (∀ text, unlogged w p (xdotool_type text) (type_text text w)) ∧
  (∀ keys, unlogged w p (xdotool_key (Py.join "+" (map Py.lower keys)))
             (press_keys keys w)) ∧
  (∀ seconds,
     (wait seconds w).1 = Raised (FileNotFoundError (log_file p)) ∧
     sent (wait seconds w).2 = sent w).
Proof.
  intros Hp Hw. split; [|split; [|split; [|split; [|split]]]].
  - intros x y. by apply command_then_log_unwritable.
  - intros x y. by apply command_then_log_unwritable.
  - intros button count number Hbutton. unfold click. rewrite Hbutton.
    by apply command_then_log_unwritable.
  - intros text. by apply command_then_log_unwritable.
  - intros keys. by apply command_then_log_unwritable.
  - intros seconds. unfold wait.
    erewrite bind_raised; [|by apply (_log_tool_call_unwritable _ _ _ _ p)]. done.
Qed.

Lemma tools_log_failure_witness :
  (@move_mouse Sample.obliging 10 20 "relative" Sample.logless).1 =
    Raised (FileNotFoundError (log_file Sample.demo)).
Proof.
  destruct (@tools_log_failure Sample.obliging Sample.logless Sample.demo)
    as (_ & Hrelative & _); [reflexivity | reflexivity |].
  apply (Hrelative 10 20).
Defined.

(** ** ssh_execute *)

Section ReportFacts.
Context {env : Env}.

(** What [ssh_execute] comes to while the activity log can be written. *)
Lemma ssh_execute_report (command : string) (w : World) :
  log_writable w = true →
  let r := ssh_execute command w in
  sent r.2 = sent w ++ [command] ∧
  match remote (sent w) command with
  | Raised e => r.1 = Returned (fstr ["Error executing command: "; exn_str e])
  | Returned p =>
      r.1 = Returned (match report_parts p with
                      | [] => "Command completed (no output)"
                      | parts => Py.join (nl +:+ nl) parts
                      end) ∧
      (returncode p ≠ 0 →
         fstr ["EXIT CODE: "; Py.str_int (returncode p)] ∈ report_parts p ∧
         (stderr p ≠ EmptyString → fstr ["STDERR:"; nl; stderr p] ∈ report_parts p))
  end.
Proof.
  intros Hw r.
  set (w1 := set_sent (sent w ++ [command]) w).
  assert (Hw1 : log_writable w1 = true) by (by rewrite <- Hw).
  unfold r, ssh_execute.
  destruct (remote (sent w) command) as [p|e] eqn:Hreply.
  - assert (Hrun : ssh_run command false w = (Returned p, w1)).
    { unfold ssh_run. by rewrite Hreply. }
    destruct (decide (returncode p = 0)) as [Hz|Hnz].
    + destruct (_log_tool_call_writable "ssh_execute" [("command", VStr command)]
                  (Some "success") w1 Hw1) as (w2 & Hcall & Hsent & _).
      erewrite try_except_returned; last first.
      { rewrite (bind_returned _ _ _ _ _ Hrun). rewrite decide_True by done.
        erewrite bind_returned; [reflexivity|].
        by rewrite (bind_returned _ _ _ _ _ Hcall). }
      cbn [fst snd]. split; [by rewrite Hsent|]. split; [|done].
      unfold report_parts. rewrite (decide_True _ _ Hz), !app_nil_r.
      match goal with |- context [match ?l with [] => _ | _ => _ end] => by destruct l end.
    + destruct (_log_tool_call_writable "ssh_execute" [("command", VStr command)]
                  (Some (fstr ["exit_code="; Py.str_int (returncode p)])) w1 Hw1)
        as (w2 & Hcall & Hsent2 & _ & Hw2).
      destruct (_log_error_writable "ssh_execute"
                  (fstr ["Command failed with exit code "; Py.str_int (returncode p)]) w2 Hw2)
        as (w3 & Herr & Hsent3 & _).
      erewrite try_except_returned; last first.
      { rewrite (bind_returned _ _ _ _ _ Hrun). rewrite decide_False by done.
        erewrite bind_returned; [reflexivity|].
        rewrite (bind_returned _ _ _ _ _ Hcall).
        by rewrite (bind_returned _ _ _ _ _ Herr). }
      cbn [fst snd]. split; [by rewrite Hsent3, Hsent2|]. split.
      * unfold report_parts. rewrite (decide_False _ _ Hnz), app_assoc.
        match goal with |- context [match ?l with [] => _ | _ => _ end] => by destruct l end.
      * intros _. unfold report_parts. rewrite (decide_False _ _ Hnz). split.
        -- rewrite !elem_of_app. right. right. by apply list_elem_of_singleton.
        -- intros Herrs. rewrite (decide_False _ _ Herrs), !elem_of_app.
           right. left. by apply list_elem_of_singleton.
  - assert (Hrun : ssh_run command false w = (Raised e, w1)).
    { unfold ssh_run. by rewrite Hreply. }
    destruct (_log_error_writable "ssh_execute" (exn_str e) w1 Hw1)
      as (w2 & Herr & Hsent & _).
    erewrite try_except_raised; [|by rewrite (bind_raised _ _ _ _ _ Hrun)].
    rewrite (bind_returned _ _ _ _ _ Herr). simpl. by rewrite Hsent.
Qed.

(** What [ssh_execute] comes to when a project is active and its log cannot
    be written: the first log call raises, inside the [try] or in the
    [except] branch, and the log call of the [except] branch raises again,
    out of the tool. *)
Lemma ssh_execute_unlogged (command : string) (w : World) (p : Project) :
  project w = Some p → log_writable w = false →
  ∃ w', ssh_execute command w = (Raised (FileNotFoundError (log_file p)), w') ∧
        sent w' = sent w ++ [command] ∧ disk w' = disk w.
Proof.
  intros Hp Hw.
  set (w1 := set_sent (sent w ++ [command]) w).
  assert (Hp1 : project w1 = Some p) by done.
  assert (Hw1 : log_writable w1 = false) by done.
  set (w2 := set_clock_reads (S (clock_reads w1)) w1).
  assert (Hp2 : project w2 = Some p) by done.
  assert (Hw2 : log_writable w2 = false) by done.
  assert (Hhandler : ∀ e v,
            (v = w1 ∨ v = w2) →
            ∃ w', bind (_log_error "ssh_execute" (exn_str e))
                    (λ _, ret (fstr ["Error executing command: "; exn_str e])) v =
                    (Raised (FileNotFoundError (log_file p)), w') ∧
                  sent w' = sent w ++ [command] ∧ disk w' = disk w).
  { intros e v [-> | ->]; eexists.
    - rewrite (bind_raised _ _ _ _ _ (_log_error_unwritable _ _ _ p Hp1 Hw1)). done.
    - rewrite (bind_raised _ _ _ _ _ (_log_error_unwritable _ _ _ p Hp2 Hw2)). done. }
  unfold ssh_execute.
  destruct (remote (sent w) command) as [result|e] eqn:Hreply.
  - assert (Hrun : ssh_run command false w = (Returned result, w1)).
    { unfold ssh_run. by rewrite Hreply. }
    erewrite try_except_raised; [apply Hhandler; by right|].
    rewrite (bind_returned _ _ _ _ _ Hrun).
    destruct (decide (returncode result = 0)) as [Hz|Hnz].
    + erewrite bind_raised; [reflexivity|].
      by rewrite (bind_raised _ _ _ _ _ (_log_tool_call_unwritable _ _ _ _ p Hp1 Hw1)).
    + erewrite bind_raised; [reflexivity|].
      by rewrite (bind_raised _ _ _ _ _ (_log_tool_call_unwritable _ _ _ _ p Hp1 Hw1)).
  - assert (Hrun : ssh_run command false w = (Raised e, w1)).
    { unfold ssh_run. by rewrite Hreply. }
    erewrite try_except_raised; [apply Hhandler; by left|].
    by rewrite (bind_raised _ _ _ _ _ Hrun).
Qed.

End ReportFacts.

(** C8.  [ssh_execute] wraps all it does in a [try] whose [except] branch
    turns every exception into the text "Error executing command: ...", and
    while the activity log can be written (or no project is active) that
    is what happens: it never raises, a command that completes, with
    whatever exit status, yields the report made of its non-empty output
    streams and, for a status other than 0, the line [EXIT CODE], and an
    exception raised by the session yields the text.  But the [except]
    branch itself writes to the log before it returns: with a project
    active whose log cannot be written, [ssh_execute] raises
    FileNotFoundError for every command, whether the command succeeded,
    failed or could not be run, after the command has been sent. *)
Theorem ssh_execute_log_failure_escapes {env : Env} (command : string) (w : World) :
  let r := ssh_execute command w in
  sent r.2 = sent w ++ [command] ∧
  (log_writable w = true →
   match remote (sent w) command with
   | Raised e => r.1 = Returned (fstr ["Error executing command: "; exn_str e])
   | Returned p =>
       r.1 = Returned (match report_parts p with
                       | [] => "Command completed (no output)"
                       | parts => Py.join (nl +:+ nl) parts
                       end) ∧
       (returncode p ≠ 0 →
          fstr ["EXIT CODE: "; Py.str_int (returncode p)] ∈ report_parts p ∧
          (stderr p ≠ EmptyString → fstr ["STDERR:"; nl; stderr p] ∈ report_parts p))
   end) ∧
  (∀ p, project w = Some p → log_writable w = false →
        r.1 = Raised (FileNotFoundError (log_file p)) ∧ disk r.2 = disk w).
Proof.
  intros r. destruct (log_writable w) eqn:Hw.
  - destruct (ssh_execute_report command w Hw) as [Hsent Hreport].
    split; [exact Hsent|]. split; [by intros _ | by intros p _ ?].
  - assert (∃ p, project w = Some p) as [p Hp].
    { unfold log_writable in Hw. destruct (project w) as [p|]; [by exists p | done]. }
    destruct (ssh_execute_unlogged command w p Hp Hw) as (w' & Hr & Hsent & Hdisk).
    unfold r. rewrite Hr. cbn [fst snd].
    split; [exact Hsent|]. split; [by intros ?|].
    intros p' Hp' _. assert (p' = p) as -> by congruence. by split.
Qed.

Lemma ssh_execute_log_failure_escapes_witness :
  (@ssh_execute Sample.dropped "uname -a" Sample.logless).1 =
    Raised (Exn "FileNotFoundError"
              ("[Errno 2] No such file or directory: " +:+
               "'data/projects/20240517-120000_demo/logs/project.log'")) ∧
  (@ssh_execute Sample.obliging "uname -a" Sample.logless).1 =
    Raised (Exn "FileNotFoundError"
              ("[Errno 2] No such file or directory: " +:+
               "'data/projects/20240517-120000_demo/logs/project.log'")) ∧
  (@ssh_execute Sample.keyless "xdotool key ctrl+l" (Sample.working None)).1 =
    Returned (fstr ["STDERR:"; nl; "no keyboard"; nl; nl; "EXIT CODE: 1"]).
Proof.
  split; [|split].
  - destruct (@ssh_execute_log_failure_escapes Sample.dropped "uname -a" Sample.logless)
      as (_ & _ & Hraised).
    destruct (Hraised Sample.demo eq_refl eq_refl) as [Hr _].
    etrans; [exact Hr | vm_compute; reflexivity].
  - destruct (@ssh_execute_log_failure_escapes Sample.obliging "uname -a" Sample.logless)
      as (_ & _ & Hraised).
    destruct (Hraised Sample.demo eq_refl eq_refl) as [Hr _].
    etrans; [exact Hr | vm_compute; reflexivity].
  - destruct (@ssh_execute_log_failure_escapes Sample.keyless "xdotool key ctrl+l"
                (Sample.working None)) as (_ & Hreport & _).
    etrans; [apply Hreport; reflexivity | vm_compute; reflexivity].
Defined.

(** ** Advice notes *)

Section AdviceFacts.
Context {env : Env}.

(** What [save_advice] leaves on disk: the new file is in [advice/] whether
    or not the log line that follows can be written. *)
Lemma Project_save_advice_disk self t body w d files :
  disk w !! path self = Some (Dir d) →
  advice d = Some files →
  let r := Project_save_advice self t body w in
  let filename := fstr [strftime_compact (utcnow_at (clock_reads w)); "_";
                        Py.take 50 (Py.map_chars safe_char t); ".md"] in
  (∃ d', disk r.2 !! path self = Some (Dir d') ∧
         advice d' = Some (<[filename := fstr ["# "; t; nl; nl; body; nl]]> files)) ∧
  (is_Some (logs d) → r.1 = Returned (fstr [path_str (path self); "/advice/"; filename])).
Proof.
  intros Hd Hfiles r filename.
  assert (Hr : ∃ o w', r = (o, w') ∧
            (∃ d', disk w' !! path self = Some (Dir d') ∧
                   advice d' = Some (<[filename := fstr ["# "; t; nl; nl; body; nl]]> files)) ∧
            (is_Some (logs d) → o = Returned (fstr [path_str (path self); "/advice/"; filename]))).
  { unfold r, Project_save_advice, bind at 1, utcnow. fold filename.
    unfold bind at 1, write_advice. cbn [disk set_clock_reads]. rewrite Hd, Hfiles.
    unfold bind at 1, Project__log, bind at 1, utcnow, append_log.
    cbn [disk set_disk set_clock_reads clock_reads]. rewrite lookup_insert_eq.
    cbn [logs set_advice]. destruct (logs d) as [f|] eqn:Hlogs.
    - eexists _, _. split; [reflexivity|]. cbn [disk set_disk]. split; [|done].
      eexists. rewrite lookup_insert_eq. split; reflexivity.
    - eexists _, _. split; [reflexivity|]. cbn [disk set_disk set_clock_reads]. split.
      + eexists. rewrite lookup_insert_eq. split; reflexivity.
      + by intros [? ?]. }
  destruct Hr as (o & w' & -> & Hdisk & Hreturned). by split.
Qed.

Lemma Project_get_all_advice_files self w d files :
  disk w !! path self = Some (Dir d) →
  advice d = Some files →
  Project_get_all_advice self w =
    (Returned (map (λ kv, read_advice_file kv.1 kv.2) (sorted_md files)), w).
Proof.
  intros Hd Hfiles. unfold Project_get_all_advice, bind, gets. by rewrite Hd, Hfiles.
Qed.

Lemma sorted_md_elem_of files filename text :
  files !! filename = Some text → Py.endswith ".md" filename = true →
  (filename, text) ∈ sorted_md files.
Proof.
  intros Hfile Hmd. unfold sorted_md. rewrite merge_sort_Permutation.
  apply list_elem_of_In, filter_In. split; [|done].
  by apply list_elem_of_In, elem_of_map_to_list.
Qed.

Lemma sorted_md_singleton filename text :
  Py.endswith ".md" filename = true →
  sorted_md {[filename := text]} = [(filename, text)].
Proof. intros Hmd. unfold sorted_md. rewrite map_to_list_singleton. simpl. by rewrite Hmd. Qed.

Lemma advice_filename_md (stamp safe_title : string) :
  Py.endswith ".md" (fstr [stamp; "_"; safe_title; ".md"]) = true.
Proof.
  unfold fstr. simpl. rewrite append_nil_r.
  rewrite <- !append_assoc. apply endswith_append.
Qed.

End AdviceFacts.

(** C6.  On a project whose [advice/] directory is empty,
    [save_advice("Title", "Body")] followed by [get_all_advice()] yields
    exactly one entry, with title "Title" and content "Body" (and the name of
    the file just written); [save_advice] returns the path of that file when
    the project's log can be written. *)
Theorem advice_round_trip {env : Env} (self : Project) (w : World) (d : ProjectDir) :
  disk w !! path self = Some (Dir d) →
  advice d = Some ∅ →
  let r := Project_save_advice self "Title" "Body" w in
  let filename := fstr [strftime_compact (utcnow_at (clock_reads w)); "_Title.md"] in
  Project_get_all_advice self r.2 =
    (Returned [{| title := "Title"; content := "Body"; file := filename |}], r.2) ∧
  (is_Some (logs d) → r.1 = Returned (fstr [path_str (path self); "/advice/"; filename])).
Proof.
  intros Hd Hfiles r filename.
  destruct (Project_save_advice_disk self "Title" "Body" w d ∅ Hd Hfiles)
    as [(d' & Hd' & Hfiles') Hreturned].
  split; [|exact Hreturned].
  rewrite insert_empty in Hfiles'. unfold r.
  rewrite (Project_get_all_advice_files _ _ _ _ Hd' Hfiles').
  rewrite sorted_md_singleton by apply advice_filename_md. reflexivity.
Qed.

Lemma advice_round_trip_witness :
  (Project_get_all_advice Sample.demo
     (@Project_save_advice Sample.obliging Sample.demo "Title" "Body"
        (Sample.working None)).2).1 =
    Returned [{| title := "Title"; content := "Body"; file := "20240517-120000_Title.md" |}].
Proof.
  destruct (@advice_round_trip Sample.obliging Sample.demo (Sample.working None)
              (Sample.demo_dir (Some None))) as [Hread _]; [reflexivity..|].
  rewrite Hread. reflexivity.
Defined.

(** C10.  For every note saved with [save_advice(t, body)], the entry that
    [get_all_advice] then gives for the file just written has as title the
    first line of [t] with every leading '#' and space removed and the
    surrounding white space stripped, not [t] with one "# " prefix removed:
    a one-line title that begins with '#' or a space is never read back
    verbatim. *)
Theorem advice_title_lstrip {env : Env} (self : Project) (w : World) (d : ProjectDir)
    (files : gmap string string) (t body : string) :
  disk w !! path self = Some (Dir d) →
  advice d = Some files →
  let r := Project_save_advice self t body w in
  let filename := fstr [strftime_compact (utcnow_at (clock_reads w)); "_";
                        Py.take 50 (Py.map_chars safe_char t); ".md"] in
  ∃ notes note,
    Project_get_all_advice self r.2 = (Returned notes, r.2) ∧
    note ∈ notes ∧
    file note = filename ∧
    title note = Py.strip (Py.lstrip "# " (first_line t)) ∧
    (first_line t = t →
       title note = Py.strip (Py.lstrip "# " t) ∧
       (Py.startswith "#" t = true ∨ Py.startswith " " t = true → title note ≠ t)).
Proof.
  intros Hd Hfiles r filename.
  destruct (Project_save_advice_disk self t body w d files Hd Hfiles)
    as [(d' & Hd' & Hfiles') _].
  fold r filename in Hd', Hfiles'.
  eexists _, (read_advice_file filename (fstr ["# "; t; nl; nl; body; nl])).
  split; [by apply (Project_get_all_advice_files _ _ _ _ Hd' Hfiles')|].
  split.
  { apply (list_elem_of_fmap_2 (λ kv, read_advice_file kv.1 kv.2) _ (filename, _)).
    apply sorted_md_elem_of; [by rewrite lookup_insert_eq | apply advice_filename_md]. }
  split; [reflexivity|].
  rewrite read_advice_file_title. split; [reflexivity|].
  intros Hline. rewrite Hline. split; [reflexivity|].
  intros Hlead Heq.
  assert (Hlen : (String.length (Py.strip (Py.lstrip "# " t)) < String.length t)%nat).
  { destruct t as [|c t']; [by destruct Hlead|].
    assert (Hc : Py.char_in c "# " = true).
    { destruct Hlead as [H|H]; simpl in H; case_decide; try done; subst c; reflexivity. }
    change (Py.lstrip "# " (String c t'))
      with (if Py.char_in c "# " then Py.lstrip "# " t' else String c t').
    rewrite Hc. eapply Nat.le_lt_trans; [apply strip_length|].
    eapply Nat.le_lt_trans; [apply lstrip_by_length|]. simpl. lia. }
  rewrite Heq in Hlen. lia.
Qed.

Lemma advice_title_lstrip_witness :
  ∃ note,
    note ∈ match (Project_get_all_advice Sample.demo
                    (@Project_save_advice Sample.obliging Sample.demo "## Notes" "Body"
                       (Sample.working None)).2).1 with
           | Returned notes => notes
           | Raised _ => []
           end ∧
    title note = "Notes" ∧
    title note ≠ "## Notes".
Proof.
  destruct (@advice_title_lstrip Sample.obliging Sample.demo (Sample.working None)
              (Sample.demo_dir (Some None)) ∅ "## Notes" "Body")
    as (notes & note & Hread & Hin & _ & Htitle & Hline); [reflexivity..|].
  exists note. rewrite Hread. split; [exact Hin|]. split; [exact Htitle|].
  apply Hline; [reflexivity | left; reflexivity].
Defined.

(** ** project_read_logs *)

Section LogFacts.

Lemma recent_last_n (lines : Z) (all_lines : list string) :
  1 ≤ lines →
  recent lines all_lines =
    last_n (Z.to_nat (Z.min lines (Z.of_nat (length all_lines)))) all_lines.
Proof.
  intros Hlines. unfold recent, last_n, Py.slice_from.
  destruct (lines <? Z.of_nat (length all_lines)) eqn:Hlt.
  - apply Z.ltb_lt in Hlt. rewrite (proj2 (Z.ltb_lt (- lines) 0)) by lia.
    f_equal. lia.
  - apply Z.ltb_ge in Hlt.
    by replace (length all_lines - Z.to_nat (Z.min lines (Z.of_nat (length all_lines))))%nat
      with 0%nat by lia.
Qed.



Lemma project_read_logs_eq (lines : Z) (level_filter : string) (w : World) (p : Project) :
  project w = Some p →
  project_read_logs lines level_filter w =
    match read_log p w with
    | None => (Returned "No log entries yet.", w)
    | Some text =>
        let all_lines := filter_level level_filter (log_lines text) in
        (Returned (log_report level_filter (recent lines all_lines) all_lines), w)
    end.
Proof.
  intros Hp. unfold project_read_logs, _get_project, bind, gets, ret. rewrite Hp.
  cbv beta iota. destruct (read_log p w) as [text|]; [|reflexivity].
  cbv zeta. unfold log_report. by destruct (recent _ _).
Qed.

End LogFacts.




(** ** project_list *)

Section ListingFacts.

Lemma Project_load_world (project_dir : string) (w : World) :
  (Project_load project_dir w).2 = w.
Proof.
  unfold Project_load, bind, gets, lift, raise, ret.
  destruct (disk w !! project_dir) as [[|d]|]; try reflexivity.
  destruct (metadata_json d) as [[|data]|]; try reflexivity.
  destruct (Proto.getitem data "name"); [|reflexivity].
  destruct (Proto.getitem data "created_at"); [|reflexivity].
  by destruct (Proto.get data "description" _).
Qed.

Lemma project_list_loop_eq (entries acc : list string) (w : World) :
  project_list_loop entries acc w =
    (Returned (acc ++ map (listing_line w)
                        (List.filter (λ x, has_metadata (disk w !! x)) entries)), w).
Proof.
  revert acc. induction entries as [|x entries IH]; intros acc.
  - simpl. by rewrite app_nil_r.
  - simpl. unfold bind at 1, gets.
    destruct (has_metadata (disk w !! x)) eqn:Hmeta; [|apply IH].
    assert (Hline : try_except
                      (proj <- Project_load x;; ret (project_line proj))
                      (λ _, ret (invalid_line x)) w =
                    (Returned (listing_line w x), w)).
    { unfold try_except, bind, listing_line, ret.
      pose proof (Project_load_world x w) as Hworld.
      by destruct (Project_load x w) as [[proj|e] w']; simpl in Hworld; subst w'. }
    rewrite (bind_returned _ _ _ _ _ Hline), IH, <- app_assoc. reflexivity.
Qed.

Lemma flip_le_strongly_sorted (names : list string) :
  StronglySorted (flip String.le) (sorted_reverse names).
Proof.
  apply StronglySorted_merge_sort.
  - intros x y z Hxy Hyz. unfold flip in *. by etrans.
  - intros x y. unfold flip. destruct (total String.le x y); auto.
Qed.

Lemma strongly_sorted_name_above (l : list string) :
  StronglySorted (flip String.le) l → NoDup l → StronglySorted name_above l.
Proof.
  induction 1 as [|x l Hsorted IH Hall]; intros Hnodup; [constructor|].
  apply NoDup_cons in Hnodup as [Hx Hnodup]. constructor; [by apply IH|].
  apply Forall_forall. intros y Hy. split.
  - intros ->. done.
  - by apply (proj1 (Forall_forall _ _) Hall).
Qed.

Lemma strongly_sorted_filter {A} (R : relation A) (f : A → bool) (l : list A) :
  StronglySorted R l → StronglySorted R (List.filter f l).
Proof.
  induction 1 as [|x l Hsorted IH Hall]; [constructor|]. simpl.
  destruct (f x); [|exact IH]. constructor; [exact IH|].
  apply Forall_forall. intros y Hy. apply list_elem_of_In, filter_In in Hy as [Hy _].
  by apply (proj1 (Forall_forall _ _) Hall), list_elem_of_In.
Qed.

Lemma name_above_NoDup (l : list string) : StronglySorted name_above l → NoDup l.
Proof.
  induction 1 as [|x l Hsorted IH Hall]; constructor; [|exact IH].
  intros Hx. by destruct (proj1 (Forall_forall _ _) Hall x Hx) as [Hne _].
Qed.

Lemma NoDup_only {A} (a : A) (l : list A) :
  NoDup l → (∀ x, x ∈ l ↔ x = a) → l = [a].
Proof.
  intros Hnodup Hin. destruct l as [|y l].
  - by pose proof (proj2 (Hin a) eq_refl) as Ha%elem_of_nil.
  - assert (y = a) as -> by (apply Hin; left).
    apply NoDup_cons in Hnodup as [Ha _].
    destruct l as [|z l]; [done|].
    assert (z = a) as -> by (apply Hin; right; left). exfalso. apply Ha. left.
Qed.

End ListingFacts.

(** C3 fails as stated: with the project [demo] and a directory without
    [metadata.json] under [data/projects], [project_list] reports the one
    valid project and nothing else; the directory without metadata is left
    out, there is no "(invalid)" entry. *)
Lemma project_list_omits_dir_without_metadata :
  (project_list Sample.two_dirs).1 =
    Returned (fstr ["Projects:"; nl;
                    "- demo (20240517-120000): data/projects/20240517-120000_demo"]) ∧
  Py.contains "(invalid)"
    (fstr ["Projects:"; nl;
           "- demo (20240517-120000): data/projects/20240517-120000_demo"]) = false.
Proof. split; vm_compute; reflexivity. Qed.

(** C3, amended.  [project_list] shows one line for each immediate
    subdirectory of the projects root that contains a [metadata.json], in
    strictly descending order of the directory names: the project's line when
    the metadata loads, an "(invalid)" line when loading it fails;
    directories without [metadata.json] are omitted.  On a root with one
    valid project directory and one directory without [metadata.json] it so
    shows exactly one line, the valid project's. *)
Theorem project_list_amended (w : World) :
  ∃ shown : list string,
    StronglySorted name_above shown ∧
    (∀ x, x ∈ shown ↔ has_metadata (disk w !! x) = true) ∧
    project_list w = (Returned (listing (map (listing_line w) shown)), w) ∧
    (∀ a b da db,
       a ≠ b → disk w = {[ a := Dir da; b := Dir db ]} →
       is_Some (metadata_json da) → metadata_json db = None →
       shown = [a]).
Proof.
  set (names := (map_to_list (disk w)).*1).
  set (shown := List.filter (λ x, has_metadata (disk w !! x)) (sorted_reverse names)).
  assert (Hsorted : StronglySorted name_above shown).
  { apply strongly_sorted_filter, strongly_sorted_name_above.
    - apply flip_le_strongly_sorted.
    - unfold sorted_reverse. rewrite merge_sort_Permutation.
      apply NoDup_fst_map_to_list. }
  assert (Hin : ∀ x, x ∈ shown ↔ has_metadata (disk w !! x) = true).
  { intros x. unfold shown. rewrite list_elem_of_In, filter_In, <- list_elem_of_In.
    unfold sorted_reverse. rewrite merge_sort_Permutation. split; [by intros [_ ?]|].
    intros Hmeta. split; [|done]. unfold names.
    destruct (disk w !! x) as [n|] eqn:Hx; [|done].
    apply list_elem_of_fmap. exists (x, n). split; [done|]. by apply elem_of_map_to_list. }
  exists shown. split; [exact Hsorted|]. split; [exact Hin|]. split.
  - unfold project_list, bind at 1, gets. fold names.
    unfold bind. rewrite project_list_loop_eq. fold shown. simpl.
    unfold listing, ret. by destruct (map _ shown).
  - intros a b da db Hab Hdisk [md Hda] Hdb.
    apply NoDup_only; [by apply name_above_NoDup|].
    intros x. rewrite Hin, Hdisk. split.
    + intros Hmeta. destruct (decide (x = a)) as [|Hxa]; [done|].
      rewrite lookup_insert_ne in Hmeta by done.
      destruct (decide (x = b)) as [->|Hxb].
      * rewrite lookup_singleton_eq in Hmeta. simpl in Hmeta. rewrite Hdb in Hmeta.
        by apply bool_decide_eq_true in Hmeta as [? ?].
      * by rewrite lookup_singleton_ne in Hmeta.
    + intros ->. rewrite lookup_insert_eq. simpl. rewrite Hda.
      by apply bool_decide_eq_true.
Qed.

Lemma project_list_amended_witness :
  ∃ shown : list string,
    shown = [path Sample.demo] ∧
    (project_list Sample.two_dirs).1 =
      Returned (listing (map (listing_line Sample.two_dirs) shown)).
Proof.
  destruct (project_list_amended Sample.two_dirs) as (shown & _ & _ & Hlist & Hone).
  exists shown. split; [|by rewrite Hlist].
  apply (Hone (path Sample.demo) "20240518-090000_scratch" (Sample.demo_dir (Some None))
           {| metadata_json := None; logs := None; advice := None |});
    [done | reflexivity | by eexists | reflexivity].
Defined.

(** * Further properties *)

(** ** What the tools send *)

Section SendFacts.
Context {env : Env}.

Lemma sends_at_most_mono {A} (n k : nat) (m : M A) :
  (n ≤ k)%nat → sends_at_most n m → sends_at_most k m.
Proof. intros Hle Hm w. destruct (Hm w) as (more & ? & ?). exists more. split; [done | lia]. Qed.

Lemma sends_ret {A} (a : A) : sends_at_most 0 (ret a).
Proof. intros w. exists []. by rewrite app_nil_r. Qed.

Lemma sends_raise {A} (e : exn) : sends_at_most 0 (@raise A e).
Proof. intros w. exists []. by rewrite app_nil_r. Qed.

Lemma sends_lift {A} (o : outcome A) : sends_at_most 0 (lift o).
Proof. intros w. exists []. by rewrite app_nil_r. Qed.

Lemma sends_gets {A} (f : World → A) : sends_at_most 0 (gets f).
Proof. intros w. exists []. by rewrite app_nil_r. Qed.

Lemma sends_bind {A B} (n k : nat) (m : M A) (f : A → M B) :
  sends_at_most n m → (∀ a, sends_at_most k (f a)) → sends_at_most (n + k) (bind m f).
Proof.
  intros Hm Hf w. unfold bind. destruct (Hm w) as (more & Hsent & Hlen).
  destruct (m w) as [[a|e] w1]; simpl in Hsent.
  - destruct (Hf a w1) as (more' & Hsent' & Hlen'). exists (more ++ more').
    rewrite Hsent', Hsent, length_app, app_assoc. split; [done | lia].
  - exists more. split; [done | lia].
Qed.

Lemma sends_try_except {A} (n k : nat) (body : M A) (handler : exn → M A) :
  sends_at_most n body → (∀ e, sends_at_most k (handler e)) →
  sends_at_most (n + k) (try_except body handler).
Proof.
  intros Hm Hf w. unfold try_except. destruct (Hm w) as (more & Hsent & Hlen).
  destruct (body w) as [[a|e] w1]; simpl in Hsent.
  - exists more. split; [done | lia].
  - destruct (Hf e w1) as (more' & Hsent' & Hlen'). exists (more ++ more').
    rewrite Hsent', Hsent, length_app, app_assoc. split; [done | lia].
Qed.

Lemma sends_ssh_run cmd check : sends_at_most 1 (ssh_run cmd check).
Proof. intros w. exists [cmd]. split; [apply ssh_run_frame | done]. Qed.

Lemma sends_run_vm_cmd cmd : sends_at_most 1 (run_vm_cmd cmd).
Proof. intros w. exists [cmd]. split; [apply run_vm_cmd_frame | done]. Qed.

Lemma sends__log_tool_call tool_name params result :
  sends_at_most 0 (_log_tool_call tool_name params result).
Proof. intros w. exists []. by rewrite app_nil_r, _log_tool_call_sent. Qed.

Lemma sends__log_error tool_name error : sends_at_most 0 (_log_error tool_name error).
Proof. intros w. exists []. by rewrite app_nil_r, _log_error_sent. Qed.

Lemma sends_run_action i a t : sends_at_most 1 (run_action i a t).
Proof.
  unfold run_action.
  repeat match goal with
         | |- context [if Val.eq_str t ?s then _ else _] => destruct (Val.eq_str t s)
         end;
    repeat lazymatch goal with
           | |- sends_at_most 1 (bind (lift _) _) =>
               apply (sends_bind 0 1); [apply sends_lift | intros ?]
           | |- sends_at_most 1 (bind (run_vm_cmd _) _) =>
               apply (sends_bind 1 0); [apply sends_run_vm_cmd | intros ?]
           | |- sends_at_most 0 (ret _) => apply sends_ret
           | |- sends_at_most 1 (ret _) =>
               apply (sends_at_most_mono 0 1); [lia | apply sends_ret]
           end.
Qed.

Lemma sends_run_actions_loop actions i results :
  sends_at_most (length actions) (run_actions_loop i actions results).
Proof.
  revert i results. induction actions as [|a actions IH]; intros i results; [apply sends_ret|].
  simpl. apply (sends_bind 1 (length actions)).
  - apply (sends_try_except 1 0).
    + apply (sends_bind 1 0); [apply sends_run_action | intros ?; apply sends_ret].
    + intros e. apply (sends_bind 0 0); [apply sends__log_error | intros ?; apply sends_ret].
  - intros [results' continue]. simpl. destruct continue; [apply IH|].
    apply (sends_at_most_mono 0); [lia | apply sends_ret].
Qed.

End SendFacts.

Section SendFactsOfTools.
Context {env : Env} {config : Config}.

Lemma sends_nothing {A} (m : M A) : (∀ w, sent (m w).2 = sent w) → sends_at_most 0 m.
Proof. intros H w. exists []. by rewrite app_nil_r. Qed.

Lemma sends_utcnow : sends_at_most 0 utcnow.
Proof. by apply sends_nothing. Qed.

Lemma sends_Project__log self message level : sends_at_most 0 (Project__log self message level).
Proof.
  apply (sends_bind 0 0); [apply sends_utcnow | intros timestamp].
  apply sends_nothing. intros w. unfold append_log.
  destruct (disk w !! path self) as [[|d]|]; try done. by destruct (logs d).
Qed.

Lemma sends_Project_load project_path : sends_at_most 0 (Project_load project_path).
Proof.
  apply sends_nothing. intros w. by rewrite Project_load_world.
Qed.

Lemma sends_command_then_log cmd tool_name params result (text : string) :
  sends_at_most 1
    (bind (run_vm_cmd cmd)
       (λ _, bind (_log_tool_call tool_name params result) (λ _, ret text))).
Proof.
  apply (sends_bind 1 0); [apply sends_run_vm_cmd | intros ?].
  apply (sends_bind 0 0); [apply sends__log_tool_call | intros ?; apply sends_ret].
Qed.

End SendFactsOfTools.

(** X1.  No tool sends more to the guest than its work calls for, and none
    takes back what was sent: [run_actions] sends at most one command for
    each element of the batch, each single-action tool, [ssh_execute] and
    [ssh_connection_info] at most one, [wait] and the project tools none. *)
Theorem tools_send_at_most {env : Env} {config : Config} :
  (∀ actions, sends_at_most (length actions) (run_actions actions)) ∧
  (∀ x y mode, sends_at_most 1 (move_mouse x y mode)) ∧
  (∀ button count, sends_at_most 1 (click button count)) ∧
  (∀ text, sends_at_most 1 (type_text text)) ∧
  (∀ keys, sends_at_most 1 (press_keys keys)) ∧
  (∀ seconds, sends_at_most 0 (wait seconds)) ∧
  (∀ command, sends_at_most 1 (ssh_execute command)) ∧
  sends_at_most 1 ssh_connection_info ∧
  (∀ lines level_filter, sends_at_most 0 (project_read_logs lines level_filter)) ∧
  sends_at_most 0 project_list ∧
  (∀ message level, sends_at_most 0 (project_log message level)) ∧
  (∀ name description, sends_at_most 0 (project_init name description)).
Proof.
  repeat apply conj.
  - intros actions. unfold run_actions.
    apply (sends_at_most_mono (length actions + 0)); [lia|].
    apply sends_bind; [apply sends_run_actions_loop | intros results].
    apply (sends_bind 0 0); [apply sends__log_tool_call | intros ?; apply sends_ret].
  - intros x y mode. unfold move_mouse. apply (sends_bind 0 1).
    + repeat case_decide; first [apply sends_ret | apply sends_raise].
    + intros cmd. apply sends_command_then_log.
  - intros button count. unfold click. apply (sends_bind 0 1).
    + destruct (Py.assoc button button_map); [apply sends_ret | apply sends_raise].
    + intros number. apply sends_command_then_log.
  - intros text. apply sends_command_then_log.
  - intros keys. apply sends_command_then_log.
  - intros seconds. apply (sends_bind 0 0); [apply sends__log_tool_call | intros ?; apply sends_ret].
  - intros command. unfold ssh_execute. apply (sends_try_except 1 0).
    + apply (sends_bind 1 0); [apply sends_ssh_run | intros result].
      apply (sends_bind 0 0); [|intros ?; apply sends_ret].
      case_decide.
      * apply (sends_bind 0 0); [apply sends__log_tool_call | intros ?; apply sends_ret].
      * apply (sends_bind 0 0); [apply sends__log_tool_call | intros ?].
        apply (sends_bind 0 0); [apply sends__log_error | intros ?; apply sends_ret].
    + intros e. apply (sends_bind 0 0); [apply sends__log_error | intros ?; apply sends_ret].
  - unfold ssh_connection_info. apply (sends_bind 1 0).
    + apply (sends_try_except 1 0).
      * apply (sends_bind 1 0); [apply sends_ssh_run | intros ?; apply sends_ret].
      * intros e. apply (sends_bind 0 0); [apply sends__log_error | intros ?; apply sends_ret].
    + intros status.
      apply (sends_bind 0 0); [apply sends__log_tool_call | intros ?; apply sends_ret].
  - intros lines level_filter. apply sends_nothing. intros w.
    unfold project_read_logs, _get_project, bind, gets, ret, raise.
    destruct (project w) as [p|]; [|done]. destruct (read_log p w) as [text|]; [|done].
    by destruct (recent _ _).
  - apply sends_nothing. intros w. unfold project_list, bind at 1, gets, bind.
    rewrite project_list_loop_eq. by destruct (map _ _).
  - intros message level. unfold project_log. apply (sends_bind 0 0).
    + apply sends_nothing. intros w. unfold _get_project, bind, gets.
      by destruct (project w).
    + intros p. apply (sends_bind 0 0); [apply sends_Project__log | intros ?; apply sends_ret].
  - intros name description. unfold project_init. apply (sends_bind 0 0).
    + unfold Project_create. apply (sends_bind 0 0); [apply sends_utcnow | intros timestamp].
      apply (sends_bind 0 0).
      { apply sends_nothing. intros w. unfold make_project_dirs.
        by destruct (disk w !! _) as [[|d]|]. }
      intros _. apply (sends_bind 0 0).
      { apply sends_nothing. intros w. unfold Project__save_metadata.
        by destruct (disk w !! _) as [[|d]|]. }
      intros _. apply (sends_bind 0 0); [apply sends_Project__log | intros ?; apply sends_ret].
    + intros p. apply (sends_bind 0 0); [by apply sends_nothing | intros ?; apply sends_ret].
Qed.

(** ** What the tools leave on disk *)

Section FrameFacts.
Context {env : Env}.

Lemma log_grown_refl d : log_grown d d.
Proof. repeat split. by left. Qed.

Lemma log_grown_trans d1 d2 d3 : log_grown d1 d2 → log_grown d2 d3 → log_grown d1 d3.
Proof.
  intros (Hm1 & Ha1 & Hl1) (Hm2 & Ha2 & Hl2).
  split; [congruence|]. split; [congruence|].
  destruct Hl2 as [Heq2 | (Hsome2 & more2 & Hl2)].
  - rewrite Heq2. exact Hl1.
  - right. destruct Hl1 as [Heq1 | (Hsome1 & more1 & Hl1)].
    + split; [by rewrite <- Heq1|]. exists more2.
      rewrite Hl2. unfold log_text. by rewrite Heq1.
    + split; [done|]. exists (more1 +:+ more2).
      rewrite Hl2. unfold log_text at 1. rewrite Hl1. simpl. by rewrite append_assoc.
Qed.

Lemma only_logged_refl w : only_logged w w.
Proof. split; [done|]. intros p. by left. Qed.

Lemma only_logged_trans w1 w2 w3 : only_logged w1 w2 → only_logged w2 w3 → only_logged w1 w3.
Proof.
  intros [Hp1 Hd1] [Hp2 Hd2]. split; [congruence|]. intros p.
  destruct (Hd2 p) as [Heq2 | (proj2 & d2 & d3 & Hproj2 & Hpath2 & Hdisk2 & Hdisk3 & Hgrown2)].
  - rewrite Heq2. apply Hd1.
  - right. destruct (Hd1 p) as [Heq1 | (proj1 & d1 & d2' & Hproj1 & Hpath1 & Hdisk1 & Hdisk2' & Hgrown1)].
    + exists proj2, d2, d3.
      split; [congruence|]. split; [done|]. split; [congruence|]. by split.
    + exists proj1, d1, d3. assert (d2' = d2) as -> by congruence.
      split; [done|]. split; [done|]. split; [done|]. split; [done|].
      by eapply log_grown_trans.
Qed.

Lemma only_logged_same_host w w' : same_host w w' → only_logged w w'.
Proof. intros (Hp & Hd & _). split; [done|]. intros p. left. by rewrite Hd. Qed.

Lemma only_logs_ret {A} (a : A) : only_logs (ret a).
Proof. intros w. apply only_logged_refl. Qed.

Lemma only_logs_raise {A} (e : exn) : only_logs (@raise A e).
Proof. intros w. apply only_logged_refl. Qed.

Lemma only_logs_lift {A} (o : outcome A) : only_logs (lift o).
Proof. intros w. apply only_logged_refl. Qed.

Lemma only_logs_gets {A} (f : World → A) : only_logs (gets f).
Proof. intros w. apply only_logged_refl. Qed.

Lemma only_logs_bind {A B} (m : M A) (f : A → M B) :
  only_logs m → (∀ a, only_logs (f a)) → only_logs (bind m f).
Proof.
  intros Hm Hf w. unfold bind. pose proof (Hm w) as H1.
  destruct (m w) as [[a|e] w1]; [|exact H1].
  eapply only_logged_trans; [exact H1 | apply Hf].
Qed.

Lemma only_logs_try_except {A} (body : M A) (handler : exn → M A) :
  only_logs body → (∀ e, only_logs (handler e)) → only_logs (try_except body handler).
Proof.
  intros Hm Hf w. unfold try_except. pose proof (Hm w) as H1.
  destruct (body w) as [[a|e] w1]; [exact H1|].
  eapply only_logged_trans; [exact H1 | apply Hf].
Qed.

Lemma only_logs_ssh_run cmd check : only_logs (ssh_run cmd check).
Proof. intros w. apply only_logged_same_host, ssh_run_frame. Qed.

Lemma only_logs_run_vm_cmd cmd : only_logs (run_vm_cmd cmd).
Proof. intros w. apply only_logged_same_host, run_vm_cmd_frame. Qed.

Lemma only_logged_clock w n : only_logged w (set_clock_reads n w).
Proof. split; [done|]. intros p. by left. Qed.

(** A line logged for the active project grows that project's log and
    nothing else. *)
Lemma Project__log_only_logged p message level w :
  project w = Some p → only_logged w (Project__log p message level w).2.
Proof.
  intros Hp. unfold Project__log, bind, utcnow, append_log. simpl.
  destruct (disk w !! path p) as [[|d]|] eqn:Hd; try apply only_logged_clock.
  destruct (logs d) as [f|] eqn:Hf; [|apply only_logged_clock].
  split; [done|]. intros p'. simpl. destruct (decide (path p = p')) as [<-|Hne].
  - right. exists p, d. eexists. rewrite lookup_insert_eq.
    split; [done|]. split; [done|]. split; [done|]. split; [reflexivity|].
    split; [done|]. split; [done|]. right. split; [by rewrite Hf|]. eexists.
    unfold log_text. rewrite Hf. reflexivity.
  - left. by rewrite lookup_insert_ne.
Qed.

Lemma only_logs__log_tool_call tool_name params result :
  only_logs (_log_tool_call tool_name params result).
Proof.
  intros w. unfold _log_tool_call, _get_project_optional, bind, gets.
  destruct (project w) as [p|] eqn:Hp; [|apply only_logged_refl].
  by apply Project__log_only_logged.
Qed.

Lemma only_logs__log_error tool_name error : only_logs (_log_error tool_name error).
Proof.
  intros w. unfold _log_error, _get_project_optional, bind, gets.
  destruct (project w) as [p|] eqn:Hp; [|apply only_logged_refl].
  by apply Project__log_only_logged.
Qed.

Lemma only_logs_run_action i a t : only_logs (run_action i a t).
Proof. intros w. apply only_logged_same_host, run_action_same_host. Qed.

Lemma only_logs_run_actions_loop actions i results :
  only_logs (run_actions_loop i actions results).
Proof.
  revert i results. induction actions as [|a actions IH]; intros i results; [apply only_logs_ret|].
  simpl. apply only_logs_bind.
  - apply only_logs_try_except.
    + apply only_logs_bind; [apply only_logs_run_action | intros ?; apply only_logs_ret].
    + intros e. apply only_logs_bind; [apply only_logs__log_error | intros ?; apply only_logs_ret].
  - intros [results' continue]. simpl. destruct continue; [apply IH | apply only_logs_ret].
Qed.

Lemma only_logs_command_then_log cmd tool_name params result (text : string) :
  only_logs
    (bind (run_vm_cmd cmd)
       (λ _, bind (_log_tool_call tool_name params result) (λ _, ret text))).
Proof.
  apply only_logs_bind; [apply only_logs_run_vm_cmd | intros ?].
  apply only_logs_bind; [apply only_logs__log_tool_call | intros ?; apply only_logs_ret].
Qed.

End FrameFacts.

(** X2.  The mouse, keyboard, batch and SSH tools leave the active project
    the one it was and change nothing on disk, except that the log of the
    active project may have grown at its end: no file of any project is
    rewritten, removed or created by them, and no log text is lost. *)
Theorem tools_only_log {env : Env} {config : Config} :
  (∀ actions, only_logs (run_actions actions)) ∧
  (∀ x y mode, only_logs (move_mouse x y mode)) ∧
  (∀ button count, only_logs (click button count)) ∧
  (∀ text, only_logs (type_text text)) ∧
  (∀ keys, only_logs (press_keys keys)) ∧
  (∀ seconds, only_logs (wait seconds)) ∧
  (∀ command, only_logs (ssh_execute command)) ∧
  only_logs ssh_connection_info.
Proof.
  repeat apply conj.
  - intros actions. unfold run_actions.
    apply only_logs_bind; [apply only_logs_run_actions_loop | intros results].
    apply only_logs_bind; [apply only_logs__log_tool_call | intros ?; apply only_logs_ret].
  - intros x y mode. unfold move_mouse. apply only_logs_bind.
    + repeat case_decide; first [apply only_logs_ret | apply only_logs_raise].
    + intros cmd. apply only_logs_command_then_log.
  - intros button count. unfold click. apply only_logs_bind.
    + destruct (Py.assoc button button_map); [apply only_logs_ret | apply only_logs_raise].
    + intros number. apply only_logs_command_then_log.
  - intros text. apply only_logs_command_then_log.
  - intros keys. apply only_logs_command_then_log.
  - intros seconds.
    apply only_logs_bind; [apply only_logs__log_tool_call | intros ?; apply only_logs_ret].
  - intros command. unfold ssh_execute. apply only_logs_try_except.
    + apply only_logs_bind; [apply only_logs_ssh_run | intros result].
      apply only_logs_bind; [|intros ?; apply only_logs_ret].
      case_decide.
      * apply only_logs_bind; [apply only_logs__log_tool_call | intros ?; apply only_logs_ret].
      * apply only_logs_bind; [apply only_logs__log_tool_call | intros ?].
        apply only_logs_bind; [apply only_logs__log_error | intros ?; apply only_logs_ret].
    + intros e.
      apply only_logs_bind; [apply only_logs__log_error | intros ?; apply only_logs_ret].
  - unfold ssh_connection_info. apply only_logs_bind.
    + apply only_logs_try_except.
      * apply only_logs_bind; [apply only_logs_ssh_run | intros ?; apply only_logs_ret].
      * intros e.
        apply only_logs_bind; [apply only_logs__log_error | intros ?; apply only_logs_ret].
    + intros status.
      apply only_logs_bind; [apply only_logs__log_tool_call | intros ?; apply only_logs_ret].
Qed.

(** ** Batches, continued *)

(** X3.  A batch of which no element raises runs to its end: the list
    [results] that the loop builds has one entry for each element, numbered
    in submission order, and what was sent is what the elements sent.  The
    text [run_actions] returns is the line "Executed n actions:", [n] the
    number of elements, followed by the entries, one on each line: it
    returns it when the activity log can be written (or no project is
    active), and nothing else.  The empty batch is such a batch. *)
Theorem run_actions_all_succeed {env : Env} (actions : list (gmap string pyval))
    (w w' : World) (entries : list string) :
  all_succeed 0 actions w w' entries →
  let r := run_actions actions w in
  let text :=
    fstr ["Executed "; pretty (length actions); " actions:"; nl] +:+ Py.join nl entries in
  run_actions_loop 0 actions [] w = (Returned entries, w') ∧
  length entries = length actions ∧
  (∀ j entry, entries !! j = Some entry →
     ∃ text, entry = pretty (j + 1)%nat +:+ ". " +:+ text) ∧
  sent r.2 = sent w' ∧
  (∀ s, r.1 = Returned s → s = text) ∧
  (log_writable w = true → r.1 = Returned text).
Proof.
  intros Hall r text.
  assert (Hloop : run_actions_loop 0 actions [] w = (Returned entries, w')).
  { rewrite <- (app_nil_r actions).
    by rewrite (run_actions_loop_all_succeed _ _ _ _ _ _ _ Hall). }
  assert (Htext : summary entries = text).
  { unfold summary, text. by rewrite (all_succeed_length _ _ _ _ _ Hall). }
  split; [exact Hloop|].
  split; [by eapply all_succeed_length|]. split.
  { intros j entry Hj. by apply (all_succeed_numbered _ _ _ _ _ _ _ Hall Hj). }
  assert (Hhost : log_writable w' = log_writable w).
  { by eapply same_host_log_writable, all_succeed_same_host. }
  unfold r, run_actions. rewrite (bind_returned _ _ _ _ _ Hloop).
  pose proof (_log_tool_call_sent "run_actions"
                [("count", VInt (Z.of_nat (length actions)))]
                (Some (fstr ["executed "; pretty (length entries); " actions"])) w') as Hsent.
  destruct (log_writable w) eqn:Hw.
  - destruct (_log_tool_call_writable "run_actions"
                [("count", VInt (Z.of_nat (length actions)))]
                (Some (fstr ["executed "; pretty (length entries); " actions"])) w' Hhost)
      as (w3 & Hcall & _).
    rewrite Hcall in Hsent. rewrite (bind_returned _ _ _ _ _ Hcall). unfold ret.
    rewrite Htext. cbn [fst snd]. split; [done|]. split; [by intros s [= <-] | done].
  - assert (∃ p, project w' = Some p) as [p Hp].
    { pose proof Hhost as H. unfold log_writable in H.
      destruct (project w') as [p|]; [by exists p | done]. }
    rewrite (_log_tool_call_unwritable _ _ _ _ p Hp Hhost) in Hsent.
    rewrite (bind_raised _ _ _ _ _ (_log_tool_call_unwritable _ _ _ _ p Hp Hhost)).
    cbn [fst snd]. split; [done|]. split; [by intros s [=] | done].
Qed.

Lemma run_actions_all_succeed_witness :
  (@run_actions Sample.obliging [Sample.press_ctrl_l; Sample.scroll; Sample.type_hi]
     Sample.blank).1 =
    Returned (fstr ["Executed 3 actions:"; nl;
                    "1. press_keys ['Ctrl', 'L']"; nl;
                    "2. UNKNOWN ACTION: scroll"; nl;
                    "3. type_text (2 chars)"]) ∧
  (@run_actions Sample.obliging [] Sample.blank).1 =
    Returned (fstr ["Executed 0 actions:"; nl]).
Proof.
  split.
  - edestruct (@run_actions_all_succeed Sample.obliging
                 [Sample.press_ctrl_l; Sample.scroll; Sample.type_hi] Sample.blank)
      as (_ & _ & _ & _ & _ & Hreturned).
    + eapply all_succeed_cons; [vm_compute; reflexivity|].
      eapply all_succeed_cons; [vm_compute; reflexivity|].
      eapply all_succeed_cons; [vm_compute; reflexivity|]. apply all_succeed_nil.
    + etrans; [apply Hreturned; reflexivity | vm_compute; reflexivity].
  - edestruct (@run_actions_all_succeed Sample.obliging [] Sample.blank)
      as (_ & _ & _ & _ & _ & Hreturned); [apply all_succeed_nil|].
    etrans; [apply Hreturned; reflexivity | vm_compute; reflexivity].
Defined.

Section BranchFacts.
Context {env : Env}.

Lemma command_then_log_sent cmd tool_name params result (text : string) w :
  sent (bind (run_vm_cmd cmd)
          (λ _, bind (_log_tool_call tool_name params result) (λ _, ret text)) w).2 =
    sent w ++ [cmd].
Proof.
  unfold bind at 1. pose proof (run_vm_cmd_frame cmd w) as [Hsent _].
  destruct (run_vm_cmd cmd w) as [[out|e] w1]; [|done]. simpl in Hsent.
  unfold bind. pose proof (_log_tool_call_sent tool_name params result w1) as Hlog.
  destruct (_log_tool_call _ _ _ w1) as [[[]|e] w2]; simpl in *; congruence.
Qed.

(** A branch of [run_actions] that sends [cmd] and then appends [entry] *)
Lemma command_then_entry cmd (entry : string) w :
  bind (run_vm_cmd cmd) (λ _, ret entry) w =
    (match refusal (remote (sent w) cmd) with
     | Some e => Raised e
     | None => Returned entry
     end, set_sent (sent w ++ [cmd]) w).
Proof.
  destruct (refusal (remote (sent w) cmd)) as [e|] eqn:Href.
  - by rewrite (bind_raised _ _ _ _ _ (run_vm_cmd_refused _ _ _ Href)).
  - unfold refusal in Href. destruct (remote (sent w) cmd) as [reply|] eqn:Hreply; [|done].
    destruct (decide (returncode reply = 0)) as [Hz|]; [|done].
    by rewrite (bind_returned _ _ _ _ _ (run_vm_cmd_ok _ _ _ Hreply Hz)).
Qed.

Lemma lower_all_strings (keys : list string) :
  Proto.lower_all (VStr <$> keys) = Returned (Py.lower <$> keys).
Proof.
  induction keys as [|k keys IH]; [done|].
  rewrite !fmap_cons. cbn [Proto.lower_all Proto.lower]. by rewrite IH.
Qed.

Lemma combo_strings (keys : list string) :
  Proto.combo (VList (VStr <$> keys)) = Returned (Py.join "+" (Py.lower <$> keys)).
Proof. unfold Proto.combo. cbn [Proto.iterate]. by rewrite lower_all_strings. Qed.

Lemma run_action_press_keys i a w :
  run_action i a (VStr "press_keys") w =
    match Proto.combo (dict_get a "keys" (VList [])) with
    | Raised e => (Raised e, w)
    | Returned combo =>
        (match refusal (remote (sent w) (xdotool_key combo)) with
         | Some e => Raised e
         | None =>
             Returned (fstr [pretty (i + 1)%nat; ". press_keys ";
                             Val.str (dict_get a "keys" (VList []))])
         end, set_sent (sent w ++ [xdotool_key combo]) w)
    end.
Proof.
  unfold run_action. decide_kinds. unfold bind at 1, lift.
  destruct (Proto.combo _) as [combo|e]; [|done]. apply command_then_entry.
Qed.

Lemma run_action_type_text_eq i a w :
  run_action i a (VStr "type_text") w =
    match dict_get a "text" (VStr EmptyString) with
    | VStr text =>
        (match refusal (remote (sent w) (xdotool_type text)) with
         | Some e => Raised e
         | None =>
             Returned (fstr [pretty (i + 1)%nat; ". type_text ("; Py.str_int (Py.len text);
                             " chars)"])
         end, set_sent (sent w ++ [xdotool_type text]) w)
    | v => (Raised (AttributeError v "replace"), w)
    end.
Proof.
  unfold run_action. decide_kinds. unfold bind at 1, lift.
  destruct (dict_get a "text" _) as [| | | |text| |]; try done. apply command_then_entry.
Qed.

Lemma run_action_click i a w :
  run_action i a (VStr "click") w =
    match Proto.button_number button_map (dict_get a "button" (VStr "left")) with
    | Raised e => (Raised e, w)
    | Returned number =>
        let cmd := xdotool_click (Val.str (dict_get a "count" (VInt 1))) (Py.str_int number) in
        (match refusal (remote (sent w) cmd) with
         | Some e => Raised e
         | None =>
             Returned (fstr [pretty (i + 1)%nat; ". click ";
                             Val.str (dict_get a "button" (VStr "left")); " x";
                             Val.str (dict_get a "count" (VInt 1))])
         end, set_sent (sent w ++ [cmd]) w)
    end.
Proof.
  unfold run_action. decide_kinds. unfold bind at 1, lift.
  destruct (Proto.button_number _ _) as [number|e]; [|done]. apply command_then_entry.
Qed.

Lemma run_action_move_mouse i a w :
  let x := Val.str (dict_get a "x" (VInt 0)) in
  let y := Val.str (dict_get a "y" (VInt 0)) in
  let mode := dict_get a "mode" (VStr "absolute") in
  let cmd := if Val.eq_str mode "absolute" then xdotool_mousemove x y
             else xdotool_mousemove_relative x y in
  run_action i a (VStr "move_mouse") w =
    (match refusal (remote (sent w) cmd) with
     | Some e => Raised e
     | None =>
         Returned (fstr [pretty (i + 1)%nat; ". move_mouse ("; x; ", "; y; ") [";
                         Val.str mode; "]"])
     end, set_sent (sent w ++ [cmd]) w).
Proof.
  intros x y mode cmd. unfold run_action. decide_kinds.
  rewrite <- command_then_entry. unfold cmd, mode, x, y.
  by destruct (Val.eq_str _ _).
Qed.

Lemma run_action_wait i a w :
  run_action i a (VStr "wait") w =
    match Proto.sleepable (dict_get a "seconds" (VFloat "0.5")) with
    | Raised e => (Raised e, w)
    | Returned _ =>
        (Returned (fstr [pretty (i + 1)%nat; ". wait ";
                         Val.str (dict_get a "seconds" (VFloat "0.5")); "s"]), w)
    end.
Proof.
  unfold run_action. decide_kinds. unfold bind, lift.
  by destruct (Proto.sleepable _).
Qed.

End BranchFacts.

(** X4.  For arguments of the declared types that the single-action tools
    accept, an element of a batch sends the guest exactly the command that
    the tool of the same name sends: the same key combination, the same
    escaped text, the same click, the same pointer move. *)
Theorem batch_sends_what_tools_send {env : Env} (i : nat) (a : gmap string pyval)
    (w : World) :
  (∀ keys,
     dict_get a "keys" (VList []) = VList (VStr <$> keys) →
     sent (run_action i a (VStr "press_keys") w).2 = sent (press_keys keys w).2) ∧
  (∀ text,
     dict_get a "text" (VStr EmptyString) = VStr text →
     sent (run_action i a (VStr "type_text") w).2 = sent (type_text text w).2) ∧
  (∀ button count number,
     dict_get a "button" (VStr "left") = VStr button →
     dict_get a "count" (VInt 1) = VInt count →
     Py.assoc button button_map = Some number →
     sent (run_action i a (VStr "click") w).2 = sent (click button count w).2) ∧
  (∀ x y mode,
     dict_get a "x" (VInt 0) = VInt x →
     dict_get a "y" (VInt 0) = VInt y →
     dict_get a "mode" (VStr "absolute") = VStr mode →
     mode = "absolute" ∨ mode = "relative" →
     sent (run_action i a (VStr "move_mouse") w).2 = sent (move_mouse x y mode w).2).
Proof.
  split; [|split; [|split]].
  - intros keys Hkeys. rewrite run_action_press_keys, Hkeys, combo_strings.
    unfold press_keys. by rewrite command_then_log_sent.
  - intros text Htext. rewrite run_action_type_text_eq, Htext.
    unfold type_text. by rewrite command_then_log_sent.
  - intros button count number Hbutton Hcount Hnumber.
    rewrite run_action_click, Hbutton, Hcount. unfold Proto.button_number.
    unfold click. rewrite Hnumber. cbv zeta. cbn [from_option id snd].
    symmetry. apply command_then_log_sent.
  - intros x y mode Hx Hy Hmode Hvalid.
    pose proof (run_action_move_mouse i a w) as Hrun. cbv zeta in Hrun.
    rewrite Hrun, Hx, Hy, Hmode. clear Hrun. unfold move_mouse.
    destruct Hvalid as [-> | ->]; symmetry; apply command_then_log_sent.
Qed.

Lemma batch_sends_what_tools_send_witness :
  sent (@run_action Sample.obliging 0 Sample.press_ctrl_l (VStr "press_keys") Sample.blank).2 =
    sent (@press_keys Sample.obliging ["Ctrl"; "L"] Sample.blank).2 ∧
  sent (@run_action Sample.obliging 0 Sample.type_hi (VStr "type_text") Sample.blank).2 =
    sent (@type_text Sample.obliging "hi" Sample.blank).2.
Proof.
  destruct (@batch_sends_what_tools_send Sample.obliging 0 Sample.press_ctrl_l Sample.blank)
    as (Hkeys & _).
  destruct (@batch_sends_what_tools_send Sample.obliging 0 Sample.type_hi Sample.blank)
    as (_ & Htext & _).
  split; [apply (Hkeys ["Ctrl"; "L"]) | apply (Htext "hi")]; reflexivity.
Defined.

(** ** Batches: defaults and the keys of press_keys *)

Section DefaultFacts.
Context {env : Env}.

Lemma dict_get_missing (a : gmap string pyval) key default :
  a !! key = None → dict_get a key default = default.
Proof. unfold dict_get. by intros ->. Qed.

Lemma lower_all_chars (s : string) :
  Proto.lower_all (Proto.chars s) = Returned (Py.lower <$> letters s).
Proof.
  induction s as [|c s IH]; [done|].
  cbn [Proto.chars letters Proto.lower_all Proto.lower]. by rewrite IH.
Qed.

Lemma lower_all_not_string (ks : list pyval) :
  (∃ k, k ∈ ks ∧ ∀ s, k ≠ VStr s) →
  ∃ k, k ∈ ks ∧ (∀ s, k ≠ VStr s) ∧ Proto.lower_all ks = Raised (AttributeError k "lower").
Proof.
  induction ks as [|k ks IH]; intros (k0 & Hin & Hk0).
  - by apply elem_of_nil in Hin.
  - assert ((∃ s, k = VStr s) ∨ ∀ s, k ≠ VStr s) as [[s ->]|Hk].
    { destruct k; try (by right). left. by eexists. }
    + apply elem_of_cons in Hin as [->|Hin]; [by destruct (Hk0 s)|].
      destruct IH as (k' & Hin' & Hk' & Heq); [by exists k0|].
      exists k'. split; [by right|]. split; [done|].
      cbn [Proto.lower_all Proto.lower]. by rewrite Heq.
    + exists k. split; [by left|]. split; [done|].
      destruct k; try done. by destruct (Hk s).
Qed.

End DefaultFacts.

(** X5.  An element of a batch that gives only its kind runs with the
    defaults of the code: a click is one click of the left button, a
    move_mouse goes to the absolute position (0, 0), a type_text types the
    empty text, a press_keys presses an empty combination, and a wait lasts
    0.5 seconds and sends nothing. *)
Theorem batch_defaults {env : Env} (i : nat) (a : gmap string pyval) (w : World) :
  (a !! "button" = None → a !! "count" = None →
   sends_then_reports w (xdotool_click "1" "1") (pretty (i + 1)%nat +:+ ". click left x1")
     (run_action i a (VStr "click") w)) ∧
  (a !! "x" = None → a !! "y" = None → a !! "mode" = None →
   sends_then_reports w (xdotool_mousemove "0" "0")
     (pretty (i + 1)%nat +:+ ". move_mouse (0, 0) [absolute]")
     (run_action i a (VStr "move_mouse") w)) ∧
  (a !! "text" = None →
   sends_then_reports w (xdotool_type EmptyString) (pretty (i + 1)%nat +:+ ". type_text (0 chars)")
     (run_action i a (VStr "type_text") w)) ∧
  (a !! "keys" = None →
   sends_then_reports w (xdotool_key EmptyString) (pretty (i + 1)%nat +:+ ". press_keys []")
     (run_action i a (VStr "press_keys") w)) ∧
  (a !! "seconds" = None →
   run_action i a (VStr "wait") w = (Returned (pretty (i + 1)%nat +:+ ". wait 0.5s"), w)).
Proof.
  unfold sends_then_reports. split; [|split; [|split; [|split]]].
  - intros Hbutton Hcount.
    rewrite run_action_click, !(dict_get_missing _ _ _ Hbutton), !(dict_get_missing _ _ _ Hcount).
    reflexivity.
  - intros Hx Hy Hmode. pose proof (run_action_move_mouse i a w) as Hrun. cbv zeta in Hrun.
    rewrite Hrun, !(dict_get_missing _ _ _ Hx), !(dict_get_missing _ _ _ Hy),
      !(dict_get_missing _ _ _ Hmode).
    reflexivity.
  - intros Htext. rewrite run_action_type_text_eq, !(dict_get_missing _ _ _ Htext).
    reflexivity.
  - intros Hkeys. rewrite run_action_press_keys, !(dict_get_missing _ _ _ Hkeys).
    reflexivity.
  - intros Hseconds. rewrite run_action_wait, !(dict_get_missing _ _ _ Hseconds).
    reflexivity.
Qed.

Lemma batch_defaults_witness :
  @run_action Sample.obliging 2 Sample2.click_only (VStr "click") Sample.blank =
    (Returned "3. click left x1",
     set_sent ["DISPLAY=:0 xdotool click --repeat 1 1"] Sample.blank).
Proof.
  destruct (@batch_defaults Sample.obliging 2 Sample2.click_only Sample.blank) as (Hclick & _).
  rewrite Hclick; reflexivity.
Defined.

(** X6.  What the press_keys element of a batch makes of its keys, which
    nothing has checked to be a list of strings: a list of strings is
    joined in lower case with "+"; a string is pressed as the combination
    of its characters; None, a boolean or a number cannot be iterated over,
    and a list with an element that is no string has no lower(): both raise
    inside the element's try, with nothing sent and nothing else changed. *)
Theorem batch_press_keys_argument {env : Env} (i : nat) (a : gmap string pyval) (w : World) :
  let keys := dict_get a "keys" (VList []) in
  let r := run_action i a (VStr "press_keys") w in
  (∀ ks, keys = VList (VStr <$> ks) →
     sends_then_reports w (xdotool_key (Py.join "+" (Py.lower <$> ks)))
       (fstr [pretty (i + 1)%nat; ". press_keys "; Val.repr keys]) r) ∧
  (∀ s, keys = VStr s →
     sends_then_reports w (xdotool_key (Py.join "+" (Py.lower <$> letters s)))
       (fstr [pretty (i + 1)%nat; ". press_keys "; s]) r) ∧
  match keys with
  | VNone | VBool _ | VInt _ | VFloat _ => r = (Raised (NotIterable keys), w)
  | VList ks =>
      (∃ k, k ∈ ks ∧ ∀ s, k ≠ VStr s) →
      ∃ k, k ∈ ks ∧ (∀ s, k ≠ VStr s) ∧ r = (Raised (AttributeError k "lower"), w)
  | _ => True
  end.
Proof.
  intros keys r. unfold r, sends_then_reports. rewrite run_action_press_keys. fold keys.
  split; [|split].
  - intros ks ->. by rewrite combo_strings.
  - intros s ->. unfold Proto.combo. cbn [Proto.iterate]. by rewrite lower_all_chars.
  - destruct keys as [| | | | |ks|]; try done.
    intros Hks. destruct (lower_all_not_string ks Hks) as (k & Hin & Hk & Heq).
    exists k. split; [done|]. split; [done|].
    unfold Proto.combo. cbn [Proto.iterate]. by rewrite Heq.
Qed.

Lemma batch_press_keys_argument_witness :
  @run_action Sample.obliging 0 Sample2.press_string (VStr "press_keys") Sample.blank =
    (Returned "1. press_keys Ab", set_sent ["DISPLAY=:0 xdotool key a+b"] Sample.blank) ∧
  @run_action Sample.obliging 0 Sample2.press_number (VStr "press_keys") Sample.blank =
    (Raised (NotIterable (VInt 7)), Sample.blank).
Proof.
  split.
  - destruct (@batch_press_keys_argument Sample.obliging 0 Sample2.press_string Sample.blank)
      as (_ & Hstring & _).
    rewrite (Hstring "Ab"); reflexivity.
  - destruct (@batch_press_keys_argument Sample.obliging 0 Sample2.press_number Sample.blank)
      as (_ & _ & Hnumber).
    exact Hnumber.
Defined.

(** ** The single-action tools *)

Section SingleFacts.
Context {env : Env}.

Lemma quotes_escaped_from_replace (escaped : bool) (text : string) :
  quotes_escaped_from escaped (Py.replace Py.dquote escaped_quote text) = true.
Proof.
  revert escaped. induction text as [|c text IH]; intros escaped; [done|].
  cbn [Py.replace]. destruct (decide (c = Py.dquote)) as [->|Hc].
  - unfold escaped_quote, Py.str1. rewrite !append_cons, append_nil_l.
    cbn [quotes_escaped_from].
    rewrite (decide_False (P := Py.backslash = Py.dquote)) by done.
    rewrite (decide_True (P := Py.dquote = Py.dquote)) by done.
    rewrite (bool_decide_eq_true_2 (Py.backslash = Py.backslash)) by done.
    apply IH.
  - cbn [quotes_escaped_from]. rewrite (decide_False (P := c = Py.dquote)) by done. apply IH.
Qed.

Lemma replace_no_quote (text : string) :
  Py.char_in Py.dquote text = false → Py.replace Py.dquote escaped_quote text = text.
Proof.
  induction text as [|c text IH]; [done|]. cbn [Py.char_in Py.replace].
  destruct (decide (Py.dquote = c)) as [<-|Hc]; [done|].
  intros Hin. rewrite (decide_False (P := c = Py.dquote)) by congruence. by rewrite IH.
Qed.

Lemma replace_length (text : string) :
  String.length (Py.replace Py.dquote escaped_quote text) =
    (String.length text + count_char Py.dquote text)%nat.
Proof.
  induction text as [|c text IH]; [done|]. cbn [Py.replace count_char].
  destruct (decide (c = Py.dquote)) as [->|Hc].
  - change (Py.replace Py.dquote escaped_quote text) with
      (Py.replace Py.dquote (String Py.backslash (String Py.dquote EmptyString)) text) in IH.
    unfold escaped_quote, Py.str1. rewrite !append_cons, append_nil_l.
    cbn [String.length]. rewrite IH. lia.
  - cbn [String.length]. rewrite IH. lia.
Qed.

Lemma Project__log_eq p d f message level w :
  disk w !! path p = Some (Dir d) → logs d = Some f →
  Project__log p message level w =
    (Returned tt, with_line p d f (log_line w level message) w).
Proof.
  intros Hd Hf. unfold Project__log, bind, utcnow, append_log. simpl. by rewrite Hd, Hf.
Qed.

Lemma command_then_log_eq cmd tool_name params (text : string) w p d f :
  project w = Some p → disk w !! path p = Some (Dir d) → logs d = Some f →
  calls_and_logs w p d f cmd text tool_name params
    (bind (run_vm_cmd cmd)
       (λ _, bind (_log_tool_call tool_name params None) (λ _, ret text)) w).
Proof.
  intros Hp Hd Hf. unfold calls_and_logs.
  destruct (refusal (remote (sent w) cmd)) as [e|] eqn:Href.
  - by rewrite (bind_raised _ _ _ _ _ (run_vm_cmd_refused _ _ _ Href)).
  - unfold refusal in Href. destruct (remote (sent w) cmd) as [reply|] eqn:Hreply; [|done].
    destruct (decide (returncode reply = 0)) as [Hz|]; [|done].
    rewrite (bind_returned _ _ _ _ _ (run_vm_cmd_ok _ _ _ Hreply Hz)).
    unfold _log_tool_call, _get_project_optional.
    unfold bind at 1. unfold bind at 1. unfold gets. cbn [project set_sent fst snd].
    rewrite Hp. erewrite Project__log_eq; [reflexivity|exact Hd|exact Hf].
Qed.

End SingleFacts.

(** X7.  [type_text] sends one command, the text between double quotes with
    a backslash put before each double quote of the text and nothing else
    changed: no quote of what stands between the outer quotes is left
    without a backslash before it, a text without quotes is sent as it is,
    and the text sent is longer than the text by the number of its quotes.
    The confirmation, when there is one, counts the characters of the text
    as given, not of what was sent. *)
Theorem type_text_command {env : Env} (text : string) (w : World) :
  let r := type_text text w in
  let escaped := Py.replace Py.dquote escaped_quote text in
  sent r.2 = sent w ++ [fstr ["DISPLAY="; VM_DISPLAY; " xdotool type --delay 10 ";
                              Py.str1 Py.dquote; escaped; Py.str1 Py.dquote]] ∧
  quotes_escaped escaped = true ∧
  (Py.char_in Py.dquote text = false → escaped = text) ∧
  Py.len escaped = Py.len text + Z.of_nat (count_char Py.dquote text) ∧
  (∀ s, r.1 = Returned s → s = fstr ["Typed "; Py.str_int (Py.len text); " characters"]).
Proof.
  intros r escaped. split; [|split; [|split; [|split]]].
  - unfold r, type_text. by rewrite command_then_log_sent.
  - apply quotes_escaped_from_replace.
  - apply replace_no_quote.
  - unfold Py.len, escaped. rewrite replace_length. lia.
  - intros s. unfold r, type_text. cbv zeta. unfold bind at 1.
    destruct (run_vm_cmd _ w) as [[out|e] w1]; [|done].
    unfold bind. destruct (_log_tool_call _ _ _ w1) as [[[]|e] w2]; [|done].
    unfold ret. cbn [fst]. by intros [= <-].
Qed.

Lemma type_text_command_witness :
  (@type_text Sample.obliging "echo $HOME" Sample.blank).1 = Returned "Typed 10 characters" ∧
  Py.replace Py.dquote escaped_quote "echo $HOME" = "echo $HOME".
Proof.
  destruct (@type_text_command Sample.obliging "echo $HOME" Sample.blank)
    as (_ & _ & Hsame & _ & Hcount).
  split; [|by apply Hsame].
  destruct (@type_text Sample.obliging "echo $HOME" Sample.blank).1 as [s|e] eqn:Hr; [|done].
  by rewrite (Hcount s eq_refl).
Defined.

(** X8.  With a project active and its log in place, a single-action tool
    called with valid arguments sends its command, and then: if the guest
    refuses the command the tool raises the guest's error and the log is
    left as it was (these tools do not log their failures); otherwise the
    tool returns its confirmation and the log has grown by exactly one INFO
    line, the call with its parameters.  [type_text] logs a text of more
    than 20 characters as its first 10 characters and its length; [wait]
    sends nothing and logs its line. *)
Theorem single_tools_log {env : Env} (w : World) (p : Project) (d : ProjectDir)
    (f : option string) :
  project w = Some p → disk w !! path p = Some (Dir d) → logs d = Some f →
  (∀ x y,
     calls_and_logs w p d f (xdotool_mousemove (Py.str_int x) (Py.str_int y))
       (fstr ["Mouse moved to ("; Py.str_int x; ", "; Py.str_int y; ") [absolute]"])
       "move_mouse" [("x", VInt x); ("y", VInt y); ("mode", VStr "absolute")]
       (move_mouse x y "absolute" w)) ∧
  (∀ x y,
     calls_and_logs w p d f (xdotool_mousemove_relative (Py.str_int x) (Py.str_int y))
       (fstr ["Mouse moved to ("; Py.str_int x; ", "; Py.str_int y; ") [relative]"])
       "move_mouse" [("x", VInt x); ("y", VInt y); ("mode", VStr "relative")]
       (move_mouse x y "relative" w)) ∧
  (∀ button number count,
     Py.assoc button button_map = Some number →
     calls_and_logs w p d f (xdotool_click (Py.str_int count) (Py.str_int number))
       (fstr ["Clicked "; button; " x"; Py.str_int count])
       "click" [("button", VStr button); ("count", VInt count)]
       (click button count w)) ∧
  (∀ text,
     calls_and_logs w p d f (xdotool_type text)
       (fstr ["Typed "; Py.str_int (Py.len text); " characters"])
       "type_text" [("text", VStr (masked text))]
       (type_text text w)) ∧
  (∀ keys,
     calls_and_logs w p d f (xdotool_key (Py.join "+" (Py.lower <$> keys)))
       (fstr ["Pressed keys: "; Val.repr (VList (VStr <$> keys))])
       "press_keys" [("keys", VList (VStr <$> keys))]
       (press_keys keys w)) ∧
  (∀ seconds,
     wait seconds w =
       (Returned (fstr ["Waited "; seconds; " seconds"]),
        with_line p d f
          (log_line w "INFO" (tool_message "wait" [("seconds", VFloat seconds)])) w)).
Proof.
  intros Hp Hd Hf. split; [|split; [|split; [|split; [|split]]]].
  - intros x y. by apply command_then_log_eq.
  - intros x y. by apply command_then_log_eq.
  - intros button number count Hnumber. unfold click. rewrite Hnumber.
    by apply command_then_log_eq.
  - intros text. by apply command_then_log_eq.
  - intros keys. by apply command_then_log_eq.
  - intros seconds. unfold wait, _log_tool_call, _get_project_optional.
    unfold bind at 1. unfold bind at 1. unfold gets. cbn [fst snd]. rewrite Hp.
    erewrite Project__log_eq; [reflexivity|exact Hd|exact Hf].
Qed.

Lemma single_tools_log_witness :
  (@type_text Sample.obliging "correct horse battery staple" (Sample.working None)).1 =
    Returned "Typed 28 characters" ∧
  read_log Sample.demo
    (@type_text Sample.obliging "correct horse battery staple" (Sample.working None)).2 =
    Some ("[2024-05-17 12:00:00] [INFO] TOOL: type_text(text=correct ho...(28 chars))" +:+ nl).
Proof.
  destruct (@single_tools_log Sample.obliging (Sample.working None) Sample.demo
              (Sample.demo_dir (Some None)) None eq_refl eq_refl eq_refl)
    as (_ & _ & _ & Htype & _).
  rewrite (Htype "correct horse battery staple"). split; vm_compute; reflexivity.
Defined.

(** ** Project tools and the active project *)

(** X9.  The project tools that work on the active project
    ([project_log], [project_read_logs], [project_save_advice],
    [project_read_advice]) raise the ValueError that asks for
    [project_init] when no project is active, whatever their arguments,
    and change nothing: no clock is read, no file is written. *)
Theorem project_tools_need_project {env : Env} (w : World) :
  project w = None →
  (∀ message level, project_log message level w = (Raised no_project, w)) ∧
  (∀ lines level_filter, project_read_logs lines level_filter w = (Raised no_project, w)) ∧
  (∀ title content, project_save_advice title content w = (Raised no_project, w)) ∧
  project_read_advice w = (Raised no_project, w).
Proof.
  intros Hp.
  assert (Hget : _get_project w = (Raised no_project, w)).
  { unfold _get_project, bind, gets. by rewrite Hp. }
  split; [|split; [|split]]; intros;
    [unfold project_log | unfold project_read_logs | unfold project_save_advice
    | unfold project_read_advice]; by rewrite (bind_raised _ _ _ _ _ Hget).
Qed.

Lemma project_tools_need_project_witness :
  @project_log Sample.obliging "started" "INFO" Sample.blank = (Raised no_project, Sample.blank) ∧
  project_read_advice Sample.blank = (Raised no_project, Sample.blank).
Proof.
  destruct (@project_tools_need_project Sample.obliging Sample.blank eq_refl)
    as (Hlog & _ & _ & Hadvice).
  split; [apply Hlog | exact Hadvice].
Defined.

(** ** ssh_connection_info *)

Section ProbeFacts.
Context {env : Env}.

Lemma ssh_run_checked cmd w :
  match refusal (remote (sent w) cmd) with
  | Some e => ssh_run cmd true w = (Raised e, set_sent (sent w ++ [cmd]) w)
  | None => ∃ p, ssh_run cmd true w = (Returned p, set_sent (sent w ++ [cmd]) w)
  end.
Proof.
  unfold refusal, ssh_run. destruct (remote (sent w) cmd) as [p|e]; [|done].
  destruct (decide (returncode p = 0)) as [Hz|Hne].
  - exists p. by rewrite Hz.
  - apply Z.eqb_neq in Hne. by rewrite Hne.
Qed.

End ProbeFacts.

(** X10.  [ssh_connection_info] sends its probe, the echo of
    connection_test, and nothing else.  While the activity log can be
    written (or no project is active) it never raises: the text it returns
    gives the configured host, port, user and display, and as status
    Connected when the probe came back with exit status 0, else Connection
    issue: with the text of the error.  With a project active whose log
    cannot be written, the error of the log write is raised instead. *)
Theorem ssh_connection_info_in_band {env : Env} {config : Config} (w : World) :
  let r := ssh_connection_info w in
  sent r.2 = sent w ++ [connection_test] ∧
  (log_writable w = true →
   r.1 = Returned (connection_info (connection_status (remote (sent w) connection_test)))) ∧
  (∀ p, project w = Some p → log_writable w = false →
        r.1 = Raised (FileNotFoundError (log_file p))).
Proof.
  intros r. unfold r, ssh_connection_info, connection_status.
  set (w1 := set_sent (sent w ++ [connection_test]) w).
  assert (Hw1 : log_writable w1 = log_writable w) by done.
  pose proof (ssh_run_checked connection_test w) as Hrun. fold w1 in Hrun.
  split; [|split].
  - unfold bind at 1, try_except. unfold bind at 1.
    destruct (refusal _) as [e|].
    + rewrite Hrun. cbn [fst snd]. unfold bind at 1.
      pose proof (_log_error_sent "ssh_connection_info" (exn_str e) w1) as Herr.
      destruct (_log_error _ _ w1) as [[[]|e1] w2]; [|done]. cbn [fst snd] in *.
      unfold ret. cbn [fst snd]. unfold bind.
      pose proof (_log_tool_call_sent "ssh_connection_info" []
                    (Some (fstr ["Connection issue: "; exn_str e])) w2) as Hlog.
      destruct (_log_tool_call _ _ _ w2) as [[[]|e2] w3]; cbn [fst snd] in *;
        by rewrite Hlog, Herr.
    + destruct Hrun as [p ->]. cbn [fst snd]. unfold ret. cbn [fst snd]. unfold bind.
      pose proof (_log_tool_call_sent "ssh_connection_info" [] (Some "Connected") w1) as Hlog.
      destruct (_log_tool_call _ _ _ w1) as [[[]|e2] w3]; cbn [fst snd] in *;
        by rewrite Hlog.
  - intros Hw. rewrite <- Hw1 in Hw. unfold bind at 1, try_except. unfold bind at 1.
    destruct (refusal _) as [e|].
    + rewrite Hrun. cbn [fst snd]. unfold bind at 1.
      destruct (_log_error_writable "ssh_connection_info" (exn_str e) w1 Hw)
        as (w2 & -> & _ & _ & Hw2).
      unfold ret. cbn [fst snd]. unfold bind.
      by destruct (_log_tool_call_writable "ssh_connection_info" []
                     (Some (fstr ["Connection issue: "; exn_str e])) w2 Hw2)
        as (w3 & -> & _).
    + destruct Hrun as [p ->]. cbn [fst snd]. unfold ret. cbn [fst snd]. unfold bind.
      by destruct (_log_tool_call_writable "ssh_connection_info" [] (Some "Connected") w1 Hw)
        as (w3 & -> & _).
  - intros p Hp Hw. rewrite <- Hw1 in Hw. unfold bind at 1, try_except. unfold bind at 1.
    destruct (refusal _) as [e|].
    + rewrite Hrun. cbn [fst snd]. unfold bind at 1.
      by rewrite (_log_error_unwritable "ssh_connection_info" (exn_str e) w1 p Hp Hw).
    + destruct Hrun as [q ->]. cbn [fst snd]. unfold ret. cbn [fst snd]. unfold bind.
      by rewrite (_log_tool_call_unwritable "ssh_connection_info" [] (Some "Connected") w1 p Hp Hw).
Qed.

Lemma ssh_connection_info_in_band_witness :
  (@ssh_connection_info Sample.dropped Sample2.lab Sample.blank).1 =
    Returned (fstr ["SSH Connection Information:"; nl;
                    "Host: 192.168.122.79"; nl; "Port: 22"; nl; "User: vmrobot"; nl;
                    "Display: :0"; nl; "Status: Connection issue: Connection lost"; nl;
                    "Identity File: Not specified (using password/agent)"]) ∧
  (@ssh_connection_info Sample.obliging Sample2.lab Sample.logless).1 =
    Raised (FileNotFoundError (log_file Sample.demo)).
Proof.
  split.
  - destruct (@ssh_connection_info_in_band Sample.dropped Sample2.lab Sample.blank)
      as (_ & Hband & _).
    rewrite Hband; reflexivity.
  - destruct (@ssh_connection_info_in_band Sample.obliging Sample2.lab Sample.logless)
      as (_ & _ & Hlog).
    apply Hlog; reflexivity.
Defined.

(** ** project_read_logs with a limit below 1 *)

Section LimitFacts.

Lemma recent_nonpositive (lines : Z) (all_lines : list string) :
  lines ≤ 0 → recent lines all_lines = drop (Z.to_nat (- lines)) all_lines.
Proof.
  intros Hlines. unfold recent, Py.slice_from.
  destruct (Z.ltb_spec lines (Z.of_nat (length all_lines))) as [Hlt|Hge].
  - destruct (Z.ltb_spec (- lines) 0) as [|_]; [lia|].
    destruct (Z.min_spec (- lines) (Z.of_nat (length all_lines))) as [[_ ->]|[Hle ->]]; [done|].
    rewrite Nat2Z.id, !drop_ge; [done|lia..].
  - assert (lines = 0) as -> by lia. assert (length all_lines = 0)%nat as Hnil by lia.
    by destruct all_lines.
Qed.

End LimitFacts.

(** X11.  What [project_read_logs] makes of a limit below 1.  The limit 0
    does not show no lines: it shows every selected line.  A negative
    limit -n shows the selected lines but the first n of them, so with
    n at least their number it reports that no entries were found. *)
Theorem project_read_logs_nonpositive (lines : Z) (level_filter : string) (w : World)
    (p : Project) (text : string) :
  project w = Some p → read_log p w = Some text → lines ≤ 0 →
  let selected := filter_level level_filter (log_lines text) in
  project_read_logs lines level_filter w =
    (Returned (log_report level_filter (drop (Z.to_nat (- lines)) selected) selected), w) ∧
  (lines = 0 →
   project_read_logs lines level_filter w =
     (Returned (log_report level_filter selected selected), w)) ∧
  (Z.of_nat (length selected) ≤ - lines →
   project_read_logs lines level_filter w =
     (Returned (log_report level_filter [] selected), w)).
Proof.
  intros Hp Hlog Hlines selected.
  assert (Heq : project_read_logs lines level_filter w =
                (Returned (log_report level_filter (drop (Z.to_nat (- lines)) selected)
                             selected), w)).
  { rewrite (project_read_logs_eq _ _ _ _ Hp), Hlog. cbv zeta. fold selected.
    by rewrite recent_nonpositive. }
  split; [exact Heq|]. split.
  - intros ->. exact Heq.
  - intros Hall. rewrite Heq, drop_ge by lia. done.
Qed.

Lemma project_read_logs_nonpositive_witness :
  (project_read_logs (-4) EmptyString (Sample.working (Some Sample.five_entries))).1 =
    Returned (fstr ["Log entries (1 of 5 total):"; nl; nl;
                    "[2024-05-17 12:00:04] [INFO] saw [ERROR] in the output"]).
Proof.
  destruct (project_read_logs_nonpositive (-4) EmptyString
              (Sample.working (Some Sample.five_entries)) Sample.demo Sample.five_entries)
    as (Hreport & _); [reflexivity | reflexivity | lia |].
  rewrite Hreport. vm_compute. reflexivity.
Defined.

(** ** Advice notes *)

Section NoteFacts.

Lemma strongly_sorted_name_below (l : list string) :
  StronglySorted String.le l → NoDup l → StronglySorted name_below l.
Proof.
  induction 1 as [|x l Hsorted IH Hall]; intros Hnodup; [constructor|].
  apply NoDup_cons in Hnodup as [Hx Hnodup]. constructor; [by apply IH|].
  apply Forall_forall. intros y Hy. split.
  - intros ->. done.
  - by apply (proj1 (Forall_forall _ _) Hall).
Qed.

Lemma strongly_sorted_fst {A} (l : list (string * A)) :
  StronglySorted (λ a b, String.le a.1 b.1) l → StronglySorted String.le l.*1.
Proof.
  induction 1 as [|x l Hsorted IH Hall]; [constructor|].
  rewrite fmap_cons. constructor; [exact IH|].
  apply Forall_forall. intros y Hy. apply list_elem_of_fmap in Hy as (kv & -> & Hkv).
  by apply (proj1 (Forall_forall _ _) Hall).
Qed.

Lemma NoDup_fst_filter {A} (f : string * A → bool) (l : list (string * A)) :
  NoDup l.*1 → NoDup (List.filter f l).*1.
Proof.
  induction l as [|x l IH]; [done|]. rewrite fmap_cons. intros [Hx Hl]%NoDup_cons.
  simpl. destruct (f x); [|by apply IH]. rewrite fmap_cons. apply NoDup_cons.
  split; [|by apply IH]. intros Hin. apply Hx.
  apply list_elem_of_fmap in Hin as (kv & -> & Hkv).
  apply list_elem_of_In, filter_In in Hkv as [Hkv _].
  apply list_elem_of_fmap. exists kv. split; [done|]. by apply list_elem_of_In.
Qed.

Lemma sorted_md_names (files : gmap string string) :
  StronglySorted name_below (sorted_md files).*1.
Proof.
  apply strongly_sorted_name_below.
  - apply strongly_sorted_fst. unfold sorted_md. apply StronglySorted_merge_sort.
    + intros x y z Hxy Hyz. by etrans.
    + intros x y. destruct (total String.le x.1 y.1); auto.
  - unfold sorted_md. rewrite merge_sort_Permutation.
    apply NoDup_fst_filter, NoDup_fst_map_to_list.
Qed.

Lemma sorted_md_spec (files : gmap string string) (kv : string * string) :
  kv ∈ sorted_md files ↔ files !! kv.1 = Some kv.2 ∧ Py.endswith ".md" kv.1 = true.
Proof.
  unfold sorted_md. rewrite merge_sort_Permutation, list_elem_of_In, filter_In,
    <- list_elem_of_In. destruct kv as [k v]. by rewrite elem_of_map_to_list.
Qed.

Lemma file_read_advice_file (l : list (string * string)) :
  file <$> map (λ kv, read_advice_file kv.1 kv.2) l = l.*1.
Proof.
  induction l as [|kv l IH]; [done|]. cbn [map]. rewrite !fmap_cons, IH. reflexivity.
Qed.

Lemma take_length (n : nat) (s : string) :
  String.length (Py.take n s) = (n `min` String.length s)%nat.
Proof.
  revert s. induction n as [|n IH]; intros [|c s]; try done.
  cbn [Py.take String.length]. rewrite IH. lia.
Qed.

Lemma map_chars_length (f : ascii → ascii) (s : string) :
  String.length (Py.map_chars f s) = String.length s.
Proof. induction s as [|c s IH]; [done|]. cbn [Py.map_chars String.length]. by rewrite IH. Qed.

Lemma safe_safe_char (c : ascii) : safe (safe_char c) = true.
Proof. unfold safe_char, safe. by destruct (Py.isalnum c || Py.char_in c "- _") eqn:Hc. Qed.

Lemma all_chars_take (f : ascii → bool) (n : nat) (s : string) :
  all_chars f s = true → all_chars f (Py.take n s) = true.
Proof.
  revert s. induction n as [|n IH]; intros [|c s]; try done.
  cbn [Py.take all_chars]. intros [Hc Hs]%andb_true_iff. rewrite Hc. by apply IH.
Qed.

Lemma all_chars_map_safe_char (s : string) : all_chars safe (Py.map_chars safe_char s) = true.
Proof.
  induction s as [|c s IH]; [done|]. cbn [Py.map_chars all_chars].
  by rewrite safe_safe_char, IH.
Qed.

End NoteFacts.

(** X12.  The list [get_all_advice] returns.  The model's [advice/] holds
    files with their text, so this is about a directory whose entries are
    readable text files; what the code does with an entry named *.md that
    is a directory, or cannot be decoded, is outside it.  For such a
    directory the list has one entry for each file whose name ends in .md,
    and for no other file; the entries come in strictly ascending order of
    their file names, and each is what the title and body extraction makes
    of its file; the project is left as it was.  When there is no
    [advice/] directory, or no file in it, the list is empty. *)
Theorem get_all_advice_listing (self : Project) (w : World) :
  ∃ notes,
    Project_get_all_advice self w = (Returned notes, w) ∧
    StronglySorted name_below (file <$> notes) ∧
    (∀ filename,
       filename ∈ file <$> notes ↔
       is_Some (advice_files self w !! filename) ∧ Py.endswith ".md" filename = true) ∧
    (∀ note, note ∈ notes →
       ∃ text, advice_files self w !! file note = Some text ∧
               note = read_advice_file (file note) text) ∧
    (advice_files self w = ∅ → notes = []).
Proof.
  exists (map (λ kv, read_advice_file kv.1 kv.2) (sorted_md (advice_files self w))).
  split; [|split; [|split; [|split]]].
  - unfold Project_get_all_advice, bind, gets, advice_files.
    destruct (disk w !! path self) as [[|d]|]; try done.
    by destruct (advice d).
  - rewrite file_read_advice_file. apply sorted_md_names.
  - intros filename. rewrite file_read_advice_file. split.
    + intros (kv & -> & Hkv)%list_elem_of_fmap. apply sorted_md_spec in Hkv as [Hfile Hmd].
      by rewrite Hfile.
    + intros [[text Hfile] Hmd]. apply list_elem_of_fmap. exists (filename, text).
      split; [done|]. by apply sorted_md_spec.
  - intros note (kv & -> & Hkv)%list_elem_of_fmap. apply sorted_md_spec in Hkv as [Hfile Hmd].
    by exists kv.2.
  - intros ->. unfold sorted_md. by rewrite map_to_list_empty.
Qed.

(** X13.  The file [save_advice] writes.  Its name is the time stamp, an
    underscore, the sanitized title and .md; the sanitized title has the
    length of the title, but at most 50, and holds only letters, digits,
    hyphens, spaces and underscores, so it names a file of [advice/] itself
    whatever the title.  Saving writes that one file: every other file of
    [advice/] is as before, and a note saved before under the same name (a
    title with the same sanitized form, in the same second) is replaced. *)
Theorem save_advice_file {env : Env} (self : Project) (title content : string) (w : World)
    (d : ProjectDir) (files : gmap string string) :
  disk w !! path self = Some (Dir d) →
  advice d = Some files →
  let r := Project_save_advice self title content w in
  let safe_title := Py.take 50 (Py.map_chars safe_char title) in
  advice_filename w title = fstr [strftime_compact (utcnow_at (clock_reads w)); "_";
                                  safe_title; ".md"] ∧
  String.length safe_title = (50 `min` String.length title)%nat ∧
  all_chars safe safe_title = true ∧
  advice_files self r.2 =
    <[advice_filename w title := fstr ["# "; title; nl; nl; content; nl]]> files ∧
  (∀ other, other ≠ advice_filename w title →
     advice_files self r.2 !! other = files !! other) ∧
  (∀ title', Py.map_chars safe_char title' = Py.map_chars safe_char title →
     advice_filename w title' = advice_filename w title).
Proof.
  intros Hd Hfiles r safe_title.
  destruct (Project_save_advice_disk self title content w d files Hd Hfiles)
    as [(d' & Hd' & Hfiles') _].
  assert (Hafter : advice_files self r.2 =
                   <[advice_filename w title := fstr ["# "; title; nl; nl; content; nl]]> files).
  { unfold advice_files, r. by rewrite Hd', Hfiles'. }
  split; [done|]. split.
  { unfold safe_title. by rewrite take_length, map_chars_length. }
  split; [apply all_chars_take, all_chars_map_safe_char|].
  split; [exact Hafter|]. split.
  - intros other Hother. by rewrite Hafter, lookup_insert_ne.
  - intros title' Hsame. unfold advice_filename. by rewrite Hsame.
Qed.

Lemma save_advice_file_witness :
  advice_files Sample.demo
    (@Project_save_advice Sample.obliging Sample.demo "../a/b" "x" Sample2.with_advice).2
    !! "20240517-120000____a_b.md" = Some (fstr ["# ../a/b"; nl; nl; "x"; nl]) ∧
  advice_files Sample.demo
    (@Project_save_advice Sample.obliging Sample.demo "../a/b" "x" Sample2.with_advice).2
    !! "README.txt" = Some "not a note".
Proof.
  destruct (@save_advice_file Sample.obliging Sample.demo "../a/b" "x" Sample2.with_advice
              _ _ eq_refl eq_refl) as (_ & _ & _ & Hafter & Hother & _).
  split.
  - rewrite Hafter. apply lookup_insert_eq.
  - rewrite Hother; [|done]. vm_compute. reflexivity.
Defined.

(** ** project_init *)

Section CreateFacts.
Context {env : Env}.

Lemma Project_create_eq (name description : string) (w : World) :
  let stamp := strftime_compact (utcnow_at (clock_reads w)) in
  let project_path := fstr [stamp; "_"; name] in
  let proj := {| name := VStr name; path := project_path;
         created_at := VStr stamp; description := VStr description |} in
  Project_create name description w =
    match disk w !! project_path with
    | Some File =>
        (Raised (Exn "FileExistsError"
                   (fstr ["[Errno 17] File exists: '"; path_str project_path; "'"])),
         set_clock_reads (S (clock_reads w)) w)
    | entry =>
        let d := match entry with
                 | Some (Dir d) =>
                     {| metadata_json := metadata_json d;
                        logs := Some (from_option id None (logs d));
                        advice := Some (from_option id ∅ (advice d)) |}
                 | _ => {| metadata_json := None; logs := Some None;
                           advice := Some ∅ |}
                 end in
        let w1 := set_clock_reads (S (clock_reads w)) w in
        (Returned proj,
         with_line proj (set_metadata (Some (Json (metadata_of proj))) d)
           (from_option id None (logs d))
           (log_line w1 "INFO" "Project initialized")
              (set_disk
              (<[project_path := Dir (set_metadata (Some (Json (metadata_of proj))) d)]>
                 (<[project_path := Dir d]> (disk w))) w1))
    end.
Proof.
  intros stamp project_path proj.
  unfold Project_create, bind, utcnow, make_project_dirs. cbn [fst snd disk set_clock_reads].
  fold stamp. fold project_path. fold proj.
  destruct (disk w !! project_path) as [[|d]|] eqn:Hd; [done|..].
  - unfold Project__save_metadata. cbn [fst snd disk set_disk path proj].
    rewrite lookup_insert_eq.
    erewrite Project__log_eq; [reflexivity | apply lookup_insert_eq | reflexivity].
  - unfold Project__save_metadata. cbn [fst snd disk set_disk path proj].
    rewrite lookup_insert_eq.
    erewrite Project__log_eq; [reflexivity | apply lookup_insert_eq | reflexivity].
Qed.

Lemma project_init_world (name description : string) (w : World) :
  (project_init name description w).2 =
    match Project_create name description w with
    | (Returned project, w') => set_project (Some project) w'
    | (Raised _, w') => w'
    end.
Proof.
  unfold project_init, bind. by destruct (Project_create name description w) as [[?|?] ?].
Qed.

Lemma project_list_eq (w : World) :
  project_list w =
    (Returned (listing (map (listing_line w)
                          (List.filter (λ x, has_metadata (disk w !! x))
                             (sorted_reverse (map_to_list (disk w)).*1)))), w).
Proof.
  unfold project_list, bind at 1, gets. unfold bind. rewrite project_list_loop_eq.
  cbn [app]. unfold listing, ret. by destruct (map _ _).
Qed.

End CreateFacts.

(** X14.  [project_init] for a name that is one component of a path.  It
    reads the clock twice, once for the name of the directory and once for
    its first log line, and sends nothing to the guest.  If a plain file
    already has the directory's name it raises and nothing is created.
    Otherwise it returns, the new project is the active one, loading the
    directory gives that project back (name, creation stamp and
    description as given), its log can be written and is the log the
    directory had, if any, with the line Project initialized after it, the
    advice files the directory had are kept, and every other directory is
    as before. *)
Theorem project_init_creates {env : Env} (name description : string) (w : World) :
  plain_name name = true →
  let stamp := strftime_compact (utcnow_at (clock_reads w)) in
  let project_path := fstr [stamp; "_"; name] in
  let proj := {| name := VStr name; path := project_path;
                 created_at := VStr stamp; description := VStr description |} in
  let r := project_init name description w in
  sent r.2 = sent w ∧
  (∀ other, other ≠ project_path → disk r.2 !! other = disk w !! other) ∧
  (disk w !! project_path = Some File →
   ∃ e, r = (Raised e, set_clock_reads (S (clock_reads w)) w)) ∧
  (disk w !! project_path ≠ Some File →
   (∃ s, r.1 = Returned s) ∧
   project r.2 = Some proj ∧
   clock_reads r.2 = S (S (clock_reads w)) ∧
   Project_load project_path r.2 = (Returned proj, r.2) ∧
   log_writable r.2 = true ∧
   ∃ d',
     disk r.2 !! project_path = Some (Dir d') ∧
     metadata_json d' = Some (Json (metadata_of proj)) ∧
     logs d' = Some (Some (project_log_text proj w +:+
                           log_line (set_clock_reads (S (clock_reads w)) w) "INFO"
                             "Project initialized")) ∧
     advice d' = Some (advice_files proj w)).
Proof.
  intros _ stamp project_path proj r.
  pose proof (Project_create_eq name description w) as Hcreate.
  cbv zeta in Hcreate. fold stamp in Hcreate. fold project_path in Hcreate.
  fold proj in Hcreate.
  assert (Hr : r = match Project_create name description w with
                   | (Returned project, w') =>
                       (Returned (fstr ["Project initialized:"; nl;
                                        "Name: "; name; nl;
                                        "Path: "; path_str (path project); nl;
                                        "Description: ";
                                        match description with
                                        | EmptyString => "(none)"
                                        | _ => description
                                        end; nl; nl;
                                        "Folders created:"; nl; "- screenshots/"; nl;
                                        "- logs/"; nl; "- results/"]),
                        set_project (Some project) w')
                   | (Raised e, w') => (Raised e, w')
                   end).
  { unfold r, project_init, bind. by destruct (Project_create name description w) as [[?|?] ?]. }
  rewrite Hcreate in Hr. clear Hcreate.
  destruct (disk w !! project_path) as [[|d]|] eqn:Hd; rewrite Hr; clear Hr; cbv zeta;
    cbn [fst snd sent disk project clock_reads with_line set_disk set_project set_clock_reads].
  - split; [done|]. split; [done|]. split; [by eexists|]. done.
  - split; [done|]. split.
    { intros other Hother. unfold with_line.
      cbn [project disk set_disk set_project set_clock_reads path proj].
      by rewrite !lookup_insert_ne. }
    split; [done|]. intros _.
    split; [by eexists|]. split; [done|]. split; [done|]. split.
    { unfold Project_load, bind, gets, with_line.
      cbn [fst snd disk set_disk set_project set_clock_reads path proj].
      by rewrite lookup_insert_eq. }
    split.
    { unfold log_writable, with_line.
      cbn [project disk set_disk set_project set_clock_reads path proj].
      by rewrite lookup_insert_eq. }
    unfold with_line. cbn [project disk set_disk set_project set_clock_reads path proj].
    eexists. rewrite lookup_insert_eq. split; [reflexivity|].
    unfold project_log_text, advice_files, log_text. cbn [path proj]. rewrite Hd.
    split; [reflexivity|]. split; [|reflexivity].
    destruct (logs d) as [[?|]|]; reflexivity.
  - split; [done|]. split.
    { intros other Hother. unfold with_line.
      cbn [project disk set_disk set_project set_clock_reads path proj].
      by rewrite !lookup_insert_ne. }
    split; [done|]. intros _.
    split; [by eexists|]. split; [done|]. split; [done|]. split.
    { unfold Project_load, bind, gets, with_line.
      cbn [fst snd disk set_disk set_project set_clock_reads path proj].
      by rewrite lookup_insert_eq. }
    split.
    { unfold log_writable, with_line.
      cbn [project disk set_disk set_project set_clock_reads path proj].
      by rewrite lookup_insert_eq. }
    unfold with_line. cbn [project disk set_disk set_project set_clock_reads path proj].
    eexists. rewrite lookup_insert_eq. split; [reflexivity|].
    unfold project_log_text, advice_files, log_text. cbn [path proj]. rewrite Hd.
    split; [reflexivity|]. split; [|reflexivity].
    reflexivity.
Qed.

Lemma project_init_creates_witness :
  project (@project_init Sample.obliging "demo" EmptyString Sample.blank).2 = Some Sample.demo ∧
  (Project_load (path Sample.demo)
     (@project_init Sample.obliging "demo" EmptyString Sample.blank).2).1 =
    Returned Sample.demo.
Proof.
  pose proof (@project_init_creates Sample.obliging "demo" EmptyString Sample.blank eq_refl)
    as Hinit.
  cbv zeta in Hinit. destruct Hinit as (_ & _ & _ & Hnew).
  destruct Hnew as (_ & Hproject & _ & Hload & _); [done|].
  split; [exact Hproject | exact (f_equal fst Hload)].
Defined.

(** ** What the batch and SSH tools leave in the log *)

Section LogTextFacts.
Context {env : Env}.

Lemma log_line_clock w w' level message :
  clock_reads w' = clock_reads w → log_line w' level message = log_line w level message.
Proof. unfold log_line. by intros ->. Qed.

Lemma same_host_log_text p w w' :
  same_host w w' → project_log_text p w' = project_log_text p w.
Proof. intros (_ & Hdisk & _). unfold project_log_text. by rewrite Hdisk. Qed.

Lemma Project__log_text p message level w :
  project w = Some p → log_writable w = true →
  ∃ w', Project__log p message level w = (Returned tt, w') ∧
        sent w' = sent w ∧ project w' = project w ∧ log_writable w' = true ∧
        clock_reads w' = S (clock_reads w) ∧
        project_log_text p w' = project_log_text p w +:+ log_line w level message.
Proof.
  intros Hp Hw. unfold log_writable in Hw. rewrite Hp in Hw.
  destruct (disk w !! path p) as [[|d]|] eqn:Hd; try done.
  apply bool_decide_eq_true in Hw as [f Hf].
  rewrite (Project__log_eq p d f message level w Hd Hf). eexists. split; [reflexivity|].
  unfold with_line.
  split; [done|]. split; [done|]. split.
  { unfold log_writable. cbn [project disk set_disk set_clock_reads]. rewrite Hp.
    by rewrite lookup_insert_eq. }
  split; [done|].
  unfold project_log_text. cbn [disk set_disk set_clock_reads].
  rewrite lookup_insert_eq, Hd. unfold log_text. cbn [logs set_logs]. rewrite Hf.
  reflexivity.
Qed.

Lemma _log_error_text tool_name error w p :
  project w = Some p → log_writable w = true →
  ∃ w', _log_error tool_name error w = (Returned tt, w') ∧
        sent w' = sent w ∧ project w' = project w ∧ log_writable w' = true ∧
        clock_reads w' = S (clock_reads w) ∧
        project_log_text p w' =
          project_log_text p w +:+ log_line w "ERROR" (error_message tool_name error).
Proof.
  intros Hp Hw.
  destruct (Project__log_text p (error_message tool_name error) "ERROR" w Hp Hw)
    as (w' & Hlog & Hrest).
  exists w'. split; [|exact Hrest].
  unfold _log_error, _get_project_optional, bind, gets. by rewrite Hp.
Qed.

Lemma _log_tool_call_text tool_name params c rest w p :
  project w = Some p → log_writable w = true →
  ∃ w', _log_tool_call tool_name params (Some (String c rest)) w = (Returned tt, w') ∧
        sent w' = sent w ∧ project w' = project w ∧ log_writable w' = true ∧
        clock_reads w' = S (clock_reads w) ∧
        project_log_text p w' =
          project_log_text p w +:+
          log_line w "INFO" (call_message tool_name params (String c rest)).
Proof.
  intros Hp Hw.
  destruct (Project__log_text p (call_message tool_name params (String c rest)) "INFO" w Hp Hw)
    as (w' & Hlog & Hrest).
  exists w'. split; [|exact Hrest].
  unfold _log_tool_call, _get_project_optional, bind, gets. rewrite Hp.
  rewrite <- Hlog. f_equal.
  unfold call_message, tool_message, shortened. cbn [fstr foldr].
  by rewrite !append_nil_r.
Qed.

End LogTextFacts.

(** X15.  What a batch leaves in the log of the active project.  The
    elements of a batch are not logged one by one, as the single-action
    tools are.  A batch of which no element raises adds one INFO line, the
    call with the number of elements submitted and the number executed.  A
    batch whose element [k] is the first to raise adds two lines: an ERROR
    line naming the position and the kind of that element and the message
    of its exception, then the INFO line of the call, whose count is still
    the number of elements submitted while the number executed is [k]. *)
Theorem run_actions_logged {env : Env} (w : World) (p : Project) :
  project w = Some p → log_writable w = true →
  (∀ actions w' entries,
     all_succeed 0 actions w w' entries →
     let r := run_actions actions w in
     r.1 = Returned (summary entries) ∧
     project_log_text p r.2 =
       project_log_text p w +:+
       log_line w "INFO"
         (call_message "run_actions" [("count", VInt (Z.of_nat (length actions)))]
            (fstr ["executed "; pretty (length actions); " actions"]))) ∧
  (∀ pre a post w1 w2 entries e,
     all_succeed 0 pre w w1 entries →
     run_action (length pre) a (dict_get a "action" VNone) w1 = (Raised e, w2) →
     let r := run_actions (pre ++ a :: post) w in
     project_log_text p r.2 =
       project_log_text p w +:+
       log_line w "ERROR"
         (error_message "run_actions"
            (fstr ["Action "; pretty (S (length pre)); " (";
                   Val.str (dict_get a "action" VNone); "): "; exn_str e])) +:+
       log_line (later w) "INFO"
         (call_message "run_actions"
            [("count", VInt (Z.of_nat (length (pre ++ a :: post))))]
            (fstr ["executed "; pretty (S (length pre)); " actions"]))).
Proof.
  intros Hp Hw. split.
  - intros actions w' entries Hall r.
    pose proof (all_succeed_same_host _ _ _ _ _ Hall) as Hhost.
    pose proof (all_succeed_length _ _ _ _ _ Hall) as Hlen.
    assert (Hloop : run_actions_loop 0 actions [] w = (Returned entries, w')).
    { pose proof (run_actions_loop_all_succeed 0 actions [] [] w w' entries Hall) as H.
      by rewrite app_nil_r in H. }
    destruct (_log_tool_call_text "run_actions"
                [("count", VInt (Z.of_nat (length actions)))]
                "e" (fstr ["xecuted "; pretty (length entries); " actions"]) w' p)
      as (w3 & Hcall & _ & _ & _ & _ & Htext).
    { destruct Hhost as (Hproject & _). by rewrite Hproject. }
    { by rewrite (same_host_log_writable _ _ Hhost). }
    assert (Hr : r = (Returned (summary entries), w3)).
    { unfold r, run_actions. rewrite (bind_returned _ _ _ _ _ Hloop).
      by rewrite (bind_returned _ _ _ _ _ Hcall). }
    rewrite Hr. split; [done|]. cbn [snd]. rewrite Htext.
    rewrite (same_host_log_text _ _ _ Hhost).
    rewrite (log_line_clock w w') by (by destruct Hhost as (_ & _ & ?)).
    by rewrite Hlen.
  - intros pre a post w1 w2 entries e Hall Hrun r.
    pose proof (all_succeed_same_host _ _ _ _ _ Hall) as Hhost1.
    pose proof (all_succeed_length _ _ _ _ _ Hall) as Hlen.
    assert (Hhost : same_host w w2).
    { eapply same_host_trans; [exact Hhost1|].
      pose proof (run_action_same_host (length pre) a (dict_get a "action" VNone) w1) as H.
      by rewrite Hrun in H. }
    destruct (_log_error_text "run_actions"
                (fstr ["Action "; pretty (length pre + 1)%nat; " (";
                       Val.str (dict_get a "action" VNone); "): "; exn_str e]) w2 p)
      as (w3 & Herr & _ & Hproject3 & Hw3 & Hclock3 & Htext3).
    { destruct Hhost as (Hproject & _). by rewrite Hproject. }
    { by rewrite (same_host_log_writable _ _ Hhost). }
    set (results := entries ++ [error_entry (length pre) (dict_get a "action" VNone) e]).
    assert (Hloop : run_actions_loop 0 (pre ++ a :: post) [] w = (Returned results, w3)).
    { rewrite (run_actions_loop_all_succeed _ _ _ _ _ _ _ Hall).
      change (0 + length pre)%nat with (length pre). change ([] ++ entries) with entries.
      rewrite (run_actions_loop_raised _ _ _ _ _ _ _ Hrun).
      by rewrite (bind_returned _ _ _ _ _ Herr). }
    destruct (_log_tool_call_text "run_actions"
                [("count", VInt (Z.of_nat (length (pre ++ a :: post))))]
                "e" (fstr ["xecuted "; pretty (length results); " actions"]) w3 p)
      as (w4 & Hcall & _ & _ & _ & _ & Htext4).
    { destruct Hhost as (Hproject & _). by rewrite Hproject3, Hproject. }
    { exact Hw3. }
    assert (Hr : r = (Returned (summary results), w4)).
    { unfold r, run_actions. rewrite (bind_returned _ _ _ _ _ Hloop).
      by rewrite (bind_returned _ _ _ _ _ Hcall). }
    rewrite Hr. cbn [snd]. rewrite Htext4, Htext3.
    rewrite (same_host_log_text _ _ _ Hhost).
    rewrite (log_line_clock w w2) by (by destruct Hhost as (_ & _ & ?)).
    rewrite (log_line_clock (later w) w3)
      by (rewrite Hclock3; destruct Hhost as (_ & _ & ->); reflexivity).
    assert (Hk : length results = S (length pre)).
    { unfold results. rewrite length_app. simpl. lia. }
    rewrite Hk. replace (length pre + 1)%nat with (S (length pre)) by lia.
    by rewrite append_assoc.
Qed.

Lemma run_actions_logged_witness :
  project_log_text Sample.demo
    (@run_actions Sample.obliging [Sample.press_ctrl_l; Sample.type_hi]
       (Sample.working None)).2 =
    "[2024-05-17 12:00:00] [INFO] TOOL: run_actions(count=2) -> executed 2 actions" +:+ nl.
Proof.
  destruct (@run_actions_logged Sample.obliging (Sample.working None) Sample.demo
              eq_refl eq_refl) as (Hall & _).
  edestruct (Hall [Sample.press_ctrl_l; Sample.type_hi]) as (_ & Htext).
  - eapply all_succeed_cons; [vm_compute; reflexivity|].
    eapply all_succeed_cons; [vm_compute; reflexivity|]. apply all_succeed_nil.
  - rewrite Htext. vm_compute. reflexivity.
Defined.

(** X16.  What [ssh_execute] leaves in the log of the active project, when
    the log can be written.  A command that exits with status 0 adds one
    INFO line, the call with the result success; one that exits with
    another status adds the INFO line of the call with exit_code= and the
    status, then an ERROR line saying that the command failed with that
    status; a command for which the session raises adds one ERROR line with
    the message of the exception, and no line for the call. *)
Theorem ssh_execute_logged {env : Env} (command : string) (w : World) (p : Project) :
  project w = Some p → log_writable w = true →
  let r := ssh_execute command w in
  let call := call_message "ssh_execute" [("command", VStr command)] in
  project_log_text p r.2 =
    project_log_text p w +:+
    match remote (sent w) command with
    | Raised e => log_line w "ERROR" (error_message "ssh_execute" (exn_str e))
    | Returned result =>
        if decide (returncode result = 0) then log_line w "INFO" (call "success")
        else
          log_line w "INFO" (call (fstr ["exit_code="; Py.str_int (returncode result)])) +:+
          log_line (later w) "ERROR"
            (error_message "ssh_execute"
               (fstr ["Command failed with exit code "; Py.str_int (returncode result)]))
    end.
Proof.
  intros Hp Hw r call.
  set (w1 := set_sent (sent w ++ [command]) w).
  assert (Hp1 : project w1 = Some p) by done.
  assert (Hw1 : log_writable w1 = true) by done.
  assert (Htext1 : project_log_text p w1 = project_log_text p w) by done.
  assert (Hline1 : ∀ level message, log_line w1 level message = log_line w level message)
    by done.
  unfold r, ssh_execute, try_except. unfold bind at 1. unfold ssh_run. fold w1.
  destruct (remote (sent w) command) as [result|e]; cbn [andb].
  - destruct (decide (returncode result = 0)) as [Hz|Hnz].
    + destruct (_log_tool_call_text "ssh_execute" [("command", VStr command)]
                  "s" "uccess" w1 p Hp1 Hw1) as (w2 & Hcall & _ & _ & _ & _ & Htext2).
      unfold bind at 1. rewrite (bind_returned _ _ _ _ _ Hcall). unfold ret. cbn [fst snd].
      by rewrite Htext2, Htext1, Hline1.
    + destruct (_log_tool_call_text "ssh_execute" [("command", VStr command)]
                  "e" (fstr ["xit_code="; Py.str_int (returncode result)]) w1 p Hp1 Hw1)
        as (w2 & Hcall & _ & Hp2 & Hw2 & Hclock2 & Htext2).
      destruct (_log_error_text "ssh_execute"
                  (fstr ["Command failed with exit code "; Py.str_int (returncode result)])
                  w2 p) as (w3 & Herr & _ & _ & _ & _ & Htext3); [congruence | done |].
      unfold bind at 1. rewrite (bind_returned _ _ _ _ _ Hcall).
      rewrite (bind_returned _ _ _ _ _ Herr). unfold ret. cbn [fst snd].
      rewrite Htext3, Htext2, Htext1, Hline1.
      rewrite (log_line_clock (later w) w2) by (by rewrite Hclock2).
      by rewrite append_assoc.
  - destruct (_log_error_text "ssh_execute" (exn_str e) w1 p Hp1 Hw1)
      as (w2 & Herr & _ & _ & _ & _ & Htext2).
    rewrite (bind_returned _ _ _ _ _ Herr). unfold ret. cbn [fst snd].
    by rewrite Htext2, Htext1, Hline1.
Qed.

Lemma ssh_execute_logged_witness :
  project_log_text Sample.demo
    (@ssh_execute Sample.keyless "xdotool key ctrl+l" (Sample.working None)).2 =
    fstr ["[2024-05-17 12:00:00] [INFO] TOOL: ssh_execute(command=xdotool key ctrl+l)";
          " -> exit_code=1"; nl;
          "[2024-05-17 12:00:00] [ERROR] ERROR in ssh_execute: ";
          "Command failed with exit code 1"; nl].
Proof.
  rewrite (@ssh_execute_logged Sample.keyless "xdotool key ctrl+l" (Sample.working None)
             Sample.demo eq_refl eq_refl).
  vm_compute. reflexivity.
Defined.

(** ** The body of a note *)

Section BodyFacts.

Lemma read_text_first_line (a b : string) :
  first_line a = a → Py.read_text (a +:+ b) = a +:+ Py.read_text b.
Proof.
  induction a as [|c a IH]; [done|]. cbn [first_line].
  destruct (decide (c = Py.nl)) as [|Hnl]; [done|].
  destruct (decide (c = Py.cr)) as [|Hcr]; [done|].
  intros [= Ha]. rewrite !append_cons. cbn [Py.read_text].
  rewrite (decide_False (P := c = Py.cr)) by done. by rewrite IH.
Qed.

Lemma before_of_first_line (a : string) : first_line a = a → before Py.nl a = a.
Proof.
  induction a as [|c a IH]; [done|]. cbn [first_line before].
  destruct (decide (c = Py.nl)) as [|Hnl]; [done|].
  destruct (decide (c = Py.cr)) as [|Hcr]; [done|].
  intros [= Ha]. by rewrite IH.
Qed.

(** A final newline is read as such, or as the end of a final "\r\n". *)
Lemma read_text_snoc_nl (n : nat) (c : string) :
  (String.length c ≤ n)%nat →
  Py.read_text (c +:+ String Py.nl EmptyString) = Py.read_text c +:+ String Py.nl EmptyString ∨
  Py.read_text (c +:+ String Py.nl EmptyString) = Py.read_text c.
Proof.
  revert c. induction n as [|n IH]; intros c Hlen.
  - destruct c; [by left | simpl in Hlen; lia].
  - destruct c as [|x s]; [by left|]. cbn [String.length] in Hlen.
    rewrite append_cons. cbn [Py.read_text].
    destruct (decide (x = Py.cr)) as [->|Hx].
    + destruct s as [|d s'']; [by right|]. rewrite append_cons.
      destruct (decide (d = Py.nl)) as [->|Hd].
      * destruct (IH s'') as [H|H]; [cbn [String.length] in Hlen; lia|..]; rewrite H.
        -- by left.
        -- by right.
      * rewrite <- append_cons.
        destruct (IH (String d s'')) as [H|H]; [lia|..]; rewrite H.
        -- by left.
        -- by right.
    + destruct (IH s) as [H|H]; [lia|..]; rewrite H.
      * by left.
      * by right.
Qed.

Lemma strip_append_space (a b : string) :
  all_chars Py.isspace b = true → Py.strip (a +:+ b) = Py.strip a.
Proof.
  intros Hb. unfold Py.strip. rewrite <- !lstrip_rstrip_comm.
  by rewrite rstrip_by_append, Hb.
Qed.

Lemma strip_read_text_snoc_nl (c : string) :
  Py.strip (Py.read_text (c +:+ String Py.nl EmptyString)) = Py.strip (Py.read_text c).
Proof.
  destruct (read_text_snoc_nl (String.length c) c) as [-> | ->]; [done| |done].
  by apply strip_append_space.
Qed.

Lemma split_no_sep (c : ascii) (s : string) : before c s = s → Py.split c s = [s].
Proof.
  induction s as [|x s IH]; [done|]. cbn [before Py.split].
  destruct (decide (x = c)) as [|Hx]; [done|]. intros [= Hs]. by rewrite (IH Hs).
Qed.

Lemma split_append_sep (c : ascii) (a b : string) :
  before c a = a → Py.split c (a +:+ String c b) = a :: Py.split c b.
Proof.
  induction a as [|x a IH].
  - intros _. rewrite append_nil_l. cbn [Py.split]. by rewrite decide_True.
  - cbn [before]. destruct (decide (x = c)) as [|Hx]; [done|]. intros [= Ha].
    rewrite append_cons. cbn [Py.split]. rewrite (decide_False (P := x = c)) by done.
    by rewrite (IH Ha).
Qed.

Lemma join_split (c : ascii) (s : string) :
  Py.join (String c EmptyString) (Py.split c s) = s.
Proof.
  induction s as [|x s IH]; [done|]. cbn [Py.split].
  destruct (Py.split c s) as [|h t] eqn:Hsplit; [by destruct (split_not_nil c s)|].
  destruct (decide (x = c)) as [->|Hx].
  - change (Py.join (String c EmptyString) (EmptyString :: h :: t))
      with (EmptyString +:+ String c EmptyString +:+ Py.join (String c EmptyString) (h :: t)).
    by rewrite IH.
  - destruct t as [|t1 t'].
    + cbn [Py.join] in *. by rewrite IH.
    + change (Py.join (String c EmptyString) (String x h :: t1 :: t'))
        with (String x h +:+ String c EmptyString +:+
              Py.join (String c EmptyString) (t1 :: t')).
      rewrite append_cons. f_equal. exact IH.
Qed.

Lemma read_advice_file_content (filename t body : string) :
  first_line t = t →
  content (read_advice_file filename (fstr ["# "; t; nl; nl; body; nl])) =
    Py.strip (Py.read_text body).
Proof.
  intros Ht.
  set (T := "# " +:+ t).
  assert (HT : first_line T = T).
  { unfold T. rewrite !append_cons, append_nil_l. cbn [first_line].
    rewrite !decide_False by done. by rewrite Ht. }
  set (X := Py.read_text (body +:+ String Py.nl EmptyString)).
  assert (Hcontent : Py.read_text (fstr ["# "; t; nl; nl; body; nl]) =
                     T +:+ String Py.nl (String Py.nl X)).
  { cbn [fstr foldr]. rewrite append_nil_r.
    change ("# " +:+ t +:+ nl +:+ nl +:+ body +:+ nl)
      with ("# " +:+ (t +:+ String Py.nl (String Py.nl (body +:+ String Py.nl EmptyString)))).
    rewrite <- append_assoc. fold T. by rewrite (read_text_first_line _ _ HT). }
  assert (Hstrip : Py.strip (T +:+ String Py.nl (String Py.nl X)) =
                   Py.rstrip_by Py.isspace (T +:+ String Py.nl (String Py.nl X))).
  { unfold T. by rewrite !append_cons, append_nil_l. }
  unfold read_advice_file. cbv zeta. cbn [content]. rewrite Hcontent, Hstrip.
  rewrite rstrip_by_append.
  destruct (all_chars Py.isspace X) eqn:HX.
  - assert (Hall : all_chars Py.isspace (String Py.nl (String Py.nl X)) = true) by done.
    rewrite Hall. rewrite split_no_sep
      by (apply before_rstrip_by, before_of_first_line, HT).
    cbn [length]. rewrite bool_decide_eq_false_2 by lia.
    rewrite <- strip_read_text_snoc_nl. fold X. by rewrite strip_all_space.
  - assert (Hall1 : all_chars Py.isspace (String Py.nl X) = false) by done.
    assert (Hall2 : all_chars Py.isspace (String Py.nl (String Py.nl X)) = false) by done.
    rewrite Hall2, (rstrip_by_not_all _ _ _ Hall2), (rstrip_by_not_all _ _ _ Hall1).
    rewrite (split_append_sep _ _ _ (before_of_first_line _ HT)).
    change (Py.split Py.nl (String Py.nl (Py.rstrip_by Py.isspace X)))
      with (EmptyString :: Py.split Py.nl (Py.rstrip_by Py.isspace X)).
    destruct (Py.split Py.nl (Py.rstrip_by Py.isspace X)) as [|h rest] eqn:Hsplit;
      [by destruct (split_not_nil Py.nl (Py.rstrip_by Py.isspace X))|].
    rewrite bool_decide_eq_true_2 by (simpl; lia).
    cbn [drop]. rewrite <- Hsplit. unfold nl, Py.str1. rewrite join_split, strip_rstrip.
    apply strip_read_text_snoc_nl.
Qed.

End BodyFacts.

(** X17.  A note comes back as it was saved, up to white space and line
    ends.  For a title of one line, the entry that [get_all_advice] reads
    from the file [save_advice] wrote has the file's name, the title
    without the "#" and the spaces at its start and without white space at
    its ends, and as content the saved content with its line ends read as
    "\n" and without white space at its ends, however many lines it has.  So
    a title and a content that have no such characters to lose are read
    back unchanged. *)
Theorem advice_note_round_trip {env : Env} (self : Project) (w : World) (d : ProjectDir)
    (files : gmap string string) (t body : string) :
  disk w !! path self = Some (Dir d) →
  advice d = Some files →
  first_line t = t →
  let r := Project_save_advice self t body w in
  ∃ notes,
    Project_get_all_advice self r.2 = (Returned notes, r.2) ∧
    {| title := Py.strip (Py.lstrip "# " t); content := Py.strip (Py.read_text body);
       file := advice_filename w t |} ∈ notes ∧
    (Py.strip (Py.lstrip "# " t) = t → Py.read_text body = body → Py.strip body = body →
     {| title := t; content := body; file := advice_filename w t |} ∈ notes).
Proof.
  intros Hd Hfiles Ht r.
  destruct (Project_save_advice_disk self t body w d files Hd Hfiles)
    as [(d' & Hd' & Hfiles') _].
  fold r in Hd'.
  set (text := fstr ["# "; t; nl; nl; body; nl]) in *.
  assert (Hnote : read_advice_file (advice_filename w t) text =
                  {| title := Py.strip (Py.lstrip "# " t);
                     content := Py.strip (Py.read_text body);
                     file := advice_filename w t |}).
  { pose proof (read_advice_file_title (advice_filename w t) t body) as Htitle.
    pose proof (read_advice_file_content (advice_filename w t) t body Ht) as Hcontent.
    fold text in Htitle, Hcontent. rewrite Ht in Htitle.
    rewrite <- Htitle, <- Hcontent. reflexivity. }
  eexists. split; [by apply (Project_get_all_advice_files _ _ _ _ Hd' Hfiles')|].
  assert (Hin : {| title := Py.strip (Py.lstrip "# " t);
                   content := Py.strip (Py.read_text body);
                   file := advice_filename w t |} ∈
                map (λ kv, read_advice_file kv.1 kv.2)
                  (sorted_md (<[advice_filename w t := text]> files))).
  { rewrite <- Hnote.
    apply (list_elem_of_fmap_2 (λ kv, read_advice_file kv.1 kv.2) _ (advice_filename w t, text)).
    apply sorted_md_elem_of; [by rewrite lookup_insert_eq | apply advice_filename_md]. }
  split; [exact Hin|].
  intros Htitle Hcr Hstrip. by rewrite Htitle, Hcr, Hstrip in Hin.
Qed.

Lemma advice_note_round_trip_witness :
  ∃ notes,
    (Project_get_all_advice Sample.demo
       (@Project_save_advice Sample.obliging Sample.demo "Focus"
          (fstr ["click first"; nl; nl; "then type"]) (Sample.working None)).2).1 =
      Returned notes ∧
    {| title := "Focus"; content := fstr ["click first"; nl; nl; "then type"];
       file := "20240517-120000_Focus.md" |} ∈ notes.
Proof.
  destruct (@advice_note_round_trip Sample.obliging Sample.demo (Sample.working None)
              _ _ "Focus" (fstr ["click first"; nl; nl; "then type"])
              eq_refl eq_refl eq_refl) as (notes & Hnotes & _ & Hsame).
  exists notes. split; [by rewrite Hnotes|]. by apply Hsame.
Defined.

(** ** project_init and project_list *)

(** X18.  A project that [project_init] has created is listed: after a
    call that returns, [project_list] shows the line of the new project,
    with the name and the creation stamp as given and the path of its
    directory, so its directory is not reported as invalid. *)
Theorem project_init_listed {env : Env} (name description : string) (w : World) :
  plain_name name = true →
  let stamp := strftime_compact (utcnow_at (clock_reads w)) in
  let project_path := fstr [stamp; "_"; name] in
  let r := project_init name description w in
  disk w !! project_path ≠ Some File →
  ∃ lines,
    project_list r.2 = (Returned (fstr ["Projects:"; nl] +:+ Py.join nl lines), r.2) ∧
    fstr ["- "; name; " ("; stamp; "): "; path_str project_path] ∈ lines.
Proof.
  intros _ stamp project_path r Hfile.
  set (proj := {| name := VStr name; path := project_path;
                  created_at := VStr stamp; description := VStr description |}).
  assert (Hdir : ∃ d', disk r.2 !! project_path = Some (Dir d') ∧
                       metadata_json d' = Some (Json (metadata_of proj))).
  { unfold r. rewrite project_init_world.
    pose proof (Project_create_eq name description w) as Hcreate.
    cbv zeta in Hcreate. fold stamp in Hcreate. fold project_path in Hcreate.
    fold proj in Hcreate. rewrite Hcreate.
    destruct (disk w !! project_path) as [[|d]|]; [done|..]; unfold with_line;
      cbn [snd disk set_disk set_project set_clock_reads path proj];
      eexists; rewrite lookup_insert_eq; by split. }
  destruct Hdir as (d' & Hd' & Hmeta).
  assert (Hline : listing_line r.2 project_path =
                  fstr ["- "; name; " ("; stamp; "): "; path_str project_path]).
  { unfold listing_line, Project_load, bind, gets. cbn [fst]. by rewrite Hd', Hmeta. }
  set (shown := List.filter (λ x, has_metadata (disk r.2 !! x))
                  (sorted_reverse (map_to_list (disk r.2)).*1)).
  assert (Hshown : project_path ∈ shown).
  { unfold shown. apply list_elem_of_In, filter_In. split.
    - apply list_elem_of_In. unfold sorted_reverse. rewrite merge_sort_Permutation.
      apply list_elem_of_fmap. exists (project_path, Dir d'). split; [done|].
      by apply elem_of_map_to_list.
    - rewrite Hd'. cbn [has_metadata]. rewrite Hmeta. by apply bool_decide_eq_true. }
  exists (map (listing_line r.2) shown). split.
  - rewrite project_list_eq. fold shown. unfold listing.
    destruct (map (listing_line r.2) shown) eqn:Hmap; [|done].
    apply (f_equal length) in Hmap. rewrite length_map in Hmap.
    destruct shown; [by apply elem_of_nil in Hshown | done].
  - rewrite <- Hline. by apply list_elem_of_fmap_2.
Qed.

Lemma project_init_listed_witness :
  ∃ lines,
    (project_list (@project_init Sample.obliging "demo" EmptyString Sample.blank).2).1 =
      Returned (fstr ["Projects:"; nl] +:+ Py.join nl lines) ∧
    "- demo (20240517-120000): data/projects/20240517-120000_demo" ∈ lines.
Proof.
  destruct (@project_init_listed Sample.obliging "demo" EmptyString Sample.blank eq_refl)
    as (lines & Hlist & Hline); [done|].
  exists lines. split; [by rewrite Hlist | exact Hline].
Defined.

(** ** From project_log to project_read_logs *)

Section EntryFacts.
Context {env : Env}.

Lemma one_line_cons (c : ascii) (s : string) :
  c ≠ Py.nl → c ≠ Py.cr → one_line s → one_line (String c s).
Proof.
  intros Hnl Hcr Hs. unfold one_line in *. cbn [first_line].
  rewrite !decide_False by done. by rewrite Hs.
Qed.

Lemma one_line_append (a b : string) : one_line a → one_line b → one_line (a +:+ b).
Proof.
  unfold one_line. induction a as [|c a IH]; [done|]. cbn [first_line].
  destruct (decide (c = Py.nl)) as [|Hnl]; [done|].
  destruct (decide (c = Py.cr)) as [|Hcr]; [done|].
  intros [= Ha] Hb. rewrite append_cons. cbn [first_line].
  rewrite !decide_False by done. by rewrite IH.
Qed.

Lemma one_line_fstr (pieces : list string) : Forall one_line pieces → one_line (fstr pieces).
Proof.
  induction 1 as [|piece pieces Hpiece _ IH]; [done|]. cbn [fstr foldr].
  by apply one_line_append.
Qed.

Lemma one_line_pretty_N_go (x : N) (s : string) : one_line s → one_line (pretty_N_go x s).
Proof.
  revert s. induction (N.lt_wf_0 x) as [x _ IH]; intros s Hs.
  assert (x = 0 ∨ 0 < x)%N as [->|Hx] by lia.
  - by rewrite pretty_N_go_0.
  - rewrite pretty_N_go_step by done. apply IH.
    { by apply N.div_lt. }
    apply one_line_cons; [..|done]; unfold pretty_N_char; by repeat case_match.
Qed.

Lemma one_line_pretty_nat (n : nat) : one_line (pretty n).
Proof.
  unfold pretty, pretty_nat, pretty, pretty_N. case_decide; [done|].
  by apply one_line_pretty_N_go.
Qed.

Lemma one_line_zero_padded (width n : nat) : one_line (zero_padded width n).
Proof.
  unfold zero_padded. apply one_line_append; [|apply one_line_pretty_nat].
  apply one_line_fstr. induction (width - String.length (pretty n))%nat as [|k IH]; [done|].
  by constructor.
Qed.

Lemma one_line_strftime_log (t : datetime) : one_line (strftime_log t).
Proof.
  apply one_line_fstr. repeat (constructor; [first [apply one_line_zero_padded | done]|]).
  constructor.
Qed.

Lemma one_line_log_entry w level message :
  one_line level → one_line message → one_line (log_entry w level message).
Proof.
  intros Hlevel Hmessage. apply one_line_fstr.
  repeat (constructor; [first [apply one_line_strftime_log | assumption | done]|]).
  constructor.
Qed.

Lemma log_line_entry w level message :
  log_line w level message = log_entry w level message +:+ String Py.nl EmptyString.
Proof.
  unfold log_line, log_entry. cbn [fstr foldr]. by rewrite !append_nil_r, !append_assoc.
Qed.

(** Reading goes through a text piece by piece, where the next piece does
    not begin with "\n". *)
Lemma read_text_append (n : nat) (a : string) (c : ascii) (b : string) :
  (String.length a ≤ n)%nat → c ≠ Py.nl →
  Py.read_text (a +:+ String c b) = Py.read_text a +:+ Py.read_text (String c b).
Proof.
  intros Hlen Hc. revert a Hlen. induction n as [|n IH]; intros a Hlen.
  - destruct a; [done | simpl in Hlen; lia].
  - destruct a as [|x s]; [done|]. cbn [String.length] in Hlen.
    rewrite append_cons. cbn [Py.read_text].
    destruct (decide (x = Py.cr)) as [->|Hx].
    + destruct s as [|d s''].
      * rewrite append_nil_l. rewrite (decide_False (P := c = Py.nl)) by done.
        by rewrite !append_cons, append_nil_l.
      * rewrite append_cons. destruct (decide (d = Py.nl)) as [->|Hd].
        -- rewrite IH by (cbn [String.length] in Hlen; lia). by rewrite append_cons.
        -- rewrite <- append_cons, IH by lia. by rewrite append_cons.
    + rewrite IH by lia. by rewrite append_cons.
Qed.

(** What ends with a newline is read as something that ends with a newline. *)
Lemma read_text_ends_nl (n : nat) (a : string) :
  (String.length a ≤ n)%nat →
  ∃ x, Py.read_text (a +:+ String Py.nl EmptyString) = x +:+ String Py.nl EmptyString.
Proof.
  revert a. induction n as [|n IH]; intros a Hlen.
  - destruct a; [by exists EmptyString | simpl in Hlen; lia].
  - destruct a as [|x s]; [by exists EmptyString|]. cbn [String.length] in Hlen.
    rewrite append_cons. cbn [Py.read_text].
    destruct (decide (x = Py.cr)) as [->|Hx].
    + destruct s as [|d s'']; [by exists EmptyString|]. rewrite append_cons.
      destruct (decide (d = Py.nl)) as [->|Hd].
      * destruct (IH s'') as [y ->]; [cbn [String.length] in Hlen; lia|].
        by exists (String Py.nl y).
      * rewrite <- append_cons. destruct (IH (String d s'')) as [y ->]; [lia|].
        by exists (String Py.nl y).
    + destruct (IH s) as [y ->]; [lia|]. by exists (String x y).
Qed.

Lemma lstrip_by_append_stop (f : ascii → bool) (a : string) (c : ascii) (b : string) :
  f c = false → Py.lstrip_by f (a +:+ String c b) = Py.lstrip_by f a +:+ String c b.
Proof.
  intros Hc. induction a as [|x a IH].
  - rewrite append_nil_l. cbn [Py.lstrip_by]. by rewrite Hc.
  - rewrite append_cons. cbn [Py.lstrip_by]. destruct (f x); [exact IH|].
    by rewrite append_cons.
Qed.

Lemma lstrip_by_ends (f : ascii → bool) (a : string) (c : ascii) :
  Py.lstrip_by f (a +:+ String c EmptyString) = EmptyString ∨
  ∃ y, Py.lstrip_by f (a +:+ String c EmptyString) = y +:+ String c EmptyString.
Proof.
  induction a as [|x a IH].
  - rewrite append_nil_l. cbn [Py.lstrip_by]. destruct (f c); [by left|].
    right. by exists EmptyString.
  - rewrite append_cons. cbn [Py.lstrip_by]. destruct (f x); [exact IH|].
    right. by exists (String x a).
Qed.

Lemma split_append (c : ascii) (a b : string) :
  Py.split c (a +:+ String c b) = Py.split c a ++ Py.split c b.
Proof.
  induction a as [|x a IH].
  - rewrite append_nil_l. cbn [Py.split]. by rewrite decide_True.
  - rewrite append_cons. cbn [Py.split]. destruct (decide (x = c)) as [|Hx].
    + by rewrite IH.
    + rewrite IH. destruct (Py.split c a) as [|h t] eqn:Hsplit;
        [by destruct (split_not_nil c a)|].
      reflexivity.
Qed.

(** The lines of a log that ends with an entry of one line. *)
Lemma log_lines_entry (old entry : string) (c : ascii) (rest : string) :
  old = EmptyString ∨ (∃ o, old = o +:+ String Py.nl EmptyString) →
  entry = String c rest → Py.isspace c = false → c ≠ Py.nl → one_line entry →
  ∃ earlier,
    log_lines (Py.read_text (old +:+ entry +:+ String Py.nl EmptyString)) =
      earlier ++ [Py.rstrip_by Py.isspace entry].
Proof.
  intros Hold -> Hc Hnl Hentry.
  set (entry := String c rest) in *.
  set (B := Py.rstrip_by Py.isspace entry).
  assert (Hread_entry : Py.read_text (entry +:+ String Py.nl EmptyString) =
                        entry +:+ String Py.nl EmptyString).
  { by rewrite (read_text_first_line _ _ Hentry). }
  assert (Hnot_all : all_chars Py.isspace entry = false).
  { unfold entry. cbn [all_chars]. by rewrite Hc. }
  assert (HB : B = String c (Py.rstrip_by Py.isspace rest)).
  { unfold B, entry. by rewrite rstrip_by_not_all. }
  assert (HB_line : before Py.nl B = B).
  { unfold B. apply before_rstrip_by, before_of_first_line, Hentry. }
  assert (Hread : ∃ P, Py.read_text (old +:+ entry +:+ String Py.nl EmptyString) =
                       P +:+ entry +:+ String Py.nl EmptyString ∧
                       (P = EmptyString ∨ ∃ x, P = x +:+ String Py.nl EmptyString)).
  { destruct Hold as [->|[o ->]].
    - exists EmptyString. rewrite !append_nil_l. split; [exact Hread_entry | by left].
    - destruct (read_text_ends_nl (String.length o) o) as [x Hx]; [done|].
      exists (x +:+ String Py.nl EmptyString). split; [|right; by exists x].
      unfold entry at 1. rewrite append_cons.
      rewrite (read_text_append (String.length (o +:+ String Py.nl EmptyString))) by done.
      rewrite Hx, <- append_cons. fold entry.
      by rewrite Hread_entry. }
  destruct Hread as (P & -> & HP).
  assert (Hstrip : Py.strip (P +:+ entry +:+ String Py.nl EmptyString) =
                   Py.lstrip_by Py.isspace P +:+ B).
  { unfold Py.strip. rewrite <- lstrip_rstrip_comm.
    rewrite rstrip_by_append, all_chars_append, Hnot_all. cbn [andb].
    rewrite rstrip_by_append. cbn [all_chars]. fold B.
    replace (Py.isspace Py.nl && true) with true by done.
    rewrite HB. by apply lstrip_by_append_stop. }
  unfold log_lines. rewrite Hstrip.
  destruct HP as [->|[x ->]].
  - exists []. cbn [Py.lstrip_by]. rewrite append_nil_l. by apply split_no_sep.
  - destruct (lstrip_by_ends Py.isspace x Py.nl) as [-> | [y ->]].
    + exists []. rewrite append_nil_l. by apply split_no_sep.
    + exists (Py.split Py.nl y). rewrite append_assoc, append_cons, append_nil_l.
      rewrite split_append. by rewrite (split_no_sep _ _ HB_line).
Qed.

Lemma recent_snoc (lines : Z) (earlier : list string) (entry : string) :
  1 ≤ lines → ∃ shown, recent lines (earlier ++ [entry]) = shown ++ [entry].
Proof.
  intros Hlines. rewrite recent_last_n by done. unfold last_n.
  rewrite length_app. cbn [length].
  set (j := (length earlier + 1 -
             Z.to_nat (Z.min lines (Z.of_nat (length earlier + 1)%nat)))%nat).
  assert (Hj : (j ≤ length earlier)%nat) by (unfold j; lia).
  exists (drop j earlier). by rewrite drop_app_le.
Qed.

End EntryFacts.

(** X19.  What [project_log] writes, [project_read_logs] shows.  With a
    project active whose log is empty or ends with a newline, and a level
    and a message of one line each, [project_log] returns its
    confirmation, and [project_read_logs] called next with any limit of at
    least 1 and no filter shows as its last line the entry just written:
    the time stamp, the level as it was given, and the message, without
    white space at the end. *)
Theorem project_log_round_trip {env : Env} (message level : string) (lines : Z)
    (w : World) (p : Project) :
  project w = Some p → log_writable w = true →
  one_line level → one_line message →
  project_log_text p w = EmptyString ∨ (∃ o, project_log_text p w = o +:+ nl) →
  1 ≤ lines →
  let r := project_log message level w in
  let entry := Py.rstrip_by Py.isspace (log_entry w level message) in
  r.1 = Returned (fstr ["Logged: ["; level; "] "; message]) ∧
  ∃ shown earlier,
    project_read_logs lines EmptyString r.2 =
      (Returned (log_report EmptyString (shown ++ [entry]) (earlier ++ [entry])), r.2).
Proof.
  intros Hp Hw Hlevel Hmessage Hold Hlines r entry.
  destruct (Project__log_text p message level w Hp Hw)
    as (w' & Hlog & _ & Hp' & Hw' & _ & Htext).
  assert (Hr : r = (Returned (fstr ["Logged: ["; level; "] "; message]), w')).
  { unfold r, project_log, _get_project, Project_log, bind, gets. rewrite Hp.
    unfold ret at 1. by rewrite Hlog. }
  rewrite Hr. cbn [fst snd]. split; [done|].
  rewrite Hp in Hp'.
  assert (Hread : read_log p w' =
                  Some (Py.read_text (project_log_text p w +:+ log_entry w level message
                                      +:+ String Py.nl EmptyString))).
  { rewrite log_line_entry in Htext. unfold project_log_text at 1 in Htext.
    unfold log_text in Htext. unfold read_log.
    unfold log_writable in Hw'. rewrite Hp' in Hw'.
    destruct (disk w' !! path p) as [[|d]|]; try done.
    apply bool_decide_eq_true in Hw' as [f Hf]. rewrite Hf in Htext. rewrite Hf.
    destruct f as [text|].
    - by rewrite <- Htext.
    - exfalso. change (EmptyString = project_log_text p w +:+ log_entry w level message
                                     +:+ String Py.nl EmptyString) in Htext.
      destruct (project_log_text p w).
      + rewrite append_nil_l in Htext.
        destruct (log_entry w level message); by rewrite ?append_cons, ?append_nil_l in Htext.
      + by rewrite append_cons in Htext. }
  assert (Hentry : ∃ rest, log_entry w level message = String "["%char rest).
  { unfold log_entry. cbn [fstr foldr]. rewrite append_cons. by eexists. }
  destruct Hentry as [rest Hentry].
  destruct (log_lines_entry (project_log_text p w) (log_entry w level message) "["%char rest)
    as [earlier Hlines_eq]; [exact Hold | exact Hentry | done | done | |].
  { by apply one_line_log_entry. }
  destruct (recent_snoc lines earlier entry Hlines) as [shown Hshown].
  exists shown, earlier.
  rewrite (project_read_logs_eq _ _ _ _ Hp'), Hread. cbv zeta.
  cbn [filter_level]. fold entry in Hlines_eq. by rewrite Hlines_eq, Hshown.
Qed.

Lemma project_log_round_trip_witness :
  ∃ shown earlier,
    (project_read_logs 50 EmptyString
       (@project_log Sample.obliging "ready" "INFO" (Sample.working None)).2).1 =
      Returned (log_report EmptyString
                  (shown ++ ["[2024-05-17 12:00:00] [INFO] ready"])
                  (earlier ++ ["[2024-05-17 12:00:00] [INFO] ready"])).
Proof.
  destruct (@project_log_round_trip Sample.obliging "ready" "INFO" 50 (Sample.working None)
              Sample.demo eq_refl eq_refl eq_refl eq_refl)
    as (_ & shown & earlier & Hshown); [by left | lia |].
  exists shown, earlier. by rewrite Hshown.
Defined.

(** ** The length of a logged call *)

Section BoundFacts.

Lemma length_append (a b : string) :
  String.length (a +:+ b) = (String.length a + String.length b)%nat.
Proof. induction a as [|c a IH]; [done|]. rewrite append_cons. cbn [String.length]. by rewrite IH. Qed.

Lemma param_str_length (kv : string * pyval) :
  (String.length (param_str kv) ≤ String.length kv.1 + 104)%nat.
Proof.
  unfold param_str. cbn [fstr foldr]. rewrite !length_append. cbn [String.length].
  destruct (100 <? Py.len (Val.str kv.2)) eqn:Hlong.
  - rewrite length_append, take_length. cbn [String.length]. lia.
  - apply Z.ltb_ge in Hlong. unfold Py.len in Hlong. lia.
Qed.

Lemma join_length (sep : string) (parts : list string) :
  (String.length (Py.join sep parts) ≤
   sum_list ((λ part, String.length part + String.length sep) <$> parts))%nat.
Proof.
  induction parts as [|part parts IH]; [done|]. rewrite fmap_cons.
  cbn [sum_list sum_list_with]. unfold id at 1.
  destruct parts as [|part' parts'].
  - cbn [Py.join]. lia.
  - change (Py.join sep (part :: part' :: parts'))
      with (part +:+ sep +:+ Py.join sep (part' :: parts')).
    rewrite !length_append. lia.
Qed.

Lemma tool_message_length (tool_name : string) (params : list (string * pyval)) :
  (String.length (tool_message tool_name params) ≤
   8 + String.length tool_name +
   sum_list ((λ kv, String.length kv.1 + 106) <$> params))%nat.
Proof.
  unfold tool_message. cbn [fstr foldr]. rewrite !length_append. cbn [String.length].
  assert (Hsum : (sum_list ((λ part, String.length part + String.length ", ") <$>
                            map param_str params) ≤
                  sum_list ((λ kv, String.length kv.1 + 106) <$> params))%nat).
  { clear tool_name. induction params as [|kv params IH]; [done|]. cbn [map].
    rewrite !fmap_cons. cbn [sum_list sum_list_with]. unfold id at 1 3.
    pose proof (param_str_length kv). cbn [String.length] in *. lia. }
  pose proof (join_length ", " (map param_str params)) as Hjoin.
  cbn [String.length] in *. lia.
Qed.

End BoundFacts.

(** X20.  A logged call has a bounded length, whatever the size of the
    values passed: each parameter value is cut after 100 characters and the
    result after 200, so the message of the INFO line that
    [_log_tool_call] appends is no longer than the tool's name, the names
    of the parameters and a constant for each of them allow. *)
Theorem tool_call_line_bounded {env : Env} (tool_name : string)
    (params : list (string * pyval)) (result : option string) (w : World) (p : Project) :
  project w = Some p → log_writable w = true →
  ∃ message,
    project_log_text p (_log_tool_call tool_name params result w).2 =
      project_log_text p w +:+ log_line w "INFO" message ∧
    (String.length message ≤
     215 + String.length tool_name +
     sum_list ((λ kv, String.length kv.1 + 106) <$> params))%nat.
Proof.
  intros Hp Hw. unfold _log_tool_call, _get_project_optional, bind, gets. rewrite Hp.
  match goal with
  | |- context [Project__log p ?msg "INFO" w] =>
      destruct (Project__log_text p msg "INFO" w Hp Hw) as (w' & -> & _ & _ & _ & _ & Htext);
      exists msg
  end.
  split; [exact Htext|].
  pose proof (tool_message_length tool_name params) as Hcall.
  destruct result as [[|c rest]|]; fold (tool_message tool_name params); [lia| |lia].
  rewrite length_append.
  cbn [fstr foldr]. rewrite !length_append. cbn [String.length].
  destruct (Py.len (String c rest) <=? 200) eqn:Hshort.
  - apply Z.leb_le in Hshort. unfold Py.len in Hshort. cbn [String.length] in *. lia.
  - rewrite length_append, take_length. cbn [String.length]. lia.
Qed.

Lemma tool_call_line_bounded_witness :
  ∃ message,
    project_log_text Sample.demo
      (@_log_tool_call Sample.obliging "wait" [("seconds", VFloat "0.5")] None
         (Sample.working None)).2 =
      project_log_text Sample.demo (Sample.working None) +:+
      @log_line Sample.obliging (Sample.working None) "INFO" message ∧
    (String.length message ≤ 332)%nat.
Proof.
  destruct (@tool_call_line_bounded Sample.obliging "wait" [("seconds", VFloat "0.5")] None
              (Sample.working None) Sample.demo eq_refl eq_refl) as (message & Htext & Hlen).
  exists message. split; [exact Htext | exact Hlen].
Defined.
